(** * Exam proctoring backend: monitoring sessions and attendance reconciliation

    A shallow embedding of the Express controllers

      - [backend/controllers/verificationController.js]
        (verifyFace, reportViolation, startMonitoringSession,
         endMonitoringSession, updateSessionStatus),
      - [backend/controllers/examController.js] (joinExam),
      - the attendance controller (updateAttendanceByAI,
        verifyAttendanceWithAI, verifyAttendanceWithPhotos,
        hybridAttendanceVerification),

    together with the Mongoose documents they read and write.

    Conventions of the embedding.
      - A MongoDB collection is a [list] of documents in natural order;
        [findOne] is the first document satisfying the filter.
      - A handler is a function from the collections, the request and the
        values the handler draws from its environment ([new Date()],
        [uuidv4()], [Math.random()]) to an [Outcome] and the new collection.
      - [res.status(c).json(..)] is [Json c ..]; a rejected promise that
        reaches [asyncHandler] is [Thrown].
      - JavaScript strings are modelled by [string] over ASCII characters:
        [toLowerCase], [toUpperCase] and [trim] act on the ASCII letters and
        the ASCII white space; the Unicode case mapping is not modelled.
      - Socket emissions ([io.emit]) do not influence any response or any
        stored document and are left out; so are the payload fields of the
        attendance reports that only echo [sessionId] and [attendanceDate]
        of the request.
      - An attendance record carries its populated [student]; a request
        field that must be a string or an array is one. *)

From Stdlib Require Import List String Ascii Bool Arith ZArith QArith Qround Lia.
From Stdlib Require Import DecimalString Lqa.
Import ListNotations.
Local Close Scope Q_scope.
Local Open Scope string_scope.
Local Open Scope bool_scope.

(* ================================================================== *)
(** ** JavaScript string primitives *)
(* ================================================================== *)

Module JsString.

Definition lowerChar (c : ascii) : ascii :=
  let n := nat_of_ascii c in
  if (65 <=? n)%nat && (n <=? 90)%nat then ascii_of_nat (n + 32) else c.

Definition upperChar (c : ascii) : ascii :=
  let n := nat_of_ascii c in
  if (97 <=? n)%nat && (n <=? 122)%nat then ascii_of_nat (n - 32) else c.

Fixpoint mapChars (f : ascii -> ascii) (s : string) : string :=
  match s with
  | EmptyString => EmptyString
  | String c s' => String (f c) (mapChars f s')
  end.

(** [String.prototype.toLowerCase] / [toUpperCase], on ASCII strings:
    the letters A-Z and a-z are mapped, every other character is kept.
    The Unicode case mapping, which can change the length of a string,
    is outside the model. *)
Definition toLowerCase (s : string) : string := mapChars lowerChar s.
Definition toUpperCase (s : string) : string := mapChars upperChar s.

(** White space removed by [String.prototype.trim]: TAB, LF, VT, FF, CR
    and SPACE. *)
Definition isWhiteSpace (c : ascii) : bool :=
  let n := nat_of_ascii c in
  ((9 <=? n)%nat && (n <=? 13)%nat) || (n =? 32)%nat.

Fixpoint trimStart (s : string) : string :=
  match s with
  | EmptyString => EmptyString
  | String c s' => if isWhiteSpace c then trimStart s' else s
  end.

Fixpoint trimEnd (s : string) : string :=
  match s with
  | EmptyString => EmptyString
  | String c s' =>
      match trimEnd s' with
      | EmptyString => if isWhiteSpace c then EmptyString
                       else String c EmptyString
      | t => String c t
      end
  end.

Definition trim (s : string) : string := trimEnd (trimStart s).

(** [sub] is an initial segment of [s]. *)
Fixpoint startsWith (s sub : string) {struct sub} : bool :=
  match sub, s with
  | EmptyString, _ => true
  | String _ _, EmptyString => false
  | String a sub', String b s' => Ascii.eqb a b && startsWith s' sub'
  end.

(** [s.includes(sub)]: [sub] occurs in [s] at some position. *)
Fixpoint includes (s sub : string) : bool :=
  startsWith s sub ||
  match s with
  | EmptyString => false
  | String _ s' => includes s' sub
  end.

(** Template-literal rendering of a non-negative integer. *)
Definition ofNat (n : nat) : string :=
  NilZero.string_of_uint (Nat.to_uint n).

(** JavaScript truthiness of a string: the empty string is falsy. *)
Definition truthy (s : string) : bool :=
  match s with EmptyString => false | _ => true end.

End JsString.

Import JsString.

(* ================================================================== *)
(** ** Shared vocabulary *)
(* ================================================================== *)

Definition ObjectId := nat.
Definition Date := Z.

(** Outcome of an Express handler. *)
Inductive Outcome (E A : Type) : Type :=
| Json (statusCode : nat) (success : bool) (message : option string)
       (data : option A)
| Thrown (e : E).
Arguments Json {E A} statusCode success message data.
Arguments Thrown {E A} e.

Definition isClientError {E A} (o : Outcome E A) : bool :=
  match o with
  | Json c false _ _ => (400 <=? c)%nat && (c <? 500)%nat
  | _ => false
  end.

Definition isSuccess {E A} (o : Outcome E A) : bool :=
  match o with
  | Json c true _ _ => (200 <=? c)%nat && (c <? 300)%nat
  | _ => false
  end.

(** The payload of a response. *)
Definition dataOf {E A} (o : Outcome E A) : option A :=
  match o with
  | Json _ _ _ data => data
  | Thrown _ => None
  end.

(** [Model.findOne(filter)]. *)
Definition findOne {A} (filter : A -> bool) (coll : list A) : option A :=
  List.find filter coll.

(** [Model.updateMany(filter, update)]: every matching document is
    updated in place; [modifiedCount] is the number of them. *)
Fixpoint updateMany {A} (filter : A -> bool) (update : A -> A)
         (coll : list A) : list A * nat :=
  match coll with
  | [] => ([], 0%nat)
  | d :: rest =>
      let (rest', n) := updateMany filter update rest in
      if filter d then (update d :: rest', S n) else (d :: rest', n)
  end.

(** [ids.includes(id)] / [$in]. *)
Definition idIn (id : ObjectId) (ids : list ObjectId) : bool :=
  existsb (Nat.eqb id) ids.

(* ================================================================== *)
(** ** Users *)
(* ================================================================== *)

Inductive Role := admin | invigilator | student_role.
Inductive VerificationStatus := vs_pending | vs_verified | vs_rejected.

Record User := mkUser {
  user_id : ObjectId;
  firstName : string;
  lastName : string;
  role : Role;
  verificationStatus : VerificationStatus;
  faceData : option string
}.

(** The same user with another verification status. *)
Definition withVerificationStatus (v : VerificationStatus) (u : User) : User :=
  {| user_id := user_id u; firstName := firstName u; lastName := lastName u;
     role := role u; verificationStatus := v; faceData := faceData u |}.

Definition isStaff (r : Role) : bool :=
  match r with admin | invigilator => true | student_role => false end.

Definition isVerified (v : VerificationStatus) : bool :=
  match v with vs_verified => true | _ => false end.

(* ================================================================== *)
(** ** Attendance *)
(* ================================================================== *)

Module Attendance.

Inductive Mark := Present | Absent.

Definition markEqb (a b : Mark) : bool :=
  match a, b with
  | Present, Present | Absent, Absent => true
  | _, _ => false
  end.

(** An attendance document with its [student] reference populated. *)
Record Record_ := mkAttendance {
  student : User;
  sessionId : string;
  attendanceDate : Date;
  studentName : string;
  attendanceMark : Mark;
  markedAt : option Date
}.

(** [`${record.student.firstName} ${record.student.lastName}`] *)
Definition fullNameOf (record : Record_) : string :=
  firstName (student record) ++ " " ++ lastName (student record).

(** [(str) => str.toLowerCase().trim()] *)
Definition normalized (str : string) : string := trim (toLowerCase str).

(** The filter [{ sessionId, attendanceDate }]. *)
Definition inSession (sid : string) (d : Date) (r : Record_) : bool :=
  String.eqb (sessionId r) sid && Z.eqb (attendanceDate r) d.

(** The filter of the bulk update:
    [{ sessionId, attendanceDate, student: {$in: ids}, attendanceMark: "Absent" }]. *)
Definition absentAmong (sid : string) (d : Date) (ids : list ObjectId)
           (r : Record_) : bool :=
  inSession sid d r && idIn (user_id (student r)) ids
  && markEqb (attendanceMark r) Absent.

(** [$set: { attendanceMark: "Present", markedAt: new Date() }] *)
Definition setPresent (now : Date) (r : Record_) : Record_ :=
  {| student := student r;
     sessionId := sessionId r;
     attendanceDate := attendanceDate r;
     studentName := studentName r;
     attendanceMark := Present;
     markedAt := Some now |}.

Definition markPresent (sid : string) (d : Date) (ids : list ObjectId)
           (now : Date) (coll : list Record_) : list Record_ * nat :=
  updateMany (absentAmong sid d ids) (setPresent now) coll.

(** The effect of [markPresent] on one record. *)
Definition marked (sid : string) (d : Date) (ids : list ObjectId)
           (now : Date) (r : Record_) : Record_ :=
  if absentAmong sid d ids r then setPresent now r else r.

Definition countMark (m : Mark) (coll : list Record_) : nat :=
  List.length (filter (fun r => markEqb (attendanceMark r) m) coll).

(* ---------------------------------------------------------------- *)
(** *** updateAttendanceByAI *)

Record MarkRequest := mkMarkRequest {
  mr_sessionId : string;
  mr_attendanceDate : option Date;
  mr_presentStudentIds : option (list ObjectId)  (* [None]: not an array *)
}.

Record MarkData := mkMarkData {
  modifiedCount : nat;
  markedSession : option string      (* [sessionId], when it is sent back *)
}.

Definition updateAttendanceByAI (coll : list Record_) (req : MarkRequest)
           (now : Date) : Outcome unit MarkData * list Record_ :=
  match mr_attendanceDate req, mr_presentStudentIds req with
  | Some d, Some ((_ :: _) as ids) =>
      if negb (truthy (mr_sessionId req)) then
        (Json 400 false
           (Some "Session ID, Date, and a list of present student IDs are required.")
           None, coll)
      else
        let (coll', n) := markPresent (mr_sessionId req) d ids now coll in
        if (n =? 0)%nat then
          (Json 200 true
             (Some "No new students marked Present. They may have already been marked.")
             (Some {| modifiedCount := 0; markedSession := None |}), coll')
        else
          (Json 200 true
             (Some (ofNat n ++ " student(s) successfully marked as Present."))
             (Some {| modifiedCount := n;
                    markedSession := Some (mr_sessionId req) |}), coll')
  | _, _ =>
      (Json 400 false
         (Some "Session ID, Date, and a list of present student IDs are required.")
         None, coll)
  end.

(* ---------------------------------------------------------------- *)
(** *** verifyAttendanceWithAI *)

Inductive Verdict := Matched | NotFound.

Record MatchLogEntry := mkMatchLogEntry {
  detected : string;
  matched : option string;
  status : Verdict
}.

(** The condition of the inner loop. *)
Definition nameMatches (fullName aiName : string) : bool :=
  String.eqb (normalized fullName) (normalized aiName)
  || includes (normalized fullName) (normalized aiName)
  || includes (normalized aiName) (normalized fullName).

(** The inner [for (const record of attendanceRecords)] loop with its
    [break]: the record at which the loop stops, if it does. *)
Fixpoint firstMatch (cond : string -> string -> bool) (aiName : string)
         (attendanceRecords : list Record_) : option Record_ :=
  match attendanceRecords with
  | [] => None
  | record :: rest =>
      if cond (fullNameOf record) aiName then Some record
      else firstMatch cond aiName rest
  end.

(** The outer [for (const aiName of aiDetectedStudents)] loop, threading
    the two accumulators [presentStudentIds] and [matchLog]. *)
Fixpoint reconcile (aiDetectedStudents : list string)
         (attendanceRecords : list Record_)
         (presentStudentIds : list ObjectId) (matchLog : list MatchLogEntry)
  : list ObjectId * list MatchLogEntry :=
  match aiDetectedStudents with
  | [] => (presentStudentIds, matchLog)
  | aiName :: rest =>
      match firstMatch nameMatches aiName attendanceRecords with
      | Some record =>
          reconcile rest attendanceRecords
            (presentStudentIds ++ [user_id (student record)])
            (matchLog ++ [ {| detected := aiName;
                              matched := Some (fullNameOf record);
                              status := Matched |} ])
      | None =>
          reconcile rest attendanceRecords presentStudentIds
            (matchLog ++ [ {| detected := aiName;
                              matched := None;
                              status := NotFound |} ])
      end
  end.

Record VerifyRequest := mkVerifyRequest {
  vr_sessionId : string;
  vr_attendanceDate : option Date;
  vr_aiDetectedStudents : option (list string)   (* [None]: not an array *)
}.

Record Summary := mkSummary {
  present : nat;
  absent : nat;
  total : nat
}.

Record VerifyData := mkVerifyData {
  vd_detected : nat;
  vd_matched : nat;
  vd_updated : nat;
  vd_matchLog : list MatchLogEntry;
  vd_summary : Summary
}.

Definition verifyAttendanceWithAI (coll : list Record_)
           (req : VerifyRequest) (now : Date)
  : Outcome unit VerifyData * list Record_ :=
  match vr_attendanceDate req with
  | None => (Json 400 false (Some "Session ID and Date are required.") None, coll)
  | Some d =>
      if negb (truthy (vr_sessionId req)) then
        (Json 400 false (Some "Session ID and Date are required.") None, coll)
      else
        match vr_aiDetectedStudents req with
        | Some ((_ :: _) as aiDetectedStudents) =>
            let sid := vr_sessionId req in
            let attendanceRecords := filter (inSession sid d) coll in
            match attendanceRecords with
            | [] =>
                (Json 404 false
                   (Some "No attendance records found for this session and date.")
                   None, coll)
            | _ =>
                let (presentStudentIds, matchLog) :=
                  reconcile aiDetectedStudents attendanceRecords [] [] in
                let (coll', updated) :=
                  markPresent sid d presentStudentIds now coll in
                let finalRecords := filter (inSession sid d) coll' in
                (Json 200 true
                   (Some ("Verification complete. " ++ ofNat updated
                          ++ " student(s) marked as Present."))
                   (Some {| vd_detected := List.length aiDetectedStudents;
                            vd_matched := List.length presentStudentIds;
                            vd_updated := updated;
                            vd_matchLog := matchLog;
                            vd_summary :=
                              {| present := countMark Present finalRecords;
                                 absent := countMark Absent finalRecords;
                                 total := List.length finalRecords |} |}),
                 coll')
            end
        | _ =>
            (Json 400 false
               (Some "aiDetectedStudents must be a non-empty array.")
               None, coll)
        end
  end.

(* ---------------------------------------------------------------- *)
(** *** verifyAttendanceWithPhotos *)

Inductive PhotoStatus := PhotoVerified | PhotoNotFound.

Record MatchDetail := mkMatchDetail {
  md_detected : string;
  md_matched : string;
  md_status : PhotoStatus
}.

(** The [for (const aiName of aiPresentStudents)] loop around
    [attendanceRecords.find(..)]. *)
Fixpoint photoReconcile (aiPresentStudents : list string)
         (attendanceRecords : list Record_)
         (presentStudentIds : list ObjectId) (matchDetails : list MatchDetail)
  : list ObjectId * list MatchDetail :=
  match aiPresentStudents with
  | [] => (presentStudentIds, matchDetails)
  | aiName :: rest =>
      match firstMatch nameMatches aiName attendanceRecords with
      | Some match_ =>
          photoReconcile rest attendanceRecords
            (presentStudentIds ++ [user_id (student match_)])
            (matchDetails ++ [ {| md_detected := aiName;
                                  md_matched := fullNameOf match_;
                                  md_status := PhotoVerified |} ])
      | None =>
          photoReconcile rest attendanceRecords presentStudentIds
            (matchDetails ++ [ {| md_detected := aiName;
                                  md_matched := "No match";
                                  md_status := PhotoNotFound |} ])
      end
  end.

Record PhotosRequest := mkPhotosRequest {
  pr_sessionId : string;
  pr_attendanceDate : option Date;
  pr_aiReportUrl : string
}.

Inductive PhotosData :=
| NoPhotosDetected                       (* [{updated: 0, detected: 0}] *)
| PhotosReport (aiDetected matchedCount updated : nat)
               (matchDetails : list MatchDetail) (summary : Summary).

Definition isPhotoVerified (m : MatchDetail) : bool :=
  match md_status m with PhotoVerified => true | PhotoNotFound => false end.

(** [fetched] is what [axios.get(aiReportUrl)] gives: the error message
    when the request fails, otherwise [present_students || []] of the
    report. *)
Definition verifyAttendanceWithPhotos (coll : list Record_)
           (req : PhotosRequest) (fetched : string + list string)
           (now : Date) : Outcome unit PhotosData * list Record_ :=
  match pr_attendanceDate req with
  | None =>
      (Json 400 false
         (Some "Session ID, Date, and AI report URL are required.") None, coll)
  | Some d =>
      if negb (truthy (pr_sessionId req)) || negb (truthy (pr_aiReportUrl req))
      then
        (Json 400 false
           (Some "Session ID, Date, and AI report URL are required.") None,
         coll)
      else
        match fetched with
        | inl errorMessage =>
            (Json 400 false
               (Some ("Failed to fetch AI report: " ++ errorMessage)) None,
             coll)
        | inr [] =>
            (Json 200 true
               (Some "No students detected as present in AI report.")
               (Some NoPhotosDetected), coll)
        | inr aiPresentStudents =>
            let sid := pr_sessionId req in
            let attendanceRecords := filter (inSession sid d) coll in
            let (presentStudentIds, matchDetails) :=
              photoReconcile aiPresentStudents attendanceRecords [] [] in
            let (coll', updated) :=
              markPresent sid d presentStudentIds now coll in
            let finalRecords := filter (inSession sid d) coll' in
            (Json 200 true
               (Some (ofNat updated
                      ++ " student(s) verified and marked Present."))
               (Some (PhotosReport
                        (List.length aiPresentStudents)
                        (List.length (filter isPhotoVerified matchDetails))
                        updated matchDetails
                        {| present := countMark Present finalRecords;
                           absent := countMark Absent finalRecords;
                           total := List.length finalRecords |})),
             coll')
        end
  end.

(* ---------------------------------------------------------------- *)
(** *** hybridAttendanceVerification *)

(** The condition of the inner loop of the hybrid variant: the two
    containment tests are gated by [aiName.length > 2] and
    [fullName.length > 2]. *)
Definition hybridMatches (fullName aiName : string) : bool :=
  String.eqb (normalized fullName) (normalized aiName)
  || (includes (normalized fullName) (normalized aiName)
      && (2 <? String.length aiName)%nat)
  || (includes (normalized aiName) (normalized fullName)
      && (2 <? String.length fullName)%nat).

Inductive HybridStatus := Verified | NoMatch.

Record VerificationLogEntry := mkVerificationLogEntry {
  vl_aiName : string;
  vl_dbName : option string;
  vl_confidence : Q;
  vl_status : HybridStatus
}.

(** [aiReport]: [present_students || []] and, for [attendance_details],
    the value the handler logs for a name
    ([attendanceDetails[aiName]?.confidence || 0], parsed when it is a
    string). *)
Record AiReport := mkAiReport {
  present_students : list string;
  confidenceOf : string -> Q
}.

Fixpoint hybridReconcile (confidenceOf : string -> Q)
         (aiPresentStudents : list string)
         (attendanceRecords : list Record_)
         (presentStudentIds : list ObjectId)
         (verificationLog : list VerificationLogEntry)
  : list ObjectId * list VerificationLogEntry :=
  match aiPresentStudents with
  | [] => (presentStudentIds, verificationLog)
  | aiName :: rest =>
      let confidence := confidenceOf aiName in
      match firstMatch hybridMatches aiName attendanceRecords with
      | Some record =>
          hybridReconcile confidenceOf rest attendanceRecords
            (presentStudentIds ++ [user_id (student record)])
            (verificationLog ++ [ {| vl_aiName := aiName;
                                     vl_dbName := Some (fullNameOf record);
                                     vl_confidence := confidence;
                                     vl_status := Verified |} ])
      | None =>
          hybridReconcile confidenceOf rest attendanceRecords
            presentStudentIds
            (verificationLog ++ [ {| vl_aiName := aiName;
                                     vl_dbName := None;
                                     vl_confidence := confidence;
                                     vl_status := NoMatch |} ])
      end
  end.

Record HybridRequest := mkHybridRequest {
  hr_sessionId : string;
  hr_attendanceDate : option Date;
  hr_aiReport : option AiReport
}.

Inductive HybridData :=
| NothingDetected                       (* [{updated: 0, detected: 0, verified: 0}] *)
| HybridReport (aiDetected verified updated : nat)
               (verificationLog : list VerificationLogEntry)
               (summary : Summary)
               (presentStudents absentStudents : list string).

Definition namesWith (m : Mark) (coll : list Record_) : list string :=
  map fullNameOf (filter (fun r => markEqb (attendanceMark r) m) coll).

Definition hybridAttendanceVerification (coll : list Record_)
           (req : HybridRequest) (now : Date)
  : Outcome unit HybridData * list Record_ :=
  match hr_attendanceDate req, hr_aiReport req with
  | Some d, Some aiReport =>
      if negb (truthy (hr_sessionId req)) then
        (Json 400 false
           (Some "Session ID, Date, and AI report data are required.")
           None, coll)
      else
        match present_students aiReport with
        | [] =>
            (Json 200 true (Some "No students detected in AI report.")
               (Some NothingDetected), coll)
        | aiPresentStudents =>
            let sid := hr_sessionId req in
            let attendanceRecords := filter (inSession sid d) coll in
            match attendanceRecords with
            | [] =>
                (Json 404 false
                   (Some "No attendance records found for this session and date.")
                   None, coll)
            | _ =>
                let (presentStudentIds, verificationLog) :=
                  hybridReconcile (confidenceOf aiReport) aiPresentStudents
                                  attendanceRecords [] [] in
                let (coll', updated) :=
                  markPresent sid d presentStudentIds now coll in
                let finalRecords := filter (inSession sid d) coll' in
                (Json 200 true
                   (Some ("Hybrid verification complete. " ++ ofNat updated
                          ++ " student(s) marked Present."))
                   (Some (HybridReport
                            (List.length aiPresentStudents)
                            (List.length presentStudentIds)
                            updated verificationLog
                            {| present := countMark Present finalRecords;
                               absent := countMark Absent finalRecords;
                               total := List.length finalRecords |}
                            (namesWith Present finalRecords)
                            (namesWith Absent finalRecords))),
                 coll')
            end
        end
  | _, _ =>
      (Json 400 false
         (Some "Session ID, Date, and AI report data are required.")
         None, coll)
  end.

(* ---------------------------------------------------------------- *)
(** *** getSessionAttendance and getAttendanceSummary *)

Record LookupRequest := mkLookupRequest {
  lr_sessionId : string;
  lr_attendanceDate : option Date
}.

Record AttendanceLog := mkAttendanceLog {
  al_attendance : list Record_;
  al_totalRecords : nat;
  al_presentCount : nat;
  al_absentCount : nat
}.

Definition getSessionAttendance (coll : list Record_) (req : LookupRequest)
  : Outcome unit AttendanceLog :=
  match lr_attendanceDate req with
  | None =>
      Json 400 false (Some "Session ID and Date are required for lookup.") None
  | Some d =>
      if negb (truthy (lr_sessionId req)) then
        Json 400 false (Some "Session ID and Date are required for lookup.") None
      else
        match filter (inSession (lr_sessionId req) d) coll with
        | [] =>
            Json 404 false
              (Some "No attendance log found for this session and date.") None
        | attendanceLog =>
            Json 200 true None
              (Some {| al_attendance := attendanceLog;
                       al_totalRecords := List.length attendanceLog;
                       al_presentCount := countMark Present attendanceLog;
                       al_absentCount := countMark Absent attendanceLog |})
        end
  end.

Record AttendanceSummary := mkAttendanceSummary {
  as_total : nat;
  as_present : nat;
  as_absent : nat;
  as_presentStudents : list (string * option Date);   (* [{name, marked}] *)
  as_absentStudents : list string
}.

Definition getAttendanceSummary (coll : list Record_) (req : LookupRequest)
  : Outcome unit AttendanceSummary :=
  match lr_attendanceDate req with
  | None => Json 400 false (Some "Session ID and Date are required.") None
  | Some d =>
      if negb (truthy (lr_sessionId req)) then
        Json 400 false (Some "Session ID and Date are required.") None
      else
        let records := filter (inSession (lr_sessionId req) d) coll in
        let presentStudents :=
          map (fun r => (fullNameOf r, markedAt r))
              (filter (fun r => markEqb (attendanceMark r) Present) records) in
        let absentStudents :=
          map fullNameOf
              (filter (fun r => markEqb (attendanceMark r) Absent) records) in
        Json 200 true None
          (Some {| as_total := List.length records;
                   as_present := List.length presentStudents;
                   as_absent := List.length absentStudents;
                   as_presentStudents := presentStudents;
                   as_absentStudents := absentStudents |})
  end.

End Attendance.

(* ================================================================== *)
(** ** Exams *)
(* ================================================================== *)

Module Exam.

Inductive Status := scheduled | ongoing | completed | cancelled.

Definition isOngoing (s : Status) : bool :=
  match s with ongoing => true | _ => false end.

Record ExamSettings := mkExamSettings {
  faceVerificationRequired : bool
}.

Record Exam_ := mkExam {
  _id : ObjectId;
  examCode : string;
  status : Status;
  enrolledStudents : list ObjectId;   (* [enrollment.student] of each entry *)
  examSettings : ExamSettings
}.

(** [exam.enrolledStudents.some(e => e.student.equals(userId))] *)
Definition isEnrolled (exam : Exam_) (userId : ObjectId) : bool :=
  existsb (fun enrolled => Nat.eqb enrolled userId) (enrolledStudents exam).

End Exam.

(* ================================================================== *)
(** ** Monitoring sessions *)
(* ================================================================== *)

Module Monitoring.

Inductive Status := active | paused | completed | terminated.
Inductive Recommendation := accept | review | reject.
Inductive VerificationOutcome :=
  verified | failed | no_face | multiple_faces | no_reference.
Inductive Severity := low | medium | high | critical.

Record VerificationRecord := mkVerification {
  timestamp : Date;
  result : VerificationOutcome;
  confidence : Q;
  image : string
}.

Record Violation := mkViolation {
  type : string;
  severity : Severity;
  description : string;
  evidence : string;
  v_timestamp : option Date       (* [None]: left to the schema *)
}.

Record FinalReport := mkFinalReport {
  totalViolations : nat;
  riskScore : Z;
  recommendation : Recommendation;
  notes : string
}.

Record MonitoringSession := mkSession {
  _id : ObjectId;
  exam : ObjectId;
  student : ObjectId;
  sessionId : string;
  startTime : Date;
  endTime : option Date;
  status : Status;
  faceVerifications : list VerificationRecord;
  violations : list Violation;
  isTerminated : bool;
  terminationReason : option string;
  finalReport : option FinalReport
}.

Definition Store := list MonitoringSession.

Definition isLive (s : Status) : bool :=
  match s with active | paused => true | completed | terminated => false end.

Definition isTerminal (s : Status) : bool :=
  match s with completed | terminated => true | active | paused => false end.

(** The filter [{ sessionId }]. *)
Definition bySessionId (sid : string) (s : MonitoringSession) : bool :=
  String.eqb (sessionId s) sid.

(** The filter [{ exam, student, status: {$in: ["active", "paused"]} }]. *)
Definition liveFor (examId userId : ObjectId) (s : MonitoringSession) : bool :=
  Nat.eqb (exam s) examId && Nat.eqb (student s) userId && isLive (status s).

(** [doc.save()]: the stored document with the same [_id] is replaced. *)
Fixpoint save (doc : MonitoringSession) (coll : Store) : Store :=
  match coll with
  | [] => []
  | d :: rest =>
      if Nat.eqb (_id d) (_id doc) then doc :: rest else d :: save doc rest
  end.

(** Modelled from the spec: the defaults of the MonitoringSession schema
    (models/MonitoringSession.js is not part of the sources); a session
    is created [active], with empty ledgers, no end time, not terminated
    and without a final report. *)
Definition defaultStatus : Status := active.

(** [MonitoringSession.create({exam, student, sessionId, startTime, status?})];
    [newId] is the [_id] the database assigns. *)
Definition create (newId examId userId : ObjectId) (uuid : string)
           (now : Date) (st : option Status) : MonitoringSession :=
  {| _id := newId;
     exam := examId;
     student := userId;
     sessionId := uuid;
     startTime := now;
     endTime := None;
     status := match st with Some s => s | None => defaultStatus end;
     faceVerifications := [];
     violations := [];
     isTerminated := false;
     terminationReason := None;
     finalReport := None |}.

(** [session.violations.push(v)] and [session.faceVerifications.push(r)]. *)
Definition pushViolation (v : Violation) (s : MonitoringSession)
  : MonitoringSession :=
  {| _id := _id s; exam := exam s; student := student s;
     sessionId := sessionId s; startTime := startTime s;
     endTime := endTime s; status := status s;
     faceVerifications := faceVerifications s;
     violations := (violations s ++ [v])%list;
     isTerminated := isTerminated s;
     terminationReason := terminationReason s;
     finalReport := finalReport s |}.

Definition pushVerification (r : VerificationRecord) (s : MonitoringSession)
  : MonitoringSession :=
  {| _id := _id s; exam := exam s; student := student s;
     sessionId := sessionId s; startTime := startTime s;
     endTime := endTime s; status := status s;
     faceVerifications := (faceVerifications s ++ [r])%list;
     violations := violations s;
     isTerminated := isTerminated s;
     terminationReason := terminationReason s;
     finalReport := finalReport s |}.

(** Every stored document has its own [_id]. *)
Definition UniqueIds (st : Store) : Prop := NoDup (map _id st).

(* ---------------------------------------------------------------- *)
(** *** mockFaceRecognition *)

(** The draws of [Math.random()] one call of a handler consumes.  A draw
    is a rational number and the arithmetic on it is exact: the rounding
    of the doubles JavaScript computes with is not part of the model, so
    that only the comparisons against the constants of the code, and
    bounds that rounding to the nearest double preserves, are read off
    these definitions. *)
Record Randomness := mkRandomness {
  r_faceCount : Q;
  r_hasFace : Q;
  r_multipleFaces : Q;
  r_similarity : Q
}.

Record FaceDetection := mkFaceDetection {
  faceCount : Z;
  hasFace : bool;
  multipleFaces : bool
}.

Definition Qgtb (a b : Q) : bool := negb (Qle_bool a b).

Definition detectFaces (rnd : Randomness) : FaceDetection :=
  {| faceCount := Qfloor (r_faceCount rnd * 3);
     hasFace := Qgtb (r_hasFace rnd) (2 # 10);
     multipleFaces := Qgtb (r_multipleFaces rnd) (8 # 10) |}.

Record Comparison := mkComparison {
  c_confidence : Q;
  c_match : bool
}.

(** [compareFaces(descriptor1, descriptor2, threshold = 0.6)]; a
    descriptor is looked at only through its truthiness. *)
Definition compareFaces (descriptor1 descriptor2 : bool) (rnd : Randomness)
  : Comparison :=
  if negb descriptor1 || negb descriptor2 then
    {| c_confidence := 0; c_match := false |}
  else
    let similarity := (r_similarity rnd * (4 # 10) + (6 # 10))%Q in
    {| c_confidence := similarity;
       c_match := Qle_bool (6 # 10) similarity |}.

(** [image.substring(0, 100) + "..."] *)
Definition truncated (image : string) : string :=
  String.substring 0 100 image ++ "...".

(* ---------------------------------------------------------------- *)
(** *** Exceptions and the handler monad *)

Inductive Exn (E : Type) :=
| TypeError                 (* property access on [null] *)
| SyntaxError               (* [JSON.parse] *)
| MethodError (e : E).      (* a document method rejected *)
Arguments TypeError {E}.
Arguments SyntaxError {E}.
Arguments MethodError {E} e.

Inductive Result (E A : Type) :=
| Ok (a : A)
| Err (e : E).
Arguments Ok {E A} a.
Arguments Err {E A} e.

(** A computation over the session collection that may throw. *)
Definition M (E A : Type) : Type := Store -> Result (Exn E) A * Store.

Definition ret {E A} (a : A) : M E A := fun st => (Ok a, st).

Definition throw {E A} (e : Exn E) : M E A := fun st => (Err e, st).

Definition bind {E A B} (c : M E A) (k : A -> M E B) : M E B :=
  fun st =>
    match c st with
    | (Ok a, st') => k a st'
    | (Err e, st') => (Err e, st')
    end.

(** [try { c } catch (error) { h }] *)
Definition tryCatch {E A} (c : M E A) (h : M E A) : M E A :=
  fun st =>
    match c st with
    | (Ok a, st') => (Ok a, st')
    | (Err _, st') => h st'
    end.

(** [await session.method(arg)] for a document method that updates the
    document and saves it, or rejects. *)
Definition call {E A}
           (method : MonitoringSession -> A -> Result E MonitoringSession)
           (session : MonitoringSession) (arg : A) : M E MonitoringSession :=
  fun st =>
    match method session arg with
    | Ok session' => (Ok session', save session' st)
    | Err e => (Err (MethodError e), st)
    end.

(** A document method that refuses the session [s], whatever it is
    given. *)
Definition Refuses {E A}
           (method : MonitoringSession -> A -> Result E MonitoringSession)
           (s : MonitoringSession) : Prop :=
  forall arg, exists e, method s arg = Err e.

(** What [asyncHandler] makes of a handler body. *)
Definition respond {E A} (c : M E (nat * bool * option string * option A))
           (st : Store) : Outcome (Exn E) A * Store :=
  match c st with
  | (Ok (code, ok, msg, data), st') => (Json code ok msg data, st')
  | (Err e, st') => (Thrown e, st')
  end.

Declare Scope handler_scope.
Delimit Scope handler_scope with handler.
Notation "x <- c ;; k" := (bind c (fun x => k))
  (at level 61, c at next level, right associativity) : handler_scope.

(* ---------------------------------------------------------------- *)
(** *** The controllers *)

Section Controllers.

(** The document methods of the MonitoringSession model and
    [JSON.parse] are taken as parameters: the controllers only call
    them. *)
Variable E : Type.
Variable addViolation :
  MonitoringSession -> Violation -> Result E MonitoringSession.
Variable addFaceVerification :
  MonitoringSession -> VerificationRecord -> Result E MonitoringSession.
Variable calculateRiskScore : MonitoringSession -> Z.
(** [JSON.parse(faceData)]: [None] when it throws, otherwise the
    truthiness of the parsed descriptor. *)
Variable JSON_parse : string -> option bool.

Local Open Scope handler_scope.

Definition Reply (A : Type) : Type := (nat * bool * option string * option A)%type.

Definition reply {A} (code : nat) (ok : bool) (msg : option string)
           (data : option A) : M E (Reply A) :=
  ret (code, ok, msg, data).

(** [.populate("student")] *)
Definition populate (users : list User) (id : ObjectId) : option User :=
  findOne (fun u => Nat.eqb (user_id u) id) users.

Definition withResult (r : VerificationOutcome) (c : Q)
           (v : VerificationRecord) : VerificationRecord :=
  {| timestamp := timestamp v; result := r; confidence := c;
     image := image v |}.

Record FaceData := mkFaceData {
  fd_result : VerificationOutcome;
  fd_confidence : Q
}.

(** The body of the [try] block of [verifyFace], up to and including
    [session.addFaceVerification]. *)
Definition verifyFaceAttempt (session : MonitoringSession)
           (studentDoc : User) (img : string) (rnd : Randomness)
           (now : Date) : M E VerificationRecord :=
  let faceDetection := detectFaces rnd in
  let verificationResult :=
    {| timestamp := now; result := failed; confidence := 0;
       image := truncated img |} in
  sv <- (if negb (hasFace faceDetection) then
           ret (session, withResult no_face 0 verificationResult)
         else if multipleFaces faceDetection then
           session' <- call addViolation session
                         {| type := "multiple_faces";
                            severity := high;
                            description := "Multiple faces detected in frame";
                            evidence := truncated img;
                            v_timestamp := None |} ;;
           ret (session', withResult multiple_faces 0 verificationResult)
         else
           match faceData studentDoc with
           | Some ((String _ _) as descriptorText) =>
               match JSON_parse descriptorText with
               | None => throw SyntaxError
               | Some storedDescriptor =>
                   let comparison :=
                     compareFaces storedDescriptor true rnd in
                   let v := withResult
                              (if c_match comparison then verified else failed)
                              (c_confidence comparison)
                              verificationResult in
                   if negb (c_match comparison) then
                     session' <- call addViolation session
                                   {| type := "unauthorized_person";
                                      severity := critical;
                                      description :=
                                        "Face verification failed - potential impersonation";
                                      evidence := truncated img;
                                      v_timestamp := None |} ;;
                     ret (session', v)
                   else ret (session, v)
               end
           | _ => ret (session, withResult no_reference 0 verificationResult)
           end) ;;
  _ <- call addFaceVerification (fst sv) (snd sv) ;;
  ret (snd sv).

Definition verifyFace (users : list User) (reqUser : User)
           (sid : string) (img : string) (rnd : Randomness) (now : Date)
  : Store -> Outcome (Exn E) FaceData * Store :=
  fun st =>
    match findOne (bySessionId sid) st with
    | None =>
        (Json 404 false (Some "Monitoring session not found") None, st)
    | Some session =>
        match populate users (student session) with
        | None => (Thrown TypeError, st)
        | Some studentDoc =>
            if negb (Nat.eqb (user_id studentDoc) (user_id reqUser)) then
              (Json 403 false (Some "Unauthorized access to session") None, st)
            else
              respond
                (tryCatch
                   (v <- verifyFaceAttempt session studentDoc img rnd now ;;
                    reply 200 true None
                          (Some {| fd_result := result v;
                                   fd_confidence := confidence v |}))
                   (reply 500 false (Some "Face verification failed") None))
                st
        end
    end.

(** [session.student.equals(req.user._id) ||
     ["admin", "invigilator"].includes(req.user.role)] *)
Definition mayAct (session : MonitoringSession) (reqUser : User) : bool :=
  Nat.eqb (student session) (user_id reqUser) || isStaff (role reqUser).

Record ViolationReport := mkViolationReport {
  rq_type : string;
  rq_severity : Severity;
  rq_description : string;
  rq_evidence : string
}.

Definition reportViolation (reqUser : User) (sid : string)
           (body : ViolationReport) (now : Date)
  : Store -> Outcome (Exn E) Violation * Store :=
  fun st =>
    match findOne (bySessionId sid) st with
    | None =>
        (Json 404 false (Some "Monitoring session not found") None, st)
    | Some session =>
        if negb (mayAct session reqUser) then
          (Json 403 false (Some "Unauthorized access to session") None, st)
        else
          let violation :=
            {| type := rq_type body;
               severity := rq_severity body;
               description := rq_description body;
               evidence := rq_evidence body;
               v_timestamp := Some now |} in
          respond
            (_ <- call addViolation session violation ;;
             reply 200 true (Some "Violation reported successfully")
                   (Some violation))
            st
    end.

(** The three lookups that precede session creation. *)
Definition startMonitoringSession (exams : list Exam.Exam_)
           (reqUser : User) (examId : ObjectId)
           (newId : ObjectId) (uuid : string) (now : Date)
  : Store -> Outcome (Exn E) MonitoringSession * Store :=
  fun st =>
    match findOne (fun e => Nat.eqb (Exam._id e) examId) exams with
    | None => (Json 404 false (Some "Exam not found") None, st)
    | Some exam_ =>
        if negb (Exam.isOngoing (Exam.status exam_)) then
          (Json 400 false (Some "Exam is not currently active") None, st)
        else if negb (Exam.isEnrolled exam_ (user_id reqUser)) then
          (Json 403 false (Some "You are not enrolled in this exam") None, st)
        else
          match findOne (liveFor examId (user_id reqUser)) st with
          | Some existingSession =>
              (Json 200 true (Some "Monitoring session already active")
                    (Some existingSession), st)
          | None =>
              let session :=
                create newId examId (user_id reqUser) uuid now (Some active) in
              (Json 201 true (Some "Monitoring session started")
                    (Some session), (st ++ [session])%list)
          end
    end.

Definition bandOf (riskScore : Z) : Recommendation :=
  if (70 <? riskScore)%Z then reject
  else if (40 <? riskScore)%Z then review
  else accept.

Definition endMonitoringSession (reqUser : User) (sid : string)
           (now : Date)
  : Store -> Outcome (Exn E) MonitoringSession * Store :=
  fun st =>
    match findOne (bySessionId sid) st with
    | None =>
        (Json 404 false (Some "Monitoring session not found") None, st)
    | Some session =>
        if negb (Nat.eqb (student session) (user_id reqUser)) then
          (Json 403 false (Some "Unauthorized access to session") None, st)
        else if isTerminal (status session) then
          (Json 400 false (Some "Session is already ended") None, st)
        else
          let riskScore := calculateRiskScore session in
          let recommendation := bandOf riskScore in
          let session' :=
            {| _id := _id session;
               exam := exam session;
               student := student session;
               sessionId := sessionId session;
               startTime := startTime session;
               endTime := Some now;
               status := completed;
               faceVerifications := faceVerifications session;
               violations := violations session;
               isTerminated := isTerminated session;
               terminationReason := terminationReason session;
               finalReport :=
                 Some {| totalViolations := List.length (violations session);
                         riskScore := riskScore;
                         recommendation := recommendation;
                         notes := "Session completed with "
                                  ++ ofNat (List.length (violations session))
                                  ++ " violations" |} |} in
          (Json 200 true (Some "Monitoring session ended") (Some session'),
           save session' st)
    end.

(** [reason || "Session terminated"] *)
Definition reasonOrDefault (reason : option string) : string :=
  match reason with
  | Some ((String _ _) as r) => r
  | _ => "Session terminated"
  end.

Definition updateSessionStatus (reqUser : User) (sid : string)
           (newStatus : Status) (reason : option string) (now : Date)
  : Store -> Outcome (Exn E) MonitoringSession * Store :=
  fun st =>
    match findOne (bySessionId sid) st with
    | None =>
        (Json 404 false (Some "Monitoring session not found") None, st)
    | Some session =>
        if negb (mayAct session reqUser) then
          (Json 403 false (Some "Unauthorized access to session") None, st)
        else
          let session' :=
            {| _id := _id session;
               exam := exam session;
               student := student session;
               sessionId := sessionId session;
               startTime := startTime session;
               endTime := match newStatus with
                          | terminated | completed => Some now
                          | _ => endTime session
                          end;
               status := newStatus;
               faceVerifications := faceVerifications session;
               violations := violations session;
               isTerminated := match newStatus with
                               | terminated => true
                               | _ => isTerminated session
                               end;
               terminationReason :=
                 match newStatus with
                 | terminated => Some (reasonOrDefault reason)
                 | _ => terminationReason session
                 end;
               finalReport := finalReport session |} in
          (Json 200 true (Some "Session status updated") (Some session'),
           save session' st)
    end.

(** The document [endMonitoringSession] saves on its successful path. *)
Definition finalized (session : MonitoringSession) (now : Date)
  : MonitoringSession :=
  {| _id := _id session;
     exam := exam session;
     student := student session;
     sessionId := sessionId session;
     startTime := startTime session;
     endTime := Some now;
     status := completed;
     faceVerifications := faceVerifications session;
     violations := violations session;
     isTerminated := isTerminated session;
     terminationReason := terminationReason session;
     finalReport :=
       Some {| totalViolations := List.length (violations session);
               riskScore := calculateRiskScore session;
               recommendation := bandOf (calculateRiskScore session);
               notes := "Session completed with "
                        ++ ofNat (List.length (violations session))
                        ++ " violations" |} |}.

(** The document [updateSessionStatus] saves. *)
Definition transitioned (session : MonitoringSession) (newStatus : Status)
           (reason : option string) (now : Date) : MonitoringSession :=
  {| _id := _id session;
     exam := exam session;
     student := student session;
     sessionId := sessionId session;
     startTime := startTime session;
     endTime := match newStatus with
                | terminated | completed => Some now
                | _ => endTime session
                end;
     status := newStatus;
     faceVerifications := faceVerifications session;
     violations := violations session;
     isTerminated := match newStatus with
                     | terminated => true
                     | _ => isTerminated session
                     end;
     terminationReason :=
       match newStatus with
       | terminated => Some (reasonOrDefault reason)
       | _ => terminationReason session
       end;
     finalReport := finalReport session |}.

(** [joinExam] of the exam controller. *)
Definition joinExam (exams : list Exam.Exam_) (reqUser : User)
           (code : string) (newId : ObjectId) (uuid : string) (now : Date)
  : Store -> Outcome (Exn E) (Exam.Exam_ * MonitoringSession) * Store :=
  fun st =>
    match findOne (fun e => String.eqb (Exam.examCode e) (toUpperCase code))
                  exams with
    | None => (Json 404 false (Some "Exam not found with this code") None, st)
    | Some exam_ =>
        if negb (Exam.isEnrolled exam_ (user_id reqUser)) then
          (Json 403 false (Some "You are not enrolled in this exam") None, st)
        else if negb (Exam.isOngoing (Exam.status exam_)) then
          (Json 400 false (Some "Exam is not currently active") None, st)
        else if Exam.faceVerificationRequired (Exam.examSettings exam_)
                && negb (isVerified (verificationStatus reqUser)) then
          (Json 400 false (Some "Face verification required to join exam")
                None, st)
        else
          match findOne (liveFor (Exam._id exam_) (user_id reqUser)) st with
          | Some existingSession =>
              (Json 200 true (Some "Rejoined existing exam session")
                    (Some (exam_, existingSession)), st)
          | None =>
              let session :=
                create newId (Exam._id exam_) (user_id reqUser) uuid now None in
              (Json 200 true (Some "Successfully joined exam")
                    (Some (exam_, session)), (st ++ [session])%list)
          end
    end.

End Controllers.

(* ---------------------------------------------------------------- *)
(** *** The session model, from the spec *)

Module SpecModel.

Inductive SessionError := SessionClosed.

(** Modelled from the spec: the [addViolation] method of the
    MonitoringSession model (models/MonitoringSession.js is not part of
    the sources).  AppendViolation fails with SessionClosed if the
    status is terminal, and otherwise appends to [violations]. *)
Definition addViolation (s : MonitoringSession) (v : Violation)
  : Result SessionError MonitoringSession :=
  if isTerminal (status s) then Err SessionClosed
  else Ok (pushViolation v s).

(** Modelled from the spec: the [addFaceVerification] method of the
    MonitoringSession model.  AppendVerification fails with
    SessionClosed if the status is terminal, and otherwise appends to
    [verifications]. *)
Definition addFaceVerification (s : MonitoringSession)
           (r : VerificationRecord)
  : Result SessionError MonitoringSession :=
  if isTerminal (status s) then Err SessionClosed
  else Ok (pushVerification r s).

Definition weight (sev : Severity) : Z :=
  match sev with
  | low => 5 | medium => 15 | high => 30 | critical => 50
  end.

Definition isFailure (r : VerificationOutcome) : bool :=
  match r with failed | multiple_faces => true | _ => false end.

(** Modelled from the spec: the [calculateRiskScore] method of the
    MonitoringSession model.  A weighted sum (low = 5, medium = 15,
    high = 30, critical = 50 points per violation) capped at 100, plus
    a penalty for any failed or multiple_faces verification result; the
    spec leaves the size of the penalty open. *)
Definition calculateRiskScore (penalty : Z) (s : MonitoringSession) : Z :=
  (Z.min 100 (fold_right Z.add 0 (map (fun v => weight (severity v))
                                      (violations s)))
   + (if existsb (fun r => isFailure (result r)) (faceVerifications s)
      then penalty else 0))%Z.

(** A stand-in for [JSON.parse] on stored descriptors, which are
    written by [JSON.stringify] of an array: a text that opens an
    array parses to a truthy value, any other text is malformed. *)
Definition JSON_parse (text : string) : option bool :=
  match text with
  | String "[" _ => Some true
  | _ => None
  end.

End SpecModel.

End Monitoring.

(* ================================================================== *)
(** ** Exam administration *)
(* ================================================================== *)

Module ExamAdmin.
Import Exam.

(** [Exam.findById(id)] *)
Definition findById (id : ObjectId) (exams : list Exam_) : option Exam_ :=
  findOne (fun e => Nat.eqb (_id e) id) exams.

(** [exam.save()]: the stored exam with the same [_id] is replaced. *)
Fixpoint saveExam (doc : Exam_) (exams : list Exam_) : list Exam_ :=
  match exams with
  | [] => []
  | e :: rest =>
      if Nat.eqb (_id e) (_id doc) then doc :: rest else e :: saveExam doc rest
  end.

(** [Exam.findByIdAndDelete(id)] *)
Fixpoint deleteById (id : ObjectId) (exams : list Exam_) : list Exam_ :=
  match exams with
  | [] => []
  | e :: rest =>
      if Nat.eqb (_id e) id then rest else e :: deleteById id rest
  end.

Definition withStatus (s : Status) (e : Exam_) : Exam_ :=
  {| _id := _id e; examCode := examCode e; status := s;
     enrolledStudents := enrolledStudents e;
     examSettings := examSettings e |}.

Definition withEnrolled (l : list ObjectId) (e : Exam_) : Exam_ :=
  {| _id := _id e; examCode := examCode e; status := status e;
     enrolledStudents := l;
     examSettings := examSettings e |}.

Definition startExam (exams : list Exam_) (id : ObjectId)
  : Outcome unit Exam_ * list Exam_ :=
  match findById id exams with
  | None => (Json 404 false (Some "Exam not found") None, exams)
  | Some exam =>
      match status exam with
      | scheduled =>
          let exam' := withStatus ongoing exam in
          (Json 200 true (Some "Exam started successfully") (Some exam'),
           saveExam exam' exams)
      | _ => (Json 400 false (Some "Exam cannot be started") None, exams)
      end
  end.

(** The filter [{ exam: exam._id, status: "active" }] and the update
    [{ status: "completed", endTime: new Date() }] of [endExam]. *)
Definition activeIn (examId : ObjectId) (s : Monitoring.MonitoringSession)
  : bool :=
  Nat.eqb (Monitoring.exam s) examId
  && match Monitoring.status s with Monitoring.active => true | _ => false end.

Definition completedAt (now : Date) (s : Monitoring.MonitoringSession)
  : Monitoring.MonitoringSession :=
  {| Monitoring._id := Monitoring._id s;
     Monitoring.exam := Monitoring.exam s;
     Monitoring.student := Monitoring.student s;
     Monitoring.sessionId := Monitoring.sessionId s;
     Monitoring.startTime := Monitoring.startTime s;
     Monitoring.endTime := Some now;
     Monitoring.status := Monitoring.completed;
     Monitoring.faceVerifications := Monitoring.faceVerifications s;
     Monitoring.violations := Monitoring.violations s;
     Monitoring.isTerminated := Monitoring.isTerminated s;
     Monitoring.terminationReason := Monitoring.terminationReason s;
     Monitoring.finalReport := Monitoring.finalReport s |}.

Definition endExam (exams : list Exam_) (sessions : Monitoring.Store)
           (id : ObjectId) (now : Date)
  : Outcome unit Exam_ * list Exam_ * Monitoring.Store :=
  match findById id exams with
  | None => (Json 404 false (Some "Exam not found") None, exams, sessions)
  | Some exam =>
      match status exam with
      | ongoing =>
          let exam' := withStatus completed exam in
          (Json 200 true (Some "Exam ended successfully") (Some exam'),
           saveExam exam' exams,
           fst (updateMany (activeIn (_id exam)) (completedAt now) sessions))
      | _ =>
          (Json 400 false (Some "Exam is not currently ongoing") None,
           exams, sessions)
      end
  end.

Definition deleteExam (exams : list Exam_) (id : ObjectId)
  : Outcome unit unit * list Exam_ :=
  match findById id exams with
  | None => (Json 404 false (Some "Exam not found") None, exams)
  | Some exam =>
      match status exam with
      | scheduled =>
          (Json 200 true (Some "Exam deleted successfully") None,
           deleteById id exams)
      | _ =>
          (Json 400 false (Some "Cannot delete exam that has started") None,
           exams)
      end
  end.

(** Of an enrollment the exam keeps the student reference; the
    [enrollmentDate] pushed with it is not part of [Exam_]. *)
Definition enrollStudent (exams : list Exam_) (users : list User)
           (examId studentId : ObjectId)
  : Outcome unit unit * list Exam_ :=
  match findById examId exams with
  | None => (Json 404 false (Some "Exam not found") None, exams)
  | Some exam =>
      match findOne (fun u => Nat.eqb (user_id u) studentId) users with
      | Some {| role := student_role |} =>
          if isEnrolled exam studentId then
            (Json 400 false (Some "Student is already enrolled in this exam")
                  None, exams)
          else
            (Json 200 true (Some "Student enrolled successfully") None,
             saveExam (withEnrolled (enrolledStudents exam ++ [studentId])%list
                                    exam) exams)
      | _ => (Json 404 false (Some "Student not found") None, exams)
      end
  end.

Definition unenrollStudent (exams : list Exam_) (examId studentId : ObjectId)
  : Outcome unit unit * list Exam_ :=
  match findById examId exams with
  | None => (Json 404 false (Some "Exam not found") None, exams)
  | Some exam =>
      (Json 200 true (Some "Student unenrolled successfully") None,
       saveExam (withEnrolled
                   (filter (fun enrolled => negb (Nat.eqb enrolled studentId))
                           (enrolledStudents exam))
                   exam) exams)
  end.

(* ---------------------------------------------------------------- *)
(** *** Pagination *)

(** [parseInt(text) || fallback]: [None] is [NaN]. *)
Definition parseIntOr (parsed : option Z) (fallback : Z) : Z :=
  match parsed with
  | None | Some Z0 => fallback
  | Some n => n
  end.

(** [Array.prototype.slice(start, end)], negative indices counting from
    the end. *)
Definition relativeIndex (len k : Z) : Z :=
  if (k <? 0)%Z then Z.max (len + k) 0 else Z.min k len.

Definition slice {A} (start finish : Z) (l : list A) : list A :=
  let len := Z.of_nat (List.length l) in
  let k := relativeIndex len start in
  let final := relativeIndex len finish in
  firstn (Z.to_nat (final - k)) (skipn (Z.to_nat k) l).

(** [Math.ceil(total / limit)] for a non-zero [limit]. *)
Definition ceilDiv (total limit : Z) : Z := (- ((- total) / limit))%Z.

Record Pagination := mkPagination {
  currentPage : Z;
  totalPages : Z;
  totalItems : nat;
  itemsPerPage : Z
}.

Record StudentsPage := mkStudentsPage {
  students : list ObjectId;
  pagination : Pagination
}.

(** [queryPage], [queryLimit]: [parseInt] of the two query parameters.
    The echoed [examTitle] is not part of [Exam_]. *)
Definition getEnrolledStudents (exams : list Exam_) (id : ObjectId)
           (queryPage queryLimit : option Z) : Outcome unit StudentsPage :=
  let page := parseIntOr queryPage 1 in
  let limit := parseIntOr queryLimit 10 in
  let skip := ((page - 1) * limit)%Z in
  match findById id exams with
  | None => Json 404 false (Some "Exam not found") None
  | Some exam =>
      let totalStudents := List.length (enrolledStudents exam) in
      Json 200 true None
        (Some {| students := slice skip (skip + limit) (enrolledStudents exam);
                 pagination :=
                   {| currentPage := page;
                      totalPages := ceilDiv (Z.of_nat totalStudents) limit;
                      totalItems := totalStudents;
                      itemsPerPage := limit |} |})
  end.

(** The students on page [page] when [limit] are shown per page. *)
Definition studentsOnPage (exams : list Exam_) (id : ObjectId)
           (page limit : Z) : list ObjectId :=
  match dataOf (getEnrolledStudents exams id (Some page) (Some limit)) with
  | Some d => students d
  | None => []
  end.

End ExamAdmin.

(* ================================================================== *)
(** ** Accounts: face registration and verification status *)
(* ================================================================== *)

Module Accounts.

(** A stored user document: the fields of [User] and the further fields
    the handlers below write. *)
Record Account := mkAccount {
  profile : User;
  profileImage : option string;
  isActive : bool;
  isVerified : bool
}.

(** [req.file]: its MIME type and [buffer.toString("base64")]. *)
Record File := mkFile {
  mimetype : string;
  base64 : string
}.

Definition findAccount (id : ObjectId) (accounts : list Account)
  : option Account :=
  findOne (fun a => Nat.eqb (user_id (profile a)) id) accounts.

Fixpoint saveAccount (doc : Account) (accounts : list Account) : list Account :=
  match accounts with
  | [] => []
  | a :: rest =>
      if Nat.eqb (user_id (profile a)) (user_id (profile doc))
      then doc :: rest else a :: saveAccount doc rest
  end.

(** [extractFaceDescriptor]: 128 draws of [Math.random()]. *)
Definition extractFaceDescriptor (draw : nat -> Q) : list Q :=
  map draw (seq 0 128).

Section FaceRegistration.

Variable JSON_stringify : list Q -> string.

(** The update [{ faceData, profileImage, verificationStatus: "pending" }]
    of [registerFace] and [updateFaceData]. *)
Definition withFace (faceDescriptor : list Q) (f : File) (a : Account)
  : Account :=
  {| profile :=
       {| user_id := user_id (profile a);
          firstName := firstName (profile a);
          lastName := lastName (profile a);
          role := role (profile a);
          verificationStatus := vs_pending;
          faceData := Some (JSON_stringify faceDescriptor) |};
     profileImage := Some ("data:" ++ mimetype f ++ ";base64," ++ base64 f);
     isActive := isActive a;
     isVerified := isVerified a |}.

(** The common body of [registerFace] and [updateFaceData]; the two
    differ in the texts [okText] and [failText]. *)
Definition storeFace (okText failText : string)
           (accounts : list Account) (reqUser : User) (file : option File)
           (rnd : Monitoring.Randomness) (draw : nat -> Q)
  : Outcome unit VerificationStatus * list Account :=
  match file with
  | None => (Json 400 false (Some "Face image is required") None, accounts)
  | Some f =>
      let faceDetection := Monitoring.detectFaces rnd in
      if negb (Monitoring.hasFace faceDetection) then
        (Json 400 false (Some "No face detected in the image") None, accounts)
      else if Monitoring.multipleFaces faceDetection then
        (Json 400 false
           (Some "Multiple faces detected. Please ensure only one face is visible")
           None, accounts)
      else
        let faceDescriptor := extractFaceDescriptor draw in
        match findAccount (user_id reqUser) accounts with
        | Some a =>
            let user := withFace faceDescriptor f a in
            (Json 200 true (Some okText)
                  (Some (verificationStatus (profile user))),
             saveAccount user accounts)
        | None =>
            (* [user] is [null]: the access throws inside the [try] *)
            (Json 500 false (Some failText) None, accounts)
        end
  end.

Definition registerFace :=
  storeFace "Face registered successfully. Awaiting admin verification."
            "Face registration failed".

Definition updateFaceData :=
  storeFace "Face data updated successfully. Awaiting admin verification."
            "Face update failed".

End FaceRegistration.

(** [["pending", "verified", "rejected"].includes(verificationStatus)] *)
Definition parseVerificationStatus (text : string)
  : option VerificationStatus :=
  if String.eqb text "pending" then Some vs_pending
  else if String.eqb text "verified" then Some vs_verified
  else if String.eqb text "rejected" then Some vs_rejected
  else None.

Definition updateVerificationStatus (accounts : list Account) (id : ObjectId)
           (statusText : string) : Outcome unit Account * list Account :=
  match parseVerificationStatus statusText with
  | None =>
      (Json 400 false (Some "Invalid verification status") None, accounts)
  | Some v =>
      match findAccount id accounts with
      | None => (Json 404 false (Some "User not found") None, accounts)
      | Some a =>
          match role (profile a) with
          | student_role =>
              let user :=
                {| profile := withVerificationStatus v (profile a);
                   profileImage := profileImage a;
                   isActive := isActive a;
                   isVerified := match v with
                                  | vs_verified => true
                                  | _ => isVerified a
                                  end |} in
              (Json 200 true (Some "Verification status updated successfully")
                    (Some user),
               saveAccount user accounts)
          | _ =>
              (Json 400 false
                 (Some "Only students can have verification status updated")
                 None, accounts)
          end
      end
  end.

End Accounts.

(* ================================================================== *)
(** ** Sample data *)
(* ================================================================== *)

Module Sample.
Import Attendance.

Definition janeDoe : User :=
  {| user_id := 1; firstName := "Jane"; lastName := "Doe";
     role := student_role; verificationStatus := vs_verified;
     faceData := None |}.

Definition janeDoeSmith : User :=
  {| user_id := 2; firstName := "Jane"; lastName := "Doe Smith";
     role := student_role; verificationStatus := vs_pending;
     faceData := None |}.

Definition johnSmith : User :=
  {| user_id := 3; firstName := "John"; lastName := "Smith";
     role := student_role; verificationStatus := vs_verified;
     faceData := Some "[0.1,0.2]" |}.

Definition proctor : User :=
  {| user_id := 9; firstName := "Pat"; lastName := "Proctor";
     role := invigilator; verificationStatus := vs_verified;
     faceData := None |}.

Definition absentRecord (u : User) : Record_ :=
  {| student := u; sessionId := "S1"; attendanceDate := 20260101%Z;
     studentName := firstName u ++ " " ++ lastName u;
     attendanceMark := Absent; markedAt := None |}.

(** The roster ["Jane Doe", "Jane Doe Smith"]. *)
Definition roster : list Record_ :=
  [absentRecord janeDoe; absentRecord janeDoeSmith].

Definition roster3 : list Record_ :=
  [absentRecord janeDoe; absentRecord janeDoeSmith; absentRecord johnSmith].

(** An exam that is under way and requires face verification, with
    Jane Doe, Jane Doe Smith and John Smith enrolled. *)
Definition midterm : Exam.Exam_ :=
  {| Exam._id := 100; Exam.examCode := "CS101";
     Exam.status := Exam.ongoing;
     Exam.enrolledStudents := [1; 2; 3];
     Exam.examSettings := {| Exam.faceVerificationRequired := true |} |}.

(** The same exam without the requirement. *)
Definition quiz : Exam.Exam_ :=
  {| Exam._id := 101; Exam.examCode := "CS102";
     Exam.status := Exam.ongoing;
     Exam.enrolledStudents := [1; 2; 3];
     Exam.examSettings := {| Exam.faceVerificationRequired := false |} |}.

Definition exams : list Exam.Exam_ := [midterm; quiz].

Definition users : list User := [janeDoe; janeDoeSmith; johnSmith; proctor].

Definition tabSwitch : Monitoring.Violation :=
  {| Monitoring.type := "tab_switch";
     Monitoring.severity := Monitoring.medium;
     Monitoring.description := "Left the exam tab";
     Monitoring.evidence := "";
     Monitoring.v_timestamp := Some 1500%Z |}.

(** Jane Doe's running session of the midterm, with one violation. *)
Definition running : Monitoring.MonitoringSession :=
  {| Monitoring._id := 500;
     Monitoring.exam := 100;
     Monitoring.student := 1;
     Monitoring.sessionId := "sess-jane";
     Monitoring.startTime := 1000%Z;
     Monitoring.endTime := None;
     Monitoring.status := Monitoring.active;
     Monitoring.faceVerifications := [];
     Monitoring.violations := [tabSwitch];
     Monitoring.isTerminated := false;
     Monitoring.terminationReason := None;
     Monitoring.finalReport := None |}.

(** John Smith's session of the midterm, already finalized. *)
Definition closed : Monitoring.MonitoringSession :=
  {| Monitoring._id := 501;
     Monitoring.exam := 100;
     Monitoring.student := 3;
     Monitoring.sessionId := "sess-john";
     Monitoring.startTime := 1000%Z;
     Monitoring.endTime := Some 2000%Z;
     Monitoring.status := Monitoring.completed;
     Monitoring.faceVerifications := [];
     Monitoring.violations := [];
     Monitoring.isTerminated := false;
     Monitoring.terminationReason := None;
     Monitoring.finalReport :=
       Some {| Monitoring.totalViolations := 0;
               Monitoring.riskScore := 0%Z;
               Monitoring.recommendation := Monitoring.accept;
               Monitoring.notes := "Session completed with 0 violations" |} |}.

Definition store : Monitoring.Store := [running; closed].

(** The draws of a frame with exactly one face in it. *)
Definition oneFace : Monitoring.Randomness :=
  {| Monitoring.r_faceCount := 1 # 2;
     Monitoring.r_hasFace := 9 # 10;
     Monitoring.r_multipleFaces := 1 # 10;
     Monitoring.r_similarity := 1 # 2 |}.

(** An exam that has not started, with Jane Doe enrolled. *)
Definition final : Exam.Exam_ :=
  {| Exam._id := 102; Exam.examCode := "CS103";
     Exam.status := Exam.scheduled;
     Exam.enrolledStudents := [1];
     Exam.examSettings := {| Exam.faceVerificationRequired := true |} |}.

Definition catalog : list Exam.Exam_ := [midterm; quiz; final].

(** Jane Doe's paused session of the quiz. *)
Definition onHold : Monitoring.MonitoringSession :=
  {| Monitoring._id := 502;
     Monitoring.exam := 101;
     Monitoring.student := 1;
     Monitoring.sessionId := "sess-jane-quiz";
     Monitoring.startTime := 1200%Z;
     Monitoring.endTime := None;
     Monitoring.status := Monitoring.paused;
     Monitoring.faceVerifications := [];
     Monitoring.violations := [];
     Monitoring.isTerminated := false;
     Monitoring.terminationReason := None;
     Monitoring.finalReport := None |}.

Definition sessions3 : Monitoring.Store := [running; closed; onHold].

Definition accountOf (u : User) : Accounts.Account :=
  {| Accounts.profile := u; Accounts.profileImage := None;
     Accounts.isActive := true;
     Accounts.isVerified := isVerified (verificationStatus u) |}.

Definition accounts : list Accounts.Account :=
  map accountOf users.

Definition portrait : Accounts.File :=
  {| Accounts.mimetype := "image/png"; Accounts.base64 := "AAAA" |}.

(** Jane Doe with a face descriptor on file. *)
Definition registered : User :=
  {| user_id := 1; firstName := "Jane"; lastName := "Doe";
     role := student_role; verificationStatus := vs_verified;
     faceData := Some "[0.25,0.5]" |}.

(** The draws of a frame with several faces in it. *)
Definition severalFaces : Monitoring.Randomness :=
  {| Monitoring.r_faceCount := 2 # 3;
     Monitoring.r_hasFace := 9 # 10;
     Monitoring.r_multipleFaces := 9 # 10;
     Monitoring.r_similarity := 1 # 2 |}.

(** A stand-in for [JSON.stringify] on descriptors. *)
Definition stringify (descriptor : list Q) : string :=
  "[" ++ ofNat (List.length descriptor) ++ " numbers]".

End Sample.

(* ================================================================== *)
(** ** Specification vocabulary *)
(* ================================================================== *)

(** [sub] occurs in [s]. *)
Definition Contains (s sub : string) : Prop :=
  exists pre post, s = pre ++ sub ++ post.

Module AttendanceSpec.
Import Attendance.

(** The reconciliation heuristic on normalized names. *)
Definition NameMatch (fullName aiName : string) : Prop :=
  normalized fullName = normalized aiName
  \/ Contains (normalized fullName) (normalized aiName)
  \/ Contains (normalized aiName) (normalized fullName).

(** The heuristic of the hybrid variant, with its two length gates. *)
Definition HybridMatch (fullName aiName : string) : Prop :=
  normalized fullName = normalized aiName
  \/ (Contains (normalized fullName) (normalized aiName)
      /\ (2 < String.length aiName)%nat)
  \/ (Contains (normalized aiName) (normalized fullName)
      /\ (2 < String.length fullName)%nat).

(** [record] is the first entry of [roster] related to [aiName]. *)
Definition FirstIn (P : string -> string -> Prop) (roster : list Record_)
           (aiName : string) (record : Record_) : Prop :=
  exists before after,
    roster = (before ++ record :: after)%list
    /\ P (fullNameOf record) aiName
    /\ forall r, In r before -> ~ P (fullNameOf r) aiName.

Definition NoneIn (P : string -> string -> Prop) (roster : list Record_)
           (aiName : string) : Prop :=
  forall r, In r roster -> ~ P (fullNameOf r) aiName.

(** One step of a record under a marking pass at time [now]. *)
Definition Step (now : Date) (r r' : Record_) : Prop :=
  r' = r \/ (attendanceMark r = Absent /\ r' = setPresent now r).

Definition KeepsPresent (r r' : Record_) : Prop :=
  attendanceMark r = Present -> r' = r.

(** A record under a pass addressed to session [sid] and date [date]:
    its identifying fields are kept, and outside the addressed session and
    date it is left as it was. *)
Definition Scoped (sid : string) (date : option Date) (r r' : Record_) : Prop :=
  student r' = student r
  /\ sessionId r' = sessionId r
  /\ attendanceDate r' = attendanceDate r
  /\ studentName r' = studentName r
  /\ (sessionId r <> sid \/ Some (attendanceDate r) <> date -> r' = r).

Definition isMatched (e : MatchLogEntry) : bool :=
  match status e with Matched => true | NotFound => false end.

End AttendanceSpec.

Module SessionSpec.
Import Monitoring.

(** [s] is a session of the collection that is live for the pair, and
    the collection is as before. *)
Definition Resumed (examId userId : ObjectId) (st : Store)
           (s : MonitoringSession) (st' : Store) : Prop :=
  In s st /\ liveFor examId userId s = true /\ st' = st.

(** No session of the collection is live for the pair, and [s] is a new
    session appended to it: [active], with empty ledgers and the given
    token as its [sessionId]. *)
Definition Created (examId userId : ObjectId) (uuid : string) (now : Date)
           (st : Store) (s : MonitoringSession) (st' : Store) : Prop :=
  (forall s0, In s0 st -> liveFor examId userId s0 = false)
  /\ st' = (st ++ [s])%list
  /\ exam s = examId /\ student s = userId
  /\ sessionId s = uuid /\ startTime s = now
  /\ status s = active
  /\ violations s = [] /\ faceVerifications s = []
  /\ endTime s = None /\ finalReport s = None.

(** The fields of a session that are fixed at its creation. *)
Definition immutable (s : MonitoringSession)
  : ObjectId * ObjectId * ObjectId * string * Date :=
  (_id s, exam s, student s, sessionId s, startTime s).

(** No student has two sessions of one exam that are both [active] or
    [paused]. *)
Definition AtMostOneLive (st : Store) : Prop :=
  forall examId userId,
    (List.length (filter (liveFor examId userId) st) <= 1)%nat.

(** One session under [endExam]. *)
Definition EndedBy (id : ObjectId) (now : Date)
           (s s' : MonitoringSession) : Prop :=
  (s' = s /\ (exam s <> id \/ status s <> active))
  \/ (exam s = id
      /\ status s = active
      /\ status s' = completed
      /\ endTime s' = Some now).

End SessionSpec.

(* ================================================================== *)
(** ** Strings: containment *)
(* ================================================================== *)

Lemma startsWith_iff (s sub : string) :
  startsWith s sub = true <-> exists post, s = sub ++ post.
Proof.
  revert s; induction sub as [|a sub IH]; intros s; simpl.
  - split; [intros _; now exists s | reflexivity].
  - destruct s as [|b s]; simpl.
    + split; [discriminate | intros [post H]; discriminate].
    + rewrite andb_true_iff, Ascii.eqb_eq, IH. split.
      * intros [-> [post ->]]. now exists post.
      * intros [post H]. injection H as -> ->. split; [reflexivity | now exists post].
Qed.

Lemma includes_iff (s sub : string) :
  includes s sub = true <-> Contains s sub.
Proof.
  unfold Contains. induction s as [|c s IH].
  - simpl. rewrite orb_false_r, startsWith_iff. split.
    + intros [post H]. now exists "", post.
    + intros [pre [post H]]. destruct pre; [now exists post | discriminate].
  - cbn [includes]. rewrite orb_true_iff, startsWith_iff, IH. split.
    + intros [[post H] | [pre [post H]]].
      * now exists "", post.
      * exists (String c pre), post. simpl. now rewrite H.
    + intros [pre [post H]]. destruct pre as [|p pre].
      * left. now exists post.
      * right. simpl in H. injection H as _ H. now exists pre, post.
Qed.

Lemma includes_refl (s : string) : includes s s = true.
Proof.
  apply includes_iff. exists "", "". simpl.
  induction s; simpl; congruence.
Qed.

(* ================================================================== *)
(** ** Collections *)
(* ================================================================== *)

Lemma updateMany_map {A} (f : A -> bool) (u : A -> A) (coll : list A) :
  fst (updateMany f u coll) = map (fun d => if f d then u d else d) coll.
Proof.
  induction coll as [|d rest IH]; simpl; [reflexivity|].
  destruct (updateMany f u rest) as [rest' n]. simpl in IH. subst rest'.
  now destruct (f d).
Qed.

Lemma updateMany_count {A} (f : A -> bool) (u : A -> A) (coll : list A) :
  snd (updateMany f u coll) = List.length (filter f coll).
Proof.
  induction coll as [|d rest IH]; simpl; [reflexivity|].
  destruct (updateMany f u rest) as [rest' n]. simpl in IH. subst n.
  now destruct (f d).
Qed.

Lemma updateMany_none {A} (f : A -> bool) (u : A -> A) (coll : list A) :
  (forall d, In d coll -> f d = false) -> updateMany f u coll = (coll, 0%nat).
Proof.
  induction coll as [|d rest IH]; simpl; intros H; [reflexivity|].
  rewrite IH by auto. now rewrite (H d) by auto.
Qed.

Lemma Forall2_map_self {A} (R : A -> A -> Prop) (g : A -> A) (l : list A) :
  (forall a, R a (g a)) -> Forall2 R l (map g l).
Proof. intros H; induction l; simpl; constructor; auto. Qed.

(* ================================================================== *)
(** ** Attendance: the matching loops *)
(* ================================================================== *)

Section AttendanceLemmas.
Import Attendance AttendanceSpec.

Lemma nameMatches_iff (fullName aiName : string) :
  nameMatches fullName aiName = true <-> NameMatch fullName aiName.
Proof.
  unfold nameMatches, NameMatch.
  rewrite !orb_true_iff, String.eqb_eq, !includes_iff. tauto.
Qed.

Lemma hybridMatches_iff (fullName aiName : string) :
  hybridMatches fullName aiName = true <-> HybridMatch fullName aiName.
Proof.
  unfold hybridMatches, HybridMatch.
  rewrite !orb_true_iff, !andb_true_iff, String.eqb_eq, !includes_iff,
    !Nat.ltb_lt. tauto.
Qed.

Section FirstMatch.
Variable cond : string -> string -> bool.
Variable P : string -> string -> Prop.
Hypothesis cond_iff : forall f a, cond f a = true <-> P f a.

Lemma firstMatch_Some aiName roster record :
  firstMatch cond aiName roster = Some record ->
  FirstIn P roster aiName record.
Proof.
  induction roster as [|r rest IH]; simpl; [discriminate|].
  destruct (cond (fullNameOf r) aiName) eqn:Hc.
  - intros [= <-]. exists [], rest. repeat split.
    + now apply cond_iff.
    + intros ? [].
  - intros H. destruct (IH H) as (before & after & -> & HP & Hbefore).
    exists (r :: before), after. repeat split; [assumption|].
    intros r' [<- | Hin]; [|now apply Hbefore].
    rewrite <- cond_iff. congruence.
Qed.

Lemma firstMatch_None aiName roster :
  firstMatch cond aiName roster = None -> NoneIn P roster aiName.
Proof.
  induction roster as [|r rest IH]; simpl; [intros _ ? []|].
  destruct (cond (fullNameOf r) aiName) eqn:Hc; [discriminate|].
  intros H r' [<- | Hin]; [|now apply IH].
  rewrite <- cond_iff. congruence.
Qed.

Lemma firstMatch_map (g : Record_ -> Record_) aiName roster :
  (forall r, fullNameOf (g r) = fullNameOf r) ->
  firstMatch cond aiName (map g roster)
  = option_map g (firstMatch cond aiName roster).
Proof.
  intros Hg. induction roster as [|r rest IH]; simpl; [reflexivity|].
  rewrite Hg. now destruct (cond (fullNameOf r) aiName).
Qed.
End FirstMatch.

(** The accumulators only grow: a run started from any accumulators is
    the run started from empty ones, appended. *)
Lemma reconcile_acc labels roster ids log :
  reconcile labels roster ids log
  = ((ids ++ fst (reconcile labels roster [] []))%list,
     (log ++ snd (reconcile labels roster [] []))%list).
Proof.
  revert ids log. induction labels as [|a rest IH]; intros ids log; simpl.
  - now rewrite !app_nil_r.
  - destruct (firstMatch nameMatches a roster) as [record|].
    + rewrite IH. rewrite (IH [_] [_]). simpl. now rewrite <- !app_assoc.
    + rewrite IH. rewrite (IH [] [_]). simpl. now rewrite <- !app_assoc.
Qed.

Lemma hybridReconcile_acc conf labels roster ids log :
  hybridReconcile conf labels roster ids log
  = ((ids ++ fst (hybridReconcile conf labels roster [] []))%list,
     (log ++ snd (hybridReconcile conf labels roster [] []))%list).
Proof.
  revert ids log. induction labels as [|a rest IH]; intros ids log; simpl.
  - now rewrite !app_nil_r.
  - destruct (firstMatch hybridMatches a roster) as [record|].
    + rewrite IH. rewrite (IH [_] [_]). simpl. now rewrite <- !app_assoc.
    + rewrite IH. rewrite (IH [] [_]). simpl. now rewrite <- !app_assoc.
Qed.

Lemma reconcile_batch labels roster :
  reconcile labels roster [] []
  = (flat_map (fun a => fst (reconcile [a] roster [] [])) labels,
     flat_map (fun a => snd (reconcile [a] roster [] [])) labels).
Proof.
  induction labels as [|a rest IH]; [reflexivity|].
  cbn [reconcile flat_map].
  destruct (firstMatch nameMatches a roster) as [record|];
    rewrite reconcile_acc, IH; reflexivity.
Qed.

Lemma reconcile_detected labels roster :
  map detected (snd (reconcile labels roster [] [])) = labels.
Proof.
  induction labels as [|a rest IH]; [reflexivity|].
  cbn [reconcile].
  destruct (firstMatch nameMatches a roster) as [record|];
    rewrite reconcile_acc; cbn [snd]; rewrite map_app, IH; reflexivity.
Qed.

Lemma reconcile_map (g : Record_ -> Record_) labels roster ids log :
  (forall r, fullNameOf (g r) = fullNameOf r) ->
  (forall r, student (g r) = student r) ->
  reconcile labels (map g roster) ids log = reconcile labels roster ids log.
Proof.
  intros Hn Hs. revert ids log.
  induction labels as [|a rest IH]; intros ids log; [reflexivity|].
  cbn [reconcile]. rewrite (firstMatch_map nameMatches g a roster Hn).
  destruct (firstMatch nameMatches a roster) as [record|]; simpl.
  - now rewrite Hn, Hs, IH.
  - apply IH.
Qed.

Lemma hybridReconcile_map conf (g : Record_ -> Record_) labels roster ids log :
  (forall r, fullNameOf (g r) = fullNameOf r) ->
  (forall r, student (g r) = student r) ->
  hybridReconcile conf labels (map g roster) ids log
  = hybridReconcile conf labels roster ids log.
Proof.
  intros Hn Hs. revert ids log.
  induction labels as [|a rest IH]; intros ids log; [reflexivity|].
  cbn [hybridReconcile]. rewrite (firstMatch_map hybridMatches g a roster Hn).
  destruct (firstMatch hybridMatches a roster) as [record|]; simpl.
  - now rewrite Hn, Hs, IH.
  - apply IH.
Qed.

(* ---------------------------------------------------------------- *)
(** *** The bulk update *)

Lemma markPresent_fst sid d ids now coll :
  fst (markPresent sid d ids now coll) = map (marked sid d ids now) coll.
Proof. apply updateMany_map. Qed.

Lemma absentAmong_Absent sid d ids r :
  absentAmong sid d ids r = true -> attendanceMark r = Absent.
Proof.
  unfold absentAmong. rewrite !andb_true_iff. intros [_ H].
  now destruct (attendanceMark r).
Qed.

Lemma marked_Step sid d ids now r : Step now r (marked sid d ids now r).
Proof.
  unfold marked, Step. destruct (absentAmong sid d ids r) eqn:Hf.
  - right. split; [now apply absentAmong_Absent in Hf | reflexivity].
  - now left.
Qed.

Lemma Step_KeepsPresent now r r' : Step now r r' -> KeepsPresent r r'.
Proof. intros [-> | [Ha _]] Hp; [reflexivity | congruence]. Qed.

Lemma markPresent_Step sid d ids now coll :
  Forall2 (Step now) coll (fst (markPresent sid d ids now coll)).
Proof.
  rewrite markPresent_fst. apply Forall2_map_self. apply marked_Step.
Qed.

Lemma Step_refl now coll : Forall2 (Step now) coll coll.
Proof. induction coll; constructor; auto. now left. Qed.

Lemma marked_inSession sid d ids now sid' d' r :
  inSession sid' d' (marked sid d ids now r) = inSession sid' d' r.
Proof. unfold marked. now destruct (absentAmong sid d ids r). Qed.

Lemma marked_fullName sid d ids now r :
  fullNameOf (marked sid d ids now r) = fullNameOf r.
Proof. unfold marked. now destruct (absentAmong sid d ids r). Qed.

Lemma marked_student sid d ids now r :
  student (marked sid d ids now r) = student r.
Proof. unfold marked. now destruct (absentAmong sid d ids r). Qed.

Lemma marked_not_absent sid d ids now r :
  absentAmong sid d ids (marked sid d ids now r) = false.
Proof.
  unfold marked. destruct (absentAmong sid d ids r) eqn:Hf; [|assumption].
  unfold absentAmong. simpl. now rewrite andb_false_r.
Qed.

Lemma filter_map_comm {A} (p : A -> bool) (g : A -> A) (l : list A) :
  (forall a, p (g a) = p a) -> filter p (map g l) = map g (filter p l).
Proof.
  intros H. induction l as [|a l IH]; simpl; [reflexivity|].
  rewrite H. destruct (p a); simpl; now rewrite IH.
Qed.

(** A second bulk update with the same identifiers changes nothing. *)
Lemma markPresent_again sid d ids now now' coll :
  markPresent sid d ids now' (fst (markPresent sid d ids now coll))
  = (fst (markPresent sid d ids now coll), 0%nat).
Proof.
  rewrite markPresent_fst. apply updateMany_none.
  intros r Hin. apply in_map_iff in Hin as (r0 & <- & _).
  apply marked_not_absent.
Qed.

End AttendanceLemmas.

(* ================================================================== *)
(** ** Attendance: the handlers *)
(* ================================================================== *)

Section AttendanceHandlers.
Import Attendance AttendanceSpec.

Lemma idIn_nil id : idIn id [] = false.
Proof. reflexivity. Qed.

Lemma markPresent_nil sid d now coll :
  markPresent sid d [] now coll = (coll, 0%nat).
Proof.
  apply updateMany_none. intros r _. unfold absentAmong.
  now rewrite idIn_nil, andb_false_r.
Qed.

Lemma markPresent_eta sid d ids now coll :
  markPresent sid d ids now coll
  = (map (marked sid d ids now) coll, snd (markPresent sid d ids now coll)).
Proof. rewrite <- markPresent_fst. now destruct (markPresent sid d ids now coll). Qed.

(** The collection after [updateAttendanceByAI]. *)
Lemma updateAttendanceByAI_snd coll req now :
  snd (updateAttendanceByAI coll req now) = coll
  \/ exists d ids,
      mr_attendanceDate req = Some d
      /\ mr_presentStudentIds req = Some ids
      /\ snd (updateAttendanceByAI coll req now)
         = map (marked (mr_sessionId req) d ids now) coll.
Proof.
  unfold updateAttendanceByAI.
  destruct (mr_attendanceDate req) as [d|]; [|now left].
  destruct (mr_presentStudentIds req) as [[|i ids]|]; try now left.
  destruct (truthy (mr_sessionId req)); cbn [negb]; [|now left].
  right. exists d, (i :: ids). repeat split.
  rewrite markPresent_eta. cbv iota beta.
  now destruct (snd (markPresent (mr_sessionId req) d (i :: ids) now coll) =? 0)%nat.
Qed.

(** The successful run of [verifyAttendanceWithAI], as one equation. *)
Lemma verifyAttendanceWithAI_run coll sid d a labels now r rs :
  truthy sid = true ->
  filter (inSession sid d) coll = r :: rs ->
  let ids := fst (reconcile (a :: labels) (r :: rs) [] []) in
  let log := snd (reconcile (a :: labels) (r :: rs) [] []) in
  let coll' := map (marked sid d ids now) coll in
  let updated := snd (markPresent sid d ids now coll) in
  let finalRecords := filter (inSession sid d) coll' in
  verifyAttendanceWithAI coll (mkVerifyRequest sid (Some d) (Some (a :: labels))) now
  = (Json 200 true
       (Some ("Verification complete. " ++ ofNat updated
              ++ " student(s) marked as Present."))
       (Some {| vd_detected := List.length (a :: labels);
                vd_matched := List.length ids;
                vd_updated := updated;
                vd_matchLog := log;
                vd_summary :=
                  {| present := countMark Present finalRecords;
                     absent := countMark Absent finalRecords;
                     total := List.length finalRecords |} |}),
     coll').
Proof.
  intros Hsid Hroster. unfold verifyAttendanceWithAI.
  cbn [vr_attendanceDate vr_sessionId vr_aiDetectedStudents].
  rewrite Hsid, Hroster. cbn [negb].
  destruct (reconcile (a :: labels) (r :: rs) [] []) as [ids log].
  cbn [fst snd]. rewrite (markPresent_eta sid d ids now coll). reflexivity.
Qed.

(** The collection after [verifyAttendanceWithAI]. *)
Lemma verifyAttendanceWithAI_snd coll req now :
  snd (verifyAttendanceWithAI coll req now) = coll
  \/ exists d ids,
      snd (verifyAttendanceWithAI coll req now)
      = map (marked (vr_sessionId req) d ids now) coll.
Proof.
  destruct req as [sid [d|] labels]; [|now left].
  destruct (truthy sid) eqn:Hsid;
    [|left; unfold verifyAttendanceWithAI; cbn; now rewrite Hsid].
  destruct labels as [[|a labels]|];
    try (left; unfold verifyAttendanceWithAI; cbn; now rewrite Hsid).
  destruct (filter (inSession sid d) coll) as [|r rs] eqn:Hroster.
  - left. unfold verifyAttendanceWithAI. cbn. now rewrite Hsid, Hroster.
  - right. exists d. eexists.
    rewrite (verifyAttendanceWithAI_run _ _ _ _ _ now _ _ Hsid Hroster).
    reflexivity.
Qed.

Lemma hybridAttendanceVerification_snd coll req now :
  snd (hybridAttendanceVerification coll req now) = coll
  \/ exists d ids,
      snd (hybridAttendanceVerification coll req now)
      = map (marked (hr_sessionId req) d ids now) coll.
Proof.
  unfold hybridAttendanceVerification.
  destruct (hr_attendanceDate req) as [d|]; [|now left].
  destruct (hr_aiReport req) as [report|]; [|now left].
  destruct (truthy (hr_sessionId req)); cbn [negb]; [|now left].
  destruct (present_students report) as [|a labels]; [now left|].
  destruct (filter (inSession (hr_sessionId req) d) coll) as [|r rs];
    [now left|].
  destruct (hybridReconcile _ _ _ _ _) as [ids log].
  right. exists d, ids. rewrite markPresent_eta. reflexivity.
Qed.

Lemma verifyAttendanceWithPhotos_snd coll req fetched now :
  snd (verifyAttendanceWithPhotos coll req fetched now) = coll
  \/ exists d ids,
      snd (verifyAttendanceWithPhotos coll req fetched now)
      = map (marked (pr_sessionId req) d ids now) coll.
Proof.
  unfold verifyAttendanceWithPhotos.
  destruct (pr_attendanceDate req) as [d|]; [|now left].
  destruct (negb (truthy (pr_sessionId req))
            || negb (truthy (pr_aiReportUrl req))); [now left|].
  destruct fetched as [msg | [|a labels]]; [now left | now left |].
  destruct (photoReconcile _ _ _ _) as [ids details].
  right. exists d, ids. rewrite markPresent_eta. reflexivity.
Qed.

Lemma Forall2_Step_marked sid d ids now coll :
  Forall2 (Step now) coll (map (marked sid d ids now) coll).
Proof. apply Forall2_map_self, marked_Step. Qed.

Lemma Forall2_KeepsPresent now coll coll' :
  Forall2 (Step now) coll coll' -> Forall2 KeepsPresent coll coll'.
Proof. apply Forall2_impl. intros r r'. apply Step_KeepsPresent. Qed.

End AttendanceHandlers.

(* ================================================================== *)
(** ** Attendance: the properties *)
(* ================================================================== *)

Section AttendanceProperties.
Import Attendance AttendanceSpec.

(** C4. Reconciliation gives every reported label exactly one verdict.
    The label is [Matched] to the first roster entry, in roster order,
    whose normalized full name equals the normalized label, contains it
    or is contained in it; when no entry does, the verdict is [NotFound]
    and the label contributes no student to the bulk update, so a pass
    whose labels are all [NotFound] changes no attendance record.  A batch
    is the concatenation of the verdicts of its labels, in order.  Against
    the roster ["Jane Doe", "Jane Doe Smith"] the label "jane doe" is
    matched to "Jane Doe". *)
Theorem reconcile_first_match :
  (forall (roster : list Record_) (aiName : string),
      (exists record,
          FirstIn NameMatch roster aiName record
          /\ reconcile [aiName] roster [] []
             = ([user_id (student record)],
                [ {| detected := aiName;
                     matched := Some (fullNameOf record);
                     status := Matched |} ]))
      \/ (NoneIn NameMatch roster aiName
          /\ reconcile [aiName] roster [] []
             = ([], [ {| detected := aiName;
                         matched := None;
                         status := NotFound |} ])))
  /\ (forall (labels : list string) (roster : list Record_),
         reconcile labels roster [] []
         = (flat_map (fun a => fst (reconcile [a] roster [] [])) labels,
            flat_map (fun a => snd (reconcile [a] roster [] [])) labels)
         /\ map detected (snd (reconcile labels roster [] [])) = labels)
  /\ (forall (coll : list Record_) (sid : string) (d : Date)
             (labels : list string) (now : Date),
         fst (reconcile labels (filter (inSession sid d) coll) [] []) = [] ->
         snd (verifyAttendanceWithAI coll
                (mkVerifyRequest sid (Some d) (Some labels)) now) = coll)
  /\ reconcile ["jane doe"] Sample.roster [] []
     = ([user_id Sample.janeDoe],
        [ {| detected := "jane doe";
             matched := Some "Jane Doe";
             status := Matched |} ]).
Proof.
  split; [|split; [|split]].
  - intros roster aiName. cbn [reconcile].
    destruct (firstMatch nameMatches aiName roster) as [record|] eqn:Hf.
    + left. exists record. split; [|reflexivity].
      exact (firstMatch_Some _ _ nameMatches_iff _ _ _ Hf).
    + right. split; [|reflexivity].
      exact (firstMatch_None _ _ nameMatches_iff _ _ Hf).
  - intros labels roster. split.
    + apply reconcile_batch.
    + apply reconcile_detected.
  - intros coll sid d labels now Hids.
    destruct (verifyAttendanceWithAI_snd coll
                (mkVerifyRequest sid (Some d) (Some labels)) now)
      as [H | _]; [exact H|].
    destruct (truthy sid) eqn:Hsid;
      [|unfold verifyAttendanceWithAI; cbn; now rewrite Hsid].
    destruct labels as [|a labels];
      [unfold verifyAttendanceWithAI; cbn; now rewrite Hsid|].
    destruct (filter (inSession sid d) coll) as [|r rs] eqn:Hroster.
    + unfold verifyAttendanceWithAI. cbn. now rewrite Hsid, Hroster.
    + rewrite (verifyAttendanceWithAI_run _ _ _ _ _ now _ _ Hsid Hroster).
      cbn [snd]. rewrite Hids, <- markPresent_fst, markPresent_nil.
      reflexivity.
  - reflexivity.
Qed.

(** C5. Attendance marks are monotonic.  Under every marking or
    reconciliation pass ([updateAttendanceByAI], [verifyAttendanceWithAI],
    [hybridAttendanceVerification], [verifyAttendanceWithPhotos]) each record is either left as it was
    or goes from [Absent] to [Present] with [markedAt] set to the time of
    the pass; a record that is already [Present] is left exactly as it was,
    [markedAt] included.  Repeating a pass with the same request changes
    nothing further and is answered with the same success as the first. *)
Theorem attendance_monotonic :
  forall (coll : list Record_) (now : Date),
    (forall req,
        Forall2 (Step now) coll (snd (updateAttendanceByAI coll req now))
        /\ Forall2 KeepsPresent coll (snd (updateAttendanceByAI coll req now)))
    /\ (forall req,
           Forall2 (Step now) coll (snd (verifyAttendanceWithAI coll req now))
           /\ Forall2 KeepsPresent coll
                      (snd (verifyAttendanceWithAI coll req now)))
    /\ (forall req,
           Forall2 (Step now) coll
                   (snd (hybridAttendanceVerification coll req now))
           /\ Forall2 KeepsPresent coll
                      (snd (hybridAttendanceVerification coll req now)))
    /\ (forall req fetched,
           Forall2 (Step now) coll
                   (snd (verifyAttendanceWithPhotos coll req fetched now))
           /\ Forall2 KeepsPresent coll
                      (snd (verifyAttendanceWithPhotos coll req fetched now)))
    /\ (forall req now',
           let first := updateAttendanceByAI coll req now in
           let second := updateAttendanceByAI (snd first) req now' in
           snd second = snd first
           /\ isSuccess (fst second) = isSuccess (fst first))
    /\ (forall req now',
           let first := verifyAttendanceWithAI coll req now in
           let second := verifyAttendanceWithAI (snd first) req now' in
           snd second = snd first
           /\ isSuccess (fst second) = isSuccess (fst first)).
Proof.
  intros coll now.
  assert (Hstep : forall coll',
             (coll' = coll
              \/ exists sid d ids, coll' = map (marked sid d ids now) coll) ->
             Forall2 (Step now) coll coll' /\ Forall2 KeepsPresent coll coll').
  { intros coll' H.
    assert (Forall2 (Step now) coll coll') as HS.
    { destruct H as [-> | (sid & d & ids & ->)];
        [apply Step_refl | apply Forall2_Step_marked]. }
    split; [exact HS | exact (Forall2_KeepsPresent _ _ _ HS)]. }
  repeat split.
  - apply Hstep.
    destruct (updateAttendanceByAI_snd coll req now)
      as [-> | (d & ids & _ & _ & ->)]; [now left | right; eauto].
  - apply Hstep.
    destruct (updateAttendanceByAI_snd coll req now)
      as [-> | (d & ids & _ & _ & ->)]; [now left | right; eauto].
  - apply Hstep.
    destruct (verifyAttendanceWithAI_snd coll req now)
      as [-> | (d & ids & ->)]; [now left | right; eauto].
  - apply Hstep.
    destruct (verifyAttendanceWithAI_snd coll req now)
      as [-> | (d & ids & ->)]; [now left | right; eauto].
  - apply Hstep.
    destruct (hybridAttendanceVerification_snd coll req now)
      as [-> | (d & ids & ->)]; [now left | right; eauto].
  - apply Hstep.
    destruct (hybridAttendanceVerification_snd coll req now)
      as [-> | (d & ids & ->)]; [now left | right; eauto].
  - apply Hstep.
    destruct (verifyAttendanceWithPhotos_snd coll req fetched now)
      as [-> | (d & ids & ->)]; [now left | right; eauto].
  - apply Hstep.
    destruct (verifyAttendanceWithPhotos_snd coll req fetched now)
      as [-> | (d & ids & ->)]; [now left | right; eauto].
  - (* updateAttendanceByAI, repeated *)
    unfold updateAttendanceByAI.
    destruct (mr_attendanceDate req) as [d|]; [|reflexivity].
    destruct (mr_presentStudentIds req) as [[|i ids]|]; try reflexivity.
    destruct (truthy (mr_sessionId req)); cbn [negb]; [|reflexivity].
    rewrite (markPresent_eta _ _ _ now coll). cbv iota beta.
    destruct (snd (markPresent _ _ _ now coll) =? 0)%nat; cbn [snd fst];
      rewrite <- markPresent_fst, markPresent_again; reflexivity.
  - (* updateAttendanceByAI, repeated: same answer *)
    unfold updateAttendanceByAI.
    destruct (mr_attendanceDate req) as [d|]; [|reflexivity].
    destruct (mr_presentStudentIds req) as [[|i ids]|]; try reflexivity.
    destruct (truthy (mr_sessionId req)); cbn [negb]; [|reflexivity].
    rewrite (markPresent_eta _ _ _ now coll). cbv iota beta.
    destruct (snd (markPresent _ _ _ now coll) =? 0)%nat; cbn [snd fst];
      rewrite <- markPresent_fst, markPresent_again; reflexivity.
  - (* verifyAttendanceWithAI, repeated *)
    destruct req as [sid [d|] labels]; [|reflexivity].
    destruct (truthy sid) eqn:Hsid;
      [|unfold verifyAttendanceWithAI; cbn; now rewrite Hsid].
    destruct labels as [[|a labels]|];
      try (unfold verifyAttendanceWithAI; cbn; now rewrite Hsid).
    destruct (filter (inSession sid d) coll) as [|r rs] eqn:Hroster.
    + unfold verifyAttendanceWithAI. cbn. rewrite Hsid, Hroster. cbn.
      now rewrite Hroster.
    + rewrite (verifyAttendanceWithAI_run _ _ _ _ _ now _ _ Hsid Hroster).
      cbn [snd].
      set (ids := fst (reconcile (a :: labels) (r :: rs) [] [])).
      assert (Hroster' :
                filter (inSession sid d) (map (marked sid d ids now) coll)
                = marked sid d ids now r :: map (marked sid d ids now) rs).
      { rewrite filter_map_comm by (intros; apply marked_inSession).
        now rewrite Hroster. }
      rewrite (verifyAttendanceWithAI_run _ _ _ _ _ now' _ _ Hsid Hroster').
      cbn [snd].
      change (marked sid d ids now r :: map (marked sid d ids now) rs)
        with (map (marked sid d ids now) (r :: rs)).
      rewrite reconcile_map
        by (intros; first [apply marked_fullName | apply marked_student]).
      fold ids.
      rewrite <- (markPresent_fst sid d ids now' (map _ coll)).
      rewrite <- (markPresent_fst sid d ids now coll).
      now rewrite markPresent_again.
  - (* verifyAttendanceWithAI, repeated: same answer *)
    destruct req as [sid [d|] labels]; [|reflexivity].
    destruct (truthy sid) eqn:Hsid;
      [|unfold verifyAttendanceWithAI; cbn; now rewrite Hsid].
    destruct labels as [[|a labels]|];
      try (unfold verifyAttendanceWithAI; cbn; now rewrite Hsid).
    destruct (filter (inSession sid d) coll) as [|r rs] eqn:Hroster.
    + unfold verifyAttendanceWithAI. cbn. rewrite Hsid, Hroster. cbn.
      now rewrite Hroster.
    + rewrite (verifyAttendanceWithAI_run _ _ _ _ _ now _ _ Hsid Hroster).
      cbn [snd fst].
      set (ids := fst (reconcile (a :: labels) (r :: rs) [] [])).
      assert (Hroster' :
                filter (inSession sid d) (map (marked sid d ids now) coll)
                = marked sid d ids now r :: map (marked sid d ids now) rs).
      { rewrite filter_map_comm by (intros; apply marked_inSession).
        now rewrite Hroster. }
      rewrite (verifyAttendanceWithAI_run _ _ _ _ _ now' _ _ Hsid Hroster').
      reflexivity.
Qed.

End AttendanceProperties.

(* ================================================================== *)
(** ** The hybrid variant and its length gate *)
(* ================================================================== *)

Section HybridProperties.
Import Attendance AttendanceSpec.

(** C8.  In the hybrid variant two names match exactly when their
    normalized forms are equal (no length requirement), or the normalized
    full name contains the normalized label and the label as reported,
    before normalization, has more than 2 characters, or the normalized
    label contains the normalized full name and the full name as built,
    before normalization, has more than 2 characters: the containment is
    tested on the normalized strings, the length on the raw ones.  At the
    label "Jo " (three characters, normalized "jo") and the full name
    "John Smith" the two readings part: the names match by containment
    although the contained name "jo" has only 2 characters. *)
Theorem hybrid_gate_on_raw_length :
  (forall fullName aiName : string,
      (hybridMatches fullName aiName = true <-> HybridMatch fullName aiName)
      /\ (normalized fullName = normalized aiName ->
          hybridMatches fullName aiName = true)
      /\ (hybridMatches fullName aiName = true ->
          normalized fullName <> normalized aiName ->
          (Contains (normalized fullName) (normalized aiName)
           /\ (2 < String.length aiName)%nat)
          \/ (Contains (normalized aiName) (normalized fullName)
              /\ (2 < String.length fullName)%nat)))
  /\ hybridMatches "John Smith" "Jo " = true
  /\ normalized "Jo " = "jo"
  /\ normalized "John Smith" = "john smith"
  /\ normalized "John Smith" <> normalized "Jo "
  /\ Contains (normalized "John Smith") (normalized "Jo ")
  /\ String.length "Jo " = 3%nat
  /\ String.length (normalized "Jo ") = 2%nat
  /\ ~ Contains (normalized "Jo ") (normalized "John Smith").
Proof.
  split.
  - intros fullName aiName.
    pose proof (hybridMatches_iff fullName aiName) as Hiff.
    split; [exact Hiff|]. unfold HybridMatch in Hiff. split.
    + intros Heq. apply Hiff. now left.
    + intros Hm Hne. apply Hiff in Hm. tauto.
  - split; [reflexivity|]. split; [reflexivity|]. split; [reflexivity|].
    split; [vm_compute; discriminate|].
    split; [apply includes_iff; reflexivity|].
    split; [reflexivity|]. split; [reflexivity|].
    intros H. apply includes_iff in H. vm_compute in H. discriminate.
Qed.

End HybridProperties.

(* ================================================================== *)
(** ** Monitoring sessions: the collection *)
(* ================================================================== *)

Section StoreLemmas.
Import Monitoring.

Lemma findOne_Some {A} (p : A -> bool) (l : list A) (x : A) :
  findOne p l = Some x -> In x l /\ p x = true.
Proof. apply find_some. Qed.

Lemma findOne_None {A} (p : A -> bool) (l : list A) :
  findOne p l = None <-> forall x, In x l -> p x = false.
Proof.
  split; [apply find_none|].
  induction l as [|a l IH]; simpl; intros H; [reflexivity|].
  rewrite (H a) by auto. apply IH. auto.
Qed.

Lemma findOne_app_new {A} (p : A -> bool) (l : list A) (x : A) :
  findOne p l = None -> p x = true -> findOne p (l ++ [x]) = Some x.
Proof.
  induction l as [|a l IH]; simpl; intros Hn Hp.
  - now rewrite Hp.
  - destruct (p a); [discriminate | auto].
Qed.

Lemma In_save (st : Store) (s s' : MonitoringSession) :
  In s st -> _id s' = _id s -> In s' (save s' st).
Proof.
  intros Hin Hid. induction st as [|d rest IH]; simpl in *; [contradiction|].
  destruct (Nat.eqb (_id d) (_id s')) eqn:Hd; [now left|].
  destruct Hin as [-> | Hin].
  - rewrite Hid, Nat.eqb_refl in Hd. discriminate.
  - right. auto.
Qed.




Lemma save_length (st : Store) (s : MonitoringSession) :
  List.length (save s st) = List.length st.
Proof.
  induction st as [|d rest IH]; simpl; [reflexivity|].
  destruct (Nat.eqb (_id d) (_id s)); simpl; congruence.
Qed.

End StoreLemmas.

(* ================================================================== *)
(** ** Monitoring sessions: finalization and status changes *)
(* ================================================================== *)

Section SessionProperties.
Import Monitoring.

Variable E : Type.
Variable addViolation :
  MonitoringSession -> Violation -> Result E MonitoringSession.
Variable addFaceVerification :
  MonitoringSession -> VerificationRecord -> Result E MonitoringSession.
Variable calculateRiskScore : MonitoringSession -> Z.
Variable JSON_parse : string -> option bool.

Local Abbreviation endSession := (endMonitoringSession E calculateRiskScore).
Local Abbreviation setStatus := (updateSessionStatus E).

Lemma bandOf_bands (x : Z) :
  ((70 < x)%Z -> bandOf x = reject)
  /\ ((40 < x <= 70)%Z -> bandOf x = review)
  /\ ((x <= 40)%Z -> bandOf x = accept).
Proof.
  unfold bandOf.
  destruct (Z.ltb_spec 70 x), (Z.ltb_spec 40 x); repeat split; intros; lia.
Qed.

Lemma endSession_cases reqUser sid now st :
  (findOne (bySessionId sid) st = None
   /\ endSession reqUser sid now st
      = (Json 404 false (Some "Monitoring session not found") None, st))
  \/ exists session,
      findOne (bySessionId sid) st = Some session
      /\ ((student session <> user_id reqUser
           /\ endSession reqUser sid now st
              = (Json 403 false (Some "Unauthorized access to session") None, st))
          \/ (student session = user_id reqUser
              /\ isTerminal (status session) = true
              /\ endSession reqUser sid now st
                 = (Json 400 false (Some "Session is already ended") None, st))
          \/ (student session = user_id reqUser
              /\ isLive (status session) = true
              /\ endSession reqUser sid now st
                 = (Json 200 true (Some "Monitoring session ended")
                         (Some (finalized calculateRiskScore session now)),
                    save (finalized calculateRiskScore session now) st))).
Proof.
  unfold endMonitoringSession.
  destruct (findOne (bySessionId sid) st) as [session|]; [|now left].
  right. exists session. split; [reflexivity|].
  destruct (Nat.eqb_spec (student session) (user_id reqUser)) as [Ho|Ho];
    cbn [negb]; [|now left].
  right. destruct (status session) eqn:Hst; cbn [isTerminal isLive];
    [right | right | left | left]; repeat split; assumption.
Qed.

Lemma setStatus_run reqUser sid newStatus reason now st session :
  findOne (bySessionId sid) st = Some session ->
  mayAct session reqUser = true ->
  setStatus reqUser sid newStatus reason now st
  = (Json 200 true (Some "Session status updated")
          (Some (transitioned session newStatus reason now)),
     save (transitioned session newStatus reason now) st).
Proof.
  intros Hf Hm. unfold updateSessionStatus. now rewrite Hf, Hm.
Qed.

(** C1. Whenever [endMonitoringSession] finalizes a session, the
    recommendation of the final report it stores is fixed by the risk
    score through three bands: "reject" above 70, "review" above 40 and
    up to 70, and "accept" up to 40.  The risk score is the one the
    session's [calculateRiskScore] returns. *)
Theorem recommendation_bands :
  forall (reqUser : User) (sid : string) (now : Date) (st st' : Store)
         (code : nat) (msg : option string) (session' : MonitoringSession),
    endSession reqUser sid now st = (Json code true msg (Some session'), st') ->
    exists session report,
      findOne (bySessionId sid) st = Some session
      /\ In session' st'
      /\ finalReport session' = Some report
      /\ riskScore report = calculateRiskScore session
      /\ ((70 < riskScore report)%Z -> recommendation report = reject)
      /\ ((40 < riskScore report <= 70)%Z -> recommendation report = review)
      /\ ((riskScore report <= 40)%Z -> recommendation report = accept).
Proof.
  intros reqUser sid now st st' code msg session' H.
  destruct (endSession_cases reqUser sid now st)
    as [[_ Heq] | (session & Hf & [[_ Heq] | [(_ & _ & Heq) | (_ & _ & Heq)]])];
    rewrite Heq in H; try discriminate.
  injection H as <- <- <- <-.
  exists session. eexists. split; [exact Hf|]. split.
  - apply In_save with (s := session); [|reflexivity].
    now destruct (findOne_Some _ _ _ Hf).
  - split; [reflexivity|]. split; [reflexivity|]. cbn [riskScore recommendation].
    apply bandOf_bands.
Qed.


(** C7, as the code has it.  A transition to [terminated] does not need
    a reason: [updateSessionStatus] accepts it with or without one, sets
    [isTerminated], sets [endTime], and stores as [terminationReason] the
    reason supplied, or the text "Session terminated" when the reason is
    missing or empty.  A transition to [completed] sets [endTime] and
    leaves [isTerminated] and [terminationReason] as they were. *)
Theorem terminate_reason_defaulted :
  forall (reqUser : User) (sid : string) (reason : option string)
         (now : Date) (st : Store) (session : MonitoringSession),
    findOne (bySessionId sid) st = Some session ->
    mayAct session reqUser = true ->
    (exists session',
        setStatus reqUser sid terminated reason now st
        = (Json 200 true (Some "Session status updated") (Some session'),
           save session' st)
        /\ status session' = terminated
        /\ isTerminated session' = true
        /\ endTime session' = Some now
        /\ terminationReason session'
           = Some match reason with
                  | Some EmptyString | None => "Session terminated"
                  | Some supplied => supplied
                  end)
    /\ (exists session',
           setStatus reqUser sid completed reason now st
           = (Json 200 true (Some "Session status updated") (Some session'),
              save session' st)
           /\ status session' = completed
           /\ endTime session' = Some now
           /\ isTerminated session' = isTerminated session
           /\ terminationReason session' = terminationReason session).
Proof.
  intros reqUser sid reason now st session Hf Hm. split.
  - exists (transitioned session terminated reason now).
    split; [now apply setStatus_run|].
    repeat split.
  - exists (transitioned session completed reason now). repeat split.
    now apply setStatus_run.
Qed.

End SessionProperties.

(* ================================================================== *)
(** ** Monitoring sessions: the ledgers *)
(* ================================================================== *)

Section LedgerProperties.
Import Monitoring.

Variable E : Type.
Variable addViolation :
  MonitoringSession -> Violation -> Result E MonitoringSession.
Variable addFaceVerification :
  MonitoringSession -> VerificationRecord -> Result E MonitoringSession.
Variable calculateRiskScore : MonitoringSession -> Z.
Variable JSON_parse : string -> option bool.

Local Abbreviation endSession := (endMonitoringSession E calculateRiskScore).
Local Abbreviation setStatus := (updateSessionStatus E).
Local Abbreviation report := (reportViolation E addViolation).
Local Abbreviation verify :=
  (verifyFace E addViolation addFaceVerification JSON_parse).
Local Abbreviation attempt :=
  (verifyFaceAttempt E addViolation addFaceVerification JSON_parse).

Lemma call_refused {A}
      (method : MonitoringSession -> A -> Result E MonitoringSession)
      (s : MonitoringSession) (arg : A) (st : Store) :
  Refuses method s ->
  exists e, call method s arg st = (Err e, st).
Proof.
  intros H. destruct (H arg) as [e He]. exists (MethodError e).
  unfold call. now rewrite He.
Qed.

(** When both methods refuse the session, the [try] block of
    [verifyFace] throws and the collection is as before. *)
Lemma attempt_refused session studentDoc img rnd now st :
  Refuses addViolation session ->
  Refuses addFaceVerification session ->
  exists e, attempt session studentDoc img rnd now st = (Err e, st).
Proof.
  intros Hv Hf. unfold verifyFaceAttempt, bind.
  destruct (hasFace (detectFaces rnd)); cbn [negb].
  - destruct (multipleFaces (detectFaces rnd)).
    + destruct (call_refused addViolation session
                  {| type := "multiple_faces"; severity := high;
                     description := "Multiple faces detected in frame";
                     evidence := truncated img; v_timestamp := None |}
                  st Hv) as [e ->].
      now exists e.
    + destruct (faceData studentDoc) as [[|c text]|].
      * unfold ret. cbn [fst snd].
        destruct (call_refused addFaceVerification session
                    (withResult no_reference 0
                       {| timestamp := now; result := failed;
                          confidence := 0; image := truncated img |})
                    st Hf) as [e ->].
        now exists e.
      * destruct (JSON_parse (String c text)) as [stored|];
          [|now exists SyntaxError].
        destruct (c_match (compareFaces stored true rnd)); cbn [negb].
        -- unfold ret. cbn [fst snd].
           match goal with
           | |- context [call addFaceVerification session ?v st] =>
               destruct (call_refused addFaceVerification session v st Hf)
                 as [e ->]
           end.
           now exists e.
        -- match goal with
           | |- context [call addViolation session ?v st] =>
               destruct (call_refused addViolation session v st Hv)
                 as [e ->]
           end.
           now exists e.
      * unfold ret. cbn [fst snd].
        match goal with
        | |- context [call addFaceVerification session ?v st] =>
            destruct (call_refused addFaceVerification session v st Hf)
              as [e ->]
        end.
        now exists e.
  - unfold ret. cbn [fst snd].
    match goal with
    | |- context [call addFaceVerification session ?v st] =>
        destruct (call_refused addFaceVerification session v st Hf)
          as [e ->]
    end.
    now exists e.
Qed.

(** C2, as the code has it.  On a session whose status is [completed]
    or [terminated]:
    - [endMonitoringSession] is refused with 400 and the collection is
      unchanged;
    - [updateSessionStatus] has no guard on the old status: every
      transition, to a non-terminal status too, succeeds and overwrites
      [status], leaving both ledgers and [finalReport] as they were;
    - [reportViolation] and [verifyFace] make no status check of their
      own: when the session model's [addViolation] and
      [addFaceVerification] refuse the closed session, [reportViolation]
      passes the rejection on, [verifyFace] answers 500, and in both
      cases the collection is unchanged. *)
Theorem terminal_session_guards :
  forall (st : Store) (sid : string) (session : MonitoringSession)
         (reqUser : User) (now : Date),
    findOne (bySessionId sid) st = Some session ->
    isTerminal (status session) = true ->
    (student session = user_id reqUser ->
     endSession reqUser sid now st
     = (Json 400 false (Some "Session is already ended") None, st))
    /\ (mayAct session reqUser = true ->
        forall newStatus reason,
        exists session',
          setStatus reqUser sid newStatus reason now st
          = (Json 200 true (Some "Session status updated") (Some session'),
             save session' st)
          /\ In session' (save session' st)
          /\ status session' = newStatus
          /\ violations session' = violations session
          /\ faceVerifications session' = faceVerifications session
          /\ finalReport session' = finalReport session)
    /\ (mayAct session reqUser = true ->
        Refuses addViolation session ->
        forall body,
        exists e, report reqUser sid body now st = (Thrown (MethodError e), st))
    /\ (forall users studentDoc img rnd,
           populate users (student session) = Some studentDoc ->
           user_id studentDoc = user_id reqUser ->
           Refuses addViolation session ->
           Refuses addFaceVerification session ->
           verify users reqUser sid img rnd now st
           = (Json 500 false (Some "Face verification failed") None, st)).
Proof.
  intros st sid session reqUser now Hf Hterm. repeat apply conj.
  - intros Ho. unfold endMonitoringSession.
    rewrite Hf, Ho, Nat.eqb_refl, Hterm. reflexivity.
  - intros Hm newStatus reason.
    exists (transitioned session newStatus reason now).
    split; [now apply setStatus_run|].
    split; [|repeat split].
    apply In_save with (s := session); [|reflexivity].
    now destruct (findOne_Some _ _ _ Hf).
  - intros Hm Hv body. unfold reportViolation. rewrite Hf, Hm. cbn [negb].
    unfold respond, bind.
    match goal with
    | |- context [call addViolation session ?v st] =>
        destruct (Hv v) as [e He]; exists e; unfold call; rewrite He
    end.
    reflexivity.
  - intros users studentDoc img rnd Hp Ho Hv Hfv. unfold verifyFace.
    rewrite Hf, Hp, Ho, Nat.eqb_refl. cbn [negb].
    unfold respond, tryCatch, bind at 1.
    destruct (attempt_refused session studentDoc img rnd now st Hv Hfv)
      as [e ->].
    reflexivity.
Qed.

(** C10. When [verifyFace] sees a face, and not several, for a session
    whose student has no stored face descriptor, it records the
    verification with result [no_reference] and confidence 0 through the
    session's [addFaceVerification], reports no violation, and answers
    200 with that result: once the session has taken the record at the
    end of its verifications ledger, the stored session differs from the
    old one by exactly that entry. *)
Theorem verifyFace_no_reference :
  forall (users : list User) (reqUser studentDoc : User) (sid img : string)
         (rnd : Randomness) (now : Date) (st : Store)
         (session : MonitoringSession),
    findOne (bySessionId sid) st = Some session ->
    populate users (student session) = Some studentDoc ->
    user_id studentDoc = user_id reqUser ->
    hasFace (detectFaces rnd) = true ->
    multipleFaces (detectFaces rnd) = false ->
    faceData studentDoc = None ->
    let record := {| timestamp := now; result := no_reference;
                     confidence := 0; image := truncated img |} in
    addFaceVerification session record = Ok (pushVerification record session) ->
    verify users reqUser sid img rnd now st
    = (Json 200 true None
            (Some {| fd_result := no_reference; fd_confidence := 0 |}),
       save (pushVerification record session) st)
    /\ faceVerifications (pushVerification record session)
       = (faceVerifications session ++ [record])%list
    /\ violations (pushVerification record session) = violations session.
Proof.
  intros users reqUser studentDoc sid img rnd now st session
         Hf Hp Ho Hface Hmulti Hdata record Hadd.
  split; [|split; reflexivity].
  unfold verifyFace. rewrite Hf, Hp, Ho, Nat.eqb_refl. cbn [negb].
  unfold respond, tryCatch, bind, verifyFaceAttempt, bind.
  rewrite Hface, Hmulti, Hdata. cbn [negb]. unfold ret. cbn [fst snd].
  unfold call. fold record.
  change (withResult no_reference 0
            {| timestamp := now; result := failed; confidence := 0;
               image := truncated img |}) with record.
  rewrite Hadd. reflexivity.
Qed.

End LedgerProperties.

(* ================================================================== *)
(** ** Monitoring sessions: joining *)
(* ================================================================== *)

Section JoinProperties.
Import Monitoring SessionSpec.

Variable E : Type.

Local Abbreviation start := (startMonitoringSession E).
Local Abbreviation join := (joinExam E).

Lemma liveFor_create newId examId userId uuid now :
  liveFor examId userId (create newId examId userId uuid now (Some active)) = true
  /\ liveFor examId userId (create newId examId userId uuid now None) = true.
Proof.
  unfold liveFor, create. cbn. now rewrite !Nat.eqb_refl.
Qed.

(** The common tail of the two handlers: resume the first live session
    of the pair, or append a new one. *)
Lemma resume_or_create (examId userId : ObjectId) (st : Store)
      (new : MonitoringSession) :
  liveFor examId userId new = true ->
  let s := match findOne (liveFor examId userId) st with
           | Some existing => existing
           | None => new
           end in
  let st' := match findOne (liveFor examId userId) st with
             | Some _ => st
             | None => (st ++ [new])%list
             end in
  ((exists s0, In s0 st /\ liveFor examId userId s0 = true) ->
   Resumed examId userId st s st')
  /\ ((forall s0, In s0 st -> liveFor examId userId s0 = false) ->
      s = new /\ st' = (st ++ [new])%list)
  /\ (st' <> st -> forall s0, In s0 st -> liveFor examId userId s0 = false)
  /\ findOne (liveFor examId userId) st' = Some s.
Proof.
  intros Hnew.
  destruct (findOne (liveFor examId userId) st) as [existing|] eqn:Hf;
    cbv zeta.
  - destruct (findOne_Some _ _ _ Hf) as [Hin Hlive]. repeat apply conj.
    + intros _. now repeat split.
    + intros Hnone. rewrite (Hnone existing Hin) in Hlive. discriminate.
    + intros Hne. now contradiction Hne.
    + exact Hf.
  - pose proof (proj1 (findOne_None _ _) Hf) as Hnone. repeat apply conj.
    + intros (s0 & Hin & Hlive). rewrite (Hnone s0 Hin) in Hlive.
      discriminate.
    + intros _. now split.
    + intros _. exact Hnone.
    + now apply findOne_app_new.
Qed.

(** C3. [startMonitoringSession] and [joinExam] resume rather than
    duplicate, once the request is admitted.  For an ongoing exam the
    student is enrolled in and, for [joinExam], a request that passes the
    face-verification gate (the exam does not require face verification,
    or the student is verified): when the collection holds a session of
    this student and exam with status [active] or [paused], the call
    succeeds with such a session and leaves the collection unchanged; a
    new session is appended only when there is none, and it is [active],
    has empty ledgers and carries the freshly generated token as
    [sessionId]; and a repeated call is answered with the very session
    the first call returned, leaving the collection as the first call
    left it.  A [joinExam] request that does not pass the gate is
    answered 400 "Face verification required to join exam" with no
    session, whether or not a live session of the student exists, and the
    collection is unchanged. *)
Theorem start_or_resume_idempotent :
  (forall (exams : list Exam.Exam_) (exam_ : Exam.Exam_) (reqUser : User)
          (examId : ObjectId) (st : Store)
          (newId newId' : ObjectId) (uuid uuid' : string) (now now' : Date),
      findOne (fun e => Nat.eqb (Exam._id e) examId) exams = Some exam_ ->
      Exam.isOngoing (Exam.status exam_) = true ->
      Exam.isEnrolled exam_ (user_id reqUser) = true ->
      exists s st' code msg,
        start exams reqUser examId newId uuid now st
        = (Json code true msg (Some s), st')
        /\ ((exists s0, In s0 st /\ liveFor examId (user_id reqUser) s0 = true) ->
            Resumed examId (user_id reqUser) st s st' /\ code = 200)
        /\ ((forall s0, In s0 st -> liveFor examId (user_id reqUser) s0 = false) ->
            Created examId (user_id reqUser) uuid now st s st')
        /\ (st' <> st ->
            forall s0, In s0 st -> liveFor examId (user_id reqUser) s0 = false)
        /\ start exams reqUser examId newId' uuid' now' st'
           = (Json 200 true (Some "Monitoring session already active") (Some s),
              st'))
  /\ (forall (exams : list Exam.Exam_) (exam_ : Exam.Exam_) (reqUser : User)
             (code : string) (st : Store)
             (newId newId' : ObjectId) (uuid uuid' : string) (now now' : Date),
         findOne (fun e => String.eqb (Exam.examCode e) (toUpperCase code)) exams
         = Some exam_ ->
         Exam.isOngoing (Exam.status exam_) = true ->
         Exam.isEnrolled exam_ (user_id reqUser) = true ->
         Exam.faceVerificationRequired (Exam.examSettings exam_)
         && negb (isVerified (verificationStatus reqUser)) = false ->
         exists s st' msg,
           join exams reqUser code newId uuid now st
           = (Json 200 true msg (Some (exam_, s)), st')
           /\ ((exists s0, In s0 st
                           /\ liveFor (Exam._id exam_) (user_id reqUser) s0 = true) ->
               Resumed (Exam._id exam_) (user_id reqUser) st s st')
           /\ ((forall s0, In s0 st ->
                           liveFor (Exam._id exam_) (user_id reqUser) s0 = false) ->
               Created (Exam._id exam_) (user_id reqUser) uuid now st s st')
           /\ (st' <> st ->
               forall s0, In s0 st ->
                          liveFor (Exam._id exam_) (user_id reqUser) s0 = false)
           /\ join exams reqUser code newId' uuid' now' st'
              = (Json 200 true (Some "Rejoined existing exam session")
                      (Some (exam_, s)), st'))
  /\ (forall (exams : list Exam.Exam_) (exam_ : Exam.Exam_) (reqUser : User)
             (code : string) (st : Store)
             (newId : ObjectId) (uuid : string) (now : Date),
         findOne (fun e => String.eqb (Exam.examCode e) (toUpperCase code)) exams
         = Some exam_ ->
         Exam.isOngoing (Exam.status exam_) = true ->
         Exam.isEnrolled exam_ (user_id reqUser) = true ->
         Exam.faceVerificationRequired (Exam.examSettings exam_)
         && negb (isVerified (verificationStatus reqUser)) = true ->
         join exams reqUser code newId uuid now st
         = (Json 400 false (Some "Face verification required to join exam")
                 None, st)).
Proof.
  split; [|split].
  - intros exams exam_ reqUser examId st newId newId' uuid uuid' now now'
           Hexam Hon Henr.
    pose proof (resume_or_create examId (user_id reqUser) st
                  (create newId examId (user_id reqUser) uuid now (Some active))
                  (proj1 (liveFor_create _ _ _ _ _))) as H.
    cbv zeta in H. unfold startMonitoringSession.
    rewrite Hexam, Hon, Henr. cbn [negb].
    destruct (findOne (liveFor examId (user_id reqUser)) st)
      as [existing|] eqn:Hlive;
      destruct H as (Hres & Hnew & Honly & Hagain);
      do 4 eexists; (split; [reflexivity|]); rewrite Hagain;
      (split; [|split; [|split; [exact Honly | reflexivity]]]).
    + intros Hex. split; [now apply Hres | reflexivity].
    + intros Hnone. destruct (findOne_Some _ _ _ Hlive) as [Hin Hl].
      rewrite (Hnone existing Hin) in Hl. discriminate.
    + intros (s0 & Hin & Hl).
      rewrite (proj1 (findOne_None _ _) Hlive s0 Hin) in Hl. discriminate.
    + intros Hnone. unfold Created. repeat apply conj; auto.
  - intros exams exam_ reqUser code st newId newId' uuid uuid' now now'
           Hexam Hon Henr Hgate.
    pose proof (resume_or_create (Exam._id exam_) (user_id reqUser) st
                  (create newId (Exam._id exam_) (user_id reqUser) uuid now None)
                  (proj2 (liveFor_create _ _ _ _ _))) as H.
    cbv zeta in H. unfold joinExam.
    rewrite Hexam, Hon, Henr, Hgate. cbn [negb].
    destruct (findOne (liveFor (Exam._id exam_) (user_id reqUser)) st)
      as [existing|] eqn:Hlive;
      destruct H as (Hres & Hnew & Honly & Hagain);
      do 3 eexists; (split; [reflexivity|]); rewrite Hagain;
      (split; [|split; [|split; [exact Honly | reflexivity]]]).
    + intros Hex. now apply Hres.
    + intros Hnone. destruct (findOne_Some _ _ _ Hlive) as [Hin Hl].
      rewrite (Hnone existing Hin) in Hl. discriminate.
    + intros (s0 & Hin & Hl).
      rewrite (proj1 (findOne_None _ _) Hlive s0 Hin) in Hl. discriminate.
    + intros Hnone. unfold Created. repeat apply conj; auto.
  - intros exams exam_ reqUser code st newId uuid now Hexam Hon Henr Hgate.
    unfold joinExam. rewrite Hexam, Hon, Henr, Hgate. reflexivity.
Qed.

(** C9. [joinExam] enforces a face-verification gate.  For an ongoing
    exam whose settings require face verification, a student whose
    verification status is not "verified" is turned away with a client
    error (400 "Face verification required to join exam" once enrolled,
    403 otherwise) and the session collection is unchanged.  When the
    exam does not require face verification, the answer and the
    collection do not depend on the student's verification status. *)
Theorem join_face_gate :
  forall (exams : list Exam.Exam_) (exam_ : Exam.Exam_) (reqUser : User)
         (code : string) (st : Store)
         (newId : ObjectId) (uuid : string) (now : Date),
    findOne (fun e => String.eqb (Exam.examCode e) (toUpperCase code)) exams
    = Some exam_ ->
    Exam.isOngoing (Exam.status exam_) = true ->
    (Exam.faceVerificationRequired (Exam.examSettings exam_) = true ->
     isVerified (verificationStatus reqUser) = false ->
     isClientError (fst (join exams reqUser code newId uuid now st)) = true
     /\ snd (join exams reqUser code newId uuid now st) = st
     /\ (Exam.isEnrolled exam_ (user_id reqUser) = true ->
         join exams reqUser code newId uuid now st
         = (Json 400 false (Some "Face verification required to join exam")
                 None, st)))
    /\ (Exam.faceVerificationRequired (Exam.examSettings exam_) = false ->
        forall v : VerificationStatus,
          join exams (withVerificationStatus v reqUser) code newId uuid now st
          = join exams reqUser code newId uuid now st).
Proof.
  intros exams exam_ reqUser code st newId uuid now Hexam Hon. split.
  - intros Hreq Hver. unfold joinExam. rewrite Hexam, Hon, Hreq, Hver.
    destruct (Exam.isEnrolled exam_ (user_id reqUser)); cbn;
      repeat split; congruence.
  - intros Hreq v. unfold joinExam. rewrite Hexam, Hon, Hreq. reflexivity.
Qed.

End JoinProperties.

(* ================================================================== *)
(** ** The properties at the sample data *)
(* ================================================================== *)

Section Instances.
Import Monitoring Monitoring.SpecModel SessionSpec.

Lemma sample_store_unique : UniqueIds Sample.store.
Proof.
  unfold UniqueIds. cbn. repeat constructor; cbn; intuition discriminate.
Defined.

Lemma closed_refuses_violation : Refuses addViolation Sample.closed.
Proof. intros v. now exists SessionClosed. Defined.

Lemma closed_refuses_verification : Refuses addFaceVerification Sample.closed.
Proof. intros r. now exists SessionClosed. Defined.

(** Jane Doe ends her running session: one medium violation scores 15,
    and the recommendation is "accept". *)
Lemma recommendation_bands_witness :
  exists session' st' report,
    endMonitoringSession SessionError (calculateRiskScore 10)
      Sample.janeDoe "sess-jane" 3000%Z Sample.store
    = (Json 200 true (Some "Monitoring session ended") (Some session'), st')
    /\ finalReport session' = Some report
    /\ riskScore report = 15%Z
    /\ recommendation report = accept.
Proof.
  do 2 eexists.
  destruct (recommendation_bands SessionError (calculateRiskScore 10)
              Sample.janeDoe "sess-jane" 3000%Z Sample.store _ _ _ _ eq_refl)
    as (session & report & Hf & _ & Hr & Hs & _ & _ & Hacc).
  injection Hf as <-. exists report.
  split; [reflexivity|]. split; [exact Hr|].
  assert (Hscore : riskScore report = 15%Z) by (rewrite Hs; reflexivity).
  split; [exact Hscore|]. apply Hacc. rewrite Hscore. discriminate.
Defined.



(** C7, as the claim states it: the proctor terminates Jane Doe's session
    without giving a reason, and the transition is accepted; the stored
    reason is the default text. *)
Lemma terminate_without_reason :
  exists session',
    updateSessionStatus SessionError Sample.proctor "sess-jane" terminated
      None 3000%Z Sample.store
    = (Json 200 true (Some "Session status updated") (Some session'),
       save session' Sample.store)
    /\ status session' = terminated
    /\ isTerminated session' = true
    /\ terminationReason session' = Some "Session terminated".
Proof. eexists. split; [reflexivity|]. repeat split. Qed.

Lemma terminate_reason_defaulted_witness :
  mayAct Sample.running Sample.proctor = true
  /\ exists session',
      updateSessionStatus SessionError Sample.proctor "sess-jane" terminated
        (Some "Left the room") 3000%Z Sample.store
      = (Json 200 true (Some "Session status updated") (Some session'),
         save session' Sample.store)
      /\ isTerminated session' = true
      /\ endTime session' = Some 3000%Z
      /\ terminationReason session' = Some "Left the room".
Proof.
  split; [reflexivity|].
  destruct (proj1 (terminate_reason_defaulted SessionError
                     Sample.proctor "sess-jane" (Some "Left the room")
                     3000%Z Sample.store Sample.running eq_refl eq_refl))
    as (session' & Hrun & _ & Hterm & Hend & Hreason).
  exists session'. repeat split; assumption.
Defined.

(** C2, as the claim states it: John Smith's session is [completed];
    his own request to set it back to [active] is accepted, the stored
    session is [active] again, and a further [endMonitoringSession] then
    succeeds and replaces the stored [finalReport]. *)
Lemma reopen_after_completion :
  status Sample.closed = completed
  /\ exists session',
      updateSessionStatus SessionError Sample.johnSmith "sess-john" active
        None 3000%Z Sample.store
      = (Json 200 true (Some "Session status updated") (Some session'),
         save session' Sample.store)
      /\ status session' = active
      /\ endTime session' = endTime Sample.closed
      /\ findOne (bySessionId "sess-john") (save session' Sample.store)
         = Some session'
      /\ isSuccess
           (fst (endMonitoringSession SessionError (calculateRiskScore 10)
                   Sample.johnSmith "sess-john" 4000%Z
                   (save session' Sample.store))) = true.
Proof. split; [reflexivity|]. eexists. split; [reflexivity|]. repeat split. Qed.

Lemma terminal_session_guards_witness :
  isTerminal (status Sample.closed) = true
  /\ endMonitoringSession SessionError (calculateRiskScore 10)
       Sample.johnSmith "sess-john" 3000%Z Sample.store
     = (Json 400 false (Some "Session is already ended") None, Sample.store)
  /\ (exists e,
         reportViolation SessionError addViolation Sample.proctor "sess-john"
           {| rq_type := "tab_switch"; rq_severity := low;
              rq_description := "Left the exam tab"; rq_evidence := "" |}
           3000%Z Sample.store
         = (Thrown (MethodError e), Sample.store))
  /\ verifyFace SessionError addViolation addFaceVerification JSON_parse
       Sample.users Sample.johnSmith "sess-john" "data:image/png;base64,AAAA"
       Sample.oneFace 3000%Z Sample.store
     = (Json 500 false (Some "Face verification failed") None, Sample.store).
Proof.
  split; [reflexivity|].
  destruct (terminal_session_guards SessionError addViolation
              addFaceVerification (calculateRiskScore 10) JSON_parse
              Sample.store "sess-john" Sample.closed Sample.johnSmith 3000%Z
              eq_refl eq_refl) as (Hend & _ & _ & Hverify).
  destruct (terminal_session_guards SessionError addViolation
              addFaceVerification (calculateRiskScore 10) JSON_parse
              Sample.store "sess-john" Sample.closed Sample.proctor 3000%Z
              eq_refl eq_refl) as (_ & _ & Hreport & _).
  split; [exact (Hend eq_refl)|]. split.
  - exact (Hreport eq_refl closed_refuses_violation _).
  - exact (Hverify Sample.users Sample.johnSmith _ Sample.oneFace
             eq_refl eq_refl closed_refuses_violation
             closed_refuses_verification).
Defined.

Lemma verifyFace_no_reference_witness :
  hasFace (detectFaces Sample.oneFace) = true
  /\ multipleFaces (detectFaces Sample.oneFace) = false
  /\ faceData Sample.janeDoe = None
  /\ exists session',
      verifyFace SessionError addViolation addFaceVerification JSON_parse
        Sample.users Sample.janeDoe "sess-jane" "data:image/png;base64,AAAA"
        Sample.oneFace 3000%Z Sample.store
      = (Json 200 true None
              (Some {| fd_result := no_reference; fd_confidence := 0 |}),
         save session' Sample.store)
      /\ List.length (faceVerifications session') = 1
      /\ violations session' = violations Sample.running.
Proof.
  do 3 (split; [reflexivity|]).
  destruct (verifyFace_no_reference SessionError addViolation
              addFaceVerification JSON_parse
              Sample.users Sample.janeDoe Sample.janeDoe "sess-jane"
              "data:image/png;base64,AAAA" Sample.oneFace 3000%Z
              Sample.store Sample.running
              eq_refl eq_refl eq_refl eq_refl eq_refl eq_refl eq_refl)
    as (Hrun & Hledger & Hviol).
  eexists. split; [exact Hrun|]. split; [|exact Hviol].
  rewrite Hledger. reflexivity.
Defined.

(** John Smith, whose only session is closed, starts a session of the
    midterm: a new one is created, and the repeated call returns it. *)
Lemma start_or_resume_witness :
  Exam.isOngoing (Exam.status Sample.midterm) = true
  /\ Exam.isEnrolled Sample.midterm (user_id Sample.johnSmith) = true
  /\ exists s st',
      startMonitoringSession SessionError Sample.exams Sample.johnSmith 100
        502 "uuid-1" 3000%Z Sample.store
      = (Json 201 true (Some "Monitoring session started") (Some s), st')
      /\ sessionId s = "uuid-1"
      /\ status s = active
      /\ startMonitoringSession SessionError Sample.exams Sample.johnSmith 100
           503 "uuid-2" 4000%Z st'
         = (Json 200 true (Some "Monitoring session already active") (Some s),
            st').
Proof.
  do 2 (split; [reflexivity|]).
  destruct (proj1 (start_or_resume_idempotent SessionError)
              Sample.exams Sample.midterm Sample.johnSmith 100 Sample.store
              502 503 "uuid-1" "uuid-2" 3000%Z 4000%Z
              eq_refl eq_refl eq_refl)
    as (s & st' & code & msg & Hrun & _ & Hcreated & _ & Hagain).
  exists s, st'.
  assert (Hnone : forall s0, In s0 Sample.store ->
                             liveFor 100 (user_id Sample.johnSmith) s0 = false).
  { intros s0 [<- | [<- | []]]; reflexivity. }
  destruct (Hcreated Hnone)
    as (_ & _ & _ & _ & Hsid & _ & Hstatus & _).
  split; [|repeat split; assumption].
  rewrite Hrun. cbv in Hrun. injection Hrun as <- <- <- <-. reflexivity.
Defined.

(** C3, as the claim states it: Jane Doe Smith, enrolled in the ongoing
    midterm but not yet verified, starts a monitoring session through
    [startMonitoringSession], which has no face-verification gate; the
    collection then holds an [active] session of hers for the midterm.
    Her [joinExam] request for the same exam is not answered with that
    session: it is refused with 400, and no session is returned. *)
Lemma join_gate_blocks_resume :
  exists s st',
    startMonitoringSession SessionError Sample.exams Sample.janeDoeSmith 100
      502 "uuid-1" 3000%Z Sample.store
    = (Json 201 true (Some "Monitoring session started") (Some s), st')
    /\ In s st'
    /\ status s = active
    /\ liveFor (Exam._id Sample.midterm) (user_id Sample.janeDoeSmith) s = true
    /\ findOne (fun e => String.eqb (Exam.examCode e) (toUpperCase "cs101"))
         Sample.exams = Some Sample.midterm
    /\ Exam.isOngoing (Exam.status Sample.midterm) = true
    /\ Exam.isEnrolled Sample.midterm (user_id Sample.janeDoeSmith) = true
    /\ joinExam SessionError Sample.exams Sample.janeDoeSmith "cs101"
         503 "uuid-2" 4000%Z st'
       = (Json 400 false (Some "Face verification required to join exam")
               None, st')
    /\ isSuccess (fst (joinExam SessionError Sample.exams Sample.janeDoeSmith
                         "cs101" 503 "uuid-2" 4000%Z st')) = false.
Proof.
  do 2 eexists. split; [reflexivity|].
  split; [cbn; tauto|]. repeat split.
Qed.

(** Jane Doe Smith, not yet verified, is turned away from the midterm
    and admitted to the quiz. *)
Lemma join_face_gate_witness :
  Exam.isOngoing (Exam.status Sample.midterm) = true
  /\ Exam.faceVerificationRequired (Exam.examSettings Sample.midterm) = true
  /\ isVerified (verificationStatus Sample.janeDoeSmith) = false
  /\ joinExam SessionError Sample.exams Sample.janeDoeSmith "cs101"
       502 "uuid-1" 3000%Z Sample.store
     = (Json 400 false (Some "Face verification required to join exam") None,
        Sample.store).
Proof.
  do 3 (split; [reflexivity|]).
  destruct (proj1 (join_face_gate SessionError
                     Sample.exams Sample.midterm Sample.janeDoeSmith "cs101"
                     Sample.store 502 "uuid-1" 3000%Z eq_refl eq_refl)
                  eq_refl eq_refl) as (_ & _ & H400).
  exact (H400 eq_refl).
Defined.

End Instances.

(* ================================================================== *)
(** ** Exam administration: enrollment and life cycle *)
(* ================================================================== *)

Section ExamAdminProperties.
Import Exam ExamAdmin.

Lemma findById_Some id exams e :
  findById id exams = Some e -> In e exams /\ _id e = id.
Proof.
  intros H. destruct (findOne_Some _ _ _ H) as [Hin Heq].
  split; [assumption | now apply Nat.eqb_eq].
Qed.

Lemma saveExam_ids doc exams :
  map _id (saveExam doc exams) = map _id exams.
Proof.
  induction exams as [|e rest IH]; simpl; [reflexivity|].
  destruct (Nat.eqb_spec (_id e) (_id doc)); simpl; congruence.
Qed.

(** After [save], the exam is found under its identifier. *)
Lemma findById_saveExam id exams e doc :
  findById id exams = Some e -> _id doc = id ->
  findById id (saveExam doc exams) = Some doc.
Proof.
  unfold findById. intros Hf Hid.
  induction exams as [|x rest IH]; simpl in *; [discriminate|].
  destruct (Nat.eqb_spec (_id x) id) as [Hx|Hx].
  - rewrite Hid, Hx, Nat.eqb_refl. simpl. now rewrite Hid, Nat.eqb_refl.
  - rewrite Hid. destruct (Nat.eqb_spec (_id x) id); [contradiction|].
    simpl. destruct (Nat.eqb_spec (_id x) id); [contradiction|]. auto.
Qed.

(** The other exams are found as before. *)
Lemma findById_saveExam_other id exams doc :
  _id doc <> id -> findById id (saveExam doc exams) = findById id exams.
Proof.
  unfold findById. intros Hne.
  induction exams as [|x rest IH]; simpl; [reflexivity|].
  destruct (Nat.eqb_spec (_id x) (_id doc)) as [Hx|Hx]; simpl.
  - destruct (Nat.eqb_spec (_id doc) id); [contradiction|].
    destruct (Nat.eqb_spec (_id x) id); [congruence | reflexivity].
  - destruct (Nat.eqb (_id x) id); [reflexivity | exact IH].
Qed.

(** Saving an exam over itself changes nothing. *)
Lemma saveExam_self id exams e :
  findById id exams = Some e -> saveExam e exams = exams.
Proof.
  unfold findById.
  induction exams as [|x rest IH]; simpl; [reflexivity|].
  destruct (Nat.eqb_spec (_id x) id) as [Hx|Hx].
  - intros [= ->]. now rewrite Nat.eqb_refl.
  - intros Hf. destruct (findOne_Some _ _ _ Hf) as [_ He].
    apply Nat.eqb_eq in He.
    destruct (Nat.eqb_spec (_id x) (_id e)); [congruence|].
    now rewrite IH.
Qed.

Lemma saveExam_twice doc doc' exams :
  _id doc = _id doc' ->
  saveExam doc' (saveExam doc exams) = saveExam doc' exams.
Proof.
  intros Hid. induction exams as [|x rest IH]; simpl; [reflexivity|].
  destruct (Nat.eqb_spec (_id x) (_id doc)) as [Hx|Hx]; simpl.
  - rewrite Hid, Nat.eqb_refl. rewrite <- Hid, Hx in *.
    now rewrite Nat.eqb_refl.
  - destruct (Nat.eqb_spec (_id x) (_id doc')); [congruence|].
    now rewrite IH.
Qed.

Lemma withEnrolled_self e : withEnrolled (enrolledStudents e) e = e.
Proof. now destruct e. Qed.

Lemma isEnrolled_iff exam id :
  isEnrolled exam id = true <-> In id (enrolledStudents exam).
Proof.
  unfold isEnrolled. rewrite existsb_exists. split.
  - intros (x & Hin & Heq). apply Nat.eqb_eq in Heq. now subst.
  - intros Hin. exists id. split; [assumption | apply Nat.eqb_refl].
Qed.

Lemma filter_twice {A} (p : A -> bool) (l : list A) :
  filter p (filter p l) = filter p l.
Proof.
  induction l as [|a l IH]; simpl; [reflexivity|].
  destruct (p a) eqn:H; simpl; [rewrite H|]; congruence.
Qed.

Lemma filter_others_absent (id : ObjectId) (l : list ObjectId) :
  ~ In id l -> filter (fun x => negb (Nat.eqb x id)) l = l.
Proof.
  induction l as [|x l IH]; simpl; intros Hn; [reflexivity|].
  destruct (Nat.eqb_spec x id) as [->|Hx]; simpl.
  - exfalso. apply Hn. now left.
  - rewrite IH; [reflexivity|]. intros Hin. apply Hn. now right.
Qed.

Lemma enrollStudent_cases exams users examId studentId exam :
  findById examId exams = Some exam ->
  (enrollStudent exams users examId studentId
   = (Json 404 false (Some "Student not found") None, exams)
   /\ ~ exists u, In u users /\ user_id u = studentId
                  /\ role u = student_role
                  /\ findOne (fun u => Nat.eqb (user_id u) studentId) users
                     = Some u)
  \/ (enrollStudent exams users examId studentId
      = (Json 400 false (Some "Student is already enrolled in this exam") None,
         exams)
      /\ isEnrolled exam studentId = true)
  \/ (enrollStudent exams users examId studentId
      = (Json 200 true (Some "Student enrolled successfully") None,
         saveExam (withEnrolled (enrolledStudents exam ++ [studentId])%list
                                exam) exams)
      /\ isEnrolled exam studentId = false
      /\ exists u, In u users /\ user_id u = studentId
                   /\ role u = student_role).
Proof.
  intros Hf. unfold enrollStudent. rewrite Hf.
  destruct (findOne (fun u => Nat.eqb (user_id u) studentId) users)
    as [u|] eqn:Hu.
  - destruct (findOne_Some _ _ _ Hu) as [Hin Heq]. apply Nat.eqb_eq in Heq.
    destruct u as [uid fn ln r vs fd]. cbn in Heq.
    destruct r.
    + left. split; [reflexivity|].
      intros (u' & _ & _ & Hr & Hu'). injection Hu' as <-. discriminate.
    + left. split; [reflexivity|].
      intros (u' & _ & _ & Hr & Hu'). injection Hu' as <-. discriminate.
    + right. destruct (isEnrolled exam studentId) eqn:He.
      * left. now split.
      * right. split; [reflexivity|]. split; [reflexivity|].
        eexists. split; [exact Hin|]. now split.
  - left. split; [reflexivity|]. intros (u' & _ & _ & _ & Hu'). discriminate.
Qed.

(** X1. [enrollStudent] on an existing exam.  The answer is fixed by
    the user the identifier finds and by the enrollment list: 404
    "Student not found" when the identifier finds no user or a user whose
    role is not student, 400 "Student is already enrolled in this exam"
    when it finds a student who is enrolled, and 200 "Student enrolled
    successfully" when it finds a student who is not.  So the request
    succeeds exactly for a student who is not yet enrolled; the student is
    then enrolled, at the end of the list, the exam is otherwise as
    before, and a duplicate-free list stays duplicate-free.  A refused
    request changes no exam.  Other exams are never touched. *)
Theorem enrollStudent_enrolls :
  forall (exams : list Exam_) (users : list User) (examId studentId : ObjectId)
         (exam : Exam_),
    findById examId exams = Some exam ->
    ((forall u, findOne (fun u => Nat.eqb (user_id u) studentId) users = Some u ->
                role u <> student_role) ->
     enrollStudent exams users examId studentId
     = (Json 404 false (Some "Student not found") None, exams))
    /\ (forall u,
           findOne (fun u => Nat.eqb (user_id u) studentId) users = Some u ->
           role u = student_role ->
           (isEnrolled exam studentId = true ->
            enrollStudent exams users examId studentId
            = (Json 400 false (Some "Student is already enrolled in this exam")
                    None, exams))
           /\ (isEnrolled exam studentId = false ->
               enrollStudent exams users examId studentId
               = (Json 200 true (Some "Student enrolled successfully") None,
                  saveExam
                    (withEnrolled (enrolledStudents exam ++ [studentId])%list
                                  exam) exams)))
    /\ (isSuccess (fst (enrollStudent exams users examId studentId)) = true
        <-> (isEnrolled exam studentId = false
             /\ exists u,
                 findOne (fun u => Nat.eqb (user_id u) studentId) users = Some u
                 /\ role u = student_role))
    /\ (isSuccess (fst (enrollStudent exams users examId studentId)) = true ->
        isEnrolled exam studentId = false
        /\ (exists u, In u users /\ user_id u = studentId /\ role u = student_role)
        /\ exists exam',
            findById examId (snd (enrollStudent exams users examId studentId))
            = Some exam'
            /\ isEnrolled exam' studentId = true
            /\ enrolledStudents exam'
               = (enrolledStudents exam ++ [studentId])%list
            /\ _id exam' = _id exam
            /\ examCode exam' = examCode exam
            /\ status exam' = status exam
            /\ examSettings exam' = examSettings exam
            /\ (NoDup (enrolledStudents exam) -> NoDup (enrolledStudents exam')))
    /\ (isSuccess (fst (enrollStudent exams users examId studentId)) = false ->
        snd (enrollStudent exams users examId studentId) = exams)
    /\ (isEnrolled exam studentId = true ->
        isClientError (fst (enrollStudent exams users examId studentId)) = true)
    /\ (forall other, other <> examId ->
                      findById other
                        (snd (enrollStudent exams users examId studentId))
                      = findById other exams).
Proof.
  intros exams users examId studentId exam Hf.
  destruct (findById_Some _ _ _ Hf) as [Hin Hid].
  assert (Hexact :
            forall u,
              findOne (fun u => Nat.eqb (user_id u) studentId) users = Some u ->
              role u = student_role ->
              enrollStudent exams users examId studentId
              = if isEnrolled exam studentId
                then (Json 400 false
                           (Some "Student is already enrolled in this exam")
                           None, exams)
                else (Json 200 true (Some "Student enrolled successfully") None,
                      saveExam
                        (withEnrolled
                           (enrolledStudents exam ++ [studentId])%list exam)
                        exams)).
  { intros [uid fn ln r vs fd] Hu Hr. cbn in Hr. subst r.
    unfold enrollStudent. now rewrite Hf, Hu. }
  assert (Hnone :
            (forall u,
                findOne (fun u => Nat.eqb (user_id u) studentId) users = Some u ->
                role u <> student_role) ->
            enrollStudent exams users examId studentId
            = (Json 404 false (Some "Student not found") None, exams)).
  { intros Hno. unfold enrollStudent. rewrite Hf.
    destruct (findOne (fun u => Nat.eqb (user_id u) studentId) users)
      as [[uid fn ln r vs fd]|] eqn:Hu; [|reflexivity].
    specialize (Hno _ eq_refl). cbn in Hno.
    destruct r; [reflexivity | reflexivity | congruence]. }
  split; [exact Hnone|].
  split.
  { intros u Hu Hr. rewrite (Hexact u Hu Hr).
    split; intros ->; reflexivity. }
  split.
  { split.
    - intros Hok.
      destruct (findOne (fun u => Nat.eqb (user_id u) studentId) users)
        as [u|] eqn:Hu.
      + destruct (role u) eqn:Hr.
        * rewrite Hnone in Hok; [discriminate|].
          intros u' Hu'. injection Hu' as <-. congruence.
        * rewrite Hnone in Hok; [discriminate|].
          intros u' Hu'. injection Hu' as <-. congruence.
        * rewrite (Hexact u eq_refl Hr) in Hok.
          destruct (isEnrolled exam studentId); [discriminate|].
          split; [reflexivity|]. now exists u.
      + rewrite Hnone in Hok; [discriminate|]. intros u' Hu'. discriminate.
    - intros (He & u & Hu & Hr). rewrite (Hexact u Hu Hr), He. reflexivity. }
  destruct (enrollStudent_cases exams users examId studentId exam Hf)
    as [[Hrun Hno] | [[Hrun He] | (Hrun & He & Hu)]]; rewrite Hrun;
    cbn [fst snd isSuccess isClientError].
  - split; [discriminate|]. split; [reflexivity|].
    split; [reflexivity|]. reflexivity.
  - split; [discriminate|]. split; [reflexivity|].
    split; [reflexivity|]. reflexivity.
  - split; [|split; [discriminate|split; [congruence|]]].
    + intros _. split; [exact He|]. split; [exact Hu|].
      eexists. split;
        [apply findById_saveExam with (e := exam); [exact Hf | exact Hid]|].
      split; [|split; [reflexivity|split; [reflexivity|split;
                [reflexivity|split; [reflexivity|split; [reflexivity|]]]]]].
      * apply isEnrolled_iff. cbn. apply in_or_app. right. now left.
      * cbn. intros Hnd. apply NoDup_app.
        -- exact Hnd.
        -- repeat constructor. intros [].
        -- intros x Hx [<- | []]. apply isEnrolled_iff in Hx. congruence.
    + intros other Hne. apply findById_saveExam_other. cbn. congruence.
Qed.

(** X2. [unenrollStudent] on an existing exam always succeeds.
    Afterwards the student is not enrolled, every other student is
    enrolled exactly as before, and a second call changes nothing
    further.  Unenrolling a student right after a successful enrollment
    gives back the exams as they were. *)
Theorem unenrollStudent_removes :
  forall (exams : list Exam_) (users : list User) (examId studentId : ObjectId)
         (exam : Exam_),
    findById examId exams = Some exam ->
    (exists exam',
        unenrollStudent exams examId studentId
        = (Json 200 true (Some "Student unenrolled successfully") None,
           saveExam exam' exams)
        /\ findById examId (saveExam exam' exams) = Some exam'
        /\ isEnrolled exam' studentId = false
        /\ (forall other, other <> studentId ->
                          isEnrolled exam' other = isEnrolled exam other)
        /\ status exam' = status exam
        /\ snd (unenrollStudent (saveExam exam' exams) examId studentId)
           = saveExam exam' exams)
    /\ (isSuccess (fst (enrollStudent exams users examId studentId)) = true ->
        snd (unenrollStudent
               (snd (enrollStudent exams users examId studentId))
               examId studentId) = exams).
Proof.
  intros exams users examId studentId exam Hf.
  destruct (findById_Some _ _ _ Hf) as [Hin Hid].
  set (keep := fun enrolled : ObjectId => negb (Nat.eqb enrolled studentId)).
  set (exam' := withEnrolled (filter keep (enrolledStudents exam)) exam).
  assert (Hf' : findById examId (saveExam exam' exams) = Some exam')
    by (apply findById_saveExam with (e := exam); [exact Hf | exact Hid]).
  split.
  - exists exam'. split; [unfold unenrollStudent; now rewrite Hf|].
    split; [exact Hf'|]. split; [|split; [|split; [reflexivity|]]].
    + destruct (isEnrolled exam' studentId) eqn:He; [|reflexivity].
      apply isEnrolled_iff in He. cbn in He. apply filter_In in He.
      destruct He as [_ He]. unfold keep in He.
      now rewrite Nat.eqb_refl in He.
    + intros other Hne.
      destruct (isEnrolled exam other) eqn:He.
      * apply isEnrolled_iff. cbn. apply filter_In. split.
        -- now apply isEnrolled_iff.
        -- unfold keep. now destruct (Nat.eqb_spec other studentId).
      * destruct (isEnrolled exam' other) eqn:He'; [|reflexivity].
        apply isEnrolled_iff in He'. cbn in He'. apply filter_In in He'.
        destruct He' as [He' _]. apply isEnrolled_iff in He'. congruence.
    + unfold unenrollStudent. rewrite Hf'. cbn [snd].
      rewrite saveExam_twice by reflexivity. f_equal.
      unfold exam', withEnrolled. cbn. now rewrite filter_twice.
  - intros Hok.
    assert (Hnot : isEnrolled exam studentId = false).
    { destruct (enrollStudent_cases exams users examId studentId exam Hf)
        as [[Hrun _] | [[Hrun _] | (_ & Hnot & _)]];
        [rewrite Hrun in Hok; discriminate
        | rewrite Hrun in Hok; discriminate
        | exact Hnot]. }
    revert Hok. unfold enrollStudent. rewrite Hf.
    destruct (findOne (fun u => Nat.eqb (user_id u) studentId) users)
      as [[uid fn ln r vs fd]|]; [|discriminate].
    destruct r; try discriminate. rewrite Hnot. intros _. cbn [snd].
    set (enrolled := withEnrolled (enrolledStudents exam ++ [studentId]) exam).
    assert (Hfe : findById examId (saveExam enrolled exams) = Some enrolled)
      by (apply findById_saveExam with (e := exam); [exact Hf | exact Hid]).
    unfold unenrollStudent. rewrite Hfe. cbn [snd].
    rewrite saveExam_twice by reflexivity.
    replace (withEnrolled _ enrolled) with exam;
      [now apply saveExam_self with (id := examId)|].
    unfold enrolled, withEnrolled. cbn.
    rewrite filter_app. cbn. rewrite Nat.eqb_refl. cbn.
    rewrite app_nil_r, filter_others_absent.
    + now destruct exam.
    + intros Hin'. apply isEnrolled_iff in Hin'. congruence.
Qed.

Lemma findById_deleteById id exams :
  NoDup (map _id exams) -> findById id (deleteById id exams) = None.
Proof.
  unfold findById. induction exams as [|x rest IH]; simpl; [reflexivity|].
  intros Hnd. inversion Hnd as [|? ? Hnotin Hnd']; subst.
  destruct (Nat.eqb_spec (_id x) id) as [Hx|Hx].
  - apply findOne_None. intros e Hin.
    destruct (Nat.eqb_spec (_id e) id) as [He|He]; [|reflexivity].
    exfalso. apply Hnotin. rewrite Hx, <- He. now apply in_map.
  - simpl. destruct (Nat.eqb_spec (_id x) id); [contradiction | auto].
Qed.

Lemma findById_deleteById_other id other exams :
  other <> id -> findById other (deleteById id exams) = findById other exams.
Proof.
  unfold findById. intros Hne.
  induction exams as [|x rest IH]; simpl; [reflexivity|].
  destruct (Nat.eqb_spec (_id x) id) as [Hx|Hx]; simpl.
  - destruct (Nat.eqb_spec (_id x) other); [congruence | reflexivity].
  - destruct (Nat.eqb (_id x) other); [reflexivity | exact IH].
Qed.

(** A lookup by another key that found the saved exam finds it again. *)
Lemma findOne_saveExam (p : Exam_ -> bool) id exams e doc :
  findOne p exams = Some e -> findById id exams = Some e ->
  p doc = true -> _id doc = id ->
  findOne p (saveExam doc exams) = Some doc.
Proof.
  unfold findById. intros Hp Hid Hdoc Hdid.
  induction exams as [|x rest IH]; simpl in *; [discriminate|].
  destruct (p x) eqn:Hpx.
  - injection Hp as ->.
    destruct (Nat.eqb_spec (_id e) id) as [He|He].
    + rewrite Hdid, He, Nat.eqb_refl. simpl. now rewrite Hdoc.
    + destruct (findOne_Some _ _ _ Hid) as [_ H]. apply Nat.eqb_eq in H.
      contradiction.
  - destruct (Nat.eqb_spec (_id x) id) as [Hx|Hx].
    + injection Hid as ->. destruct (findOne_Some _ _ _ Hp) as [_ H].
      congruence.
    + rewrite Hdid. destruct (Nat.eqb_spec (_id x) id); [contradiction|].
      simpl. rewrite Hpx. auto.
Qed.

(** X3. The life cycle of an exam.  [startExam] succeeds exactly from
    "scheduled", [endExam] exactly from "ongoing" and [deleteExam] exactly
    from "scheduled"; a refused call leaves exams and sessions as they
    were.  Hence a scheduled exam that is started and then ended is
    "completed" with the enrollment it had, and from there it can be
    neither started again, nor ended again, nor deleted.  A deleted exam is
    no longer found, and the other exams are found as before. *)
Theorem exam_life_cycle :
  forall (exams : list Exam_) (sessions : Monitoring.Store) (id : ObjectId)
         (exam : Exam_) (now now' : Date),
    findById id exams = Some exam ->
    (isSuccess (fst (startExam exams id)) = true <-> status exam = scheduled)
    /\ (isSuccess (fst (fst (endExam exams sessions id now))) = true
        <-> status exam = ongoing)
    /\ (isSuccess (fst (deleteExam exams id)) = true <-> status exam = scheduled)
    /\ (isSuccess (fst (startExam exams id)) = false ->
        snd (startExam exams id) = exams)
    /\ (isSuccess (fst (fst (endExam exams sessions id now))) = false ->
        endExam exams sessions id now
        = (fst (fst (endExam exams sessions id now)), exams, sessions))
    /\ (isSuccess (fst (deleteExam exams id)) = false ->
        snd (deleteExam exams id) = exams)
    /\ (status exam = scheduled ->
        let exams1 := snd (startExam exams id) in
        let ended := endExam exams1 sessions id now in
        let exams2 := snd (fst ended) in
        isSuccess (fst (fst ended)) = true
        /\ (exists exam2,
               findById id exams2 = Some exam2
               /\ status exam2 = completed
               /\ enrolledStudents exam2 = enrolledStudents exam
               /\ examCode exam2 = examCode exam)
        /\ startExam exams2 id
           = (Json 400 false (Some "Exam cannot be started") None, exams2)
        /\ endExam exams2 (snd ended) id now'
           = (Json 400 false (Some "Exam is not currently ongoing") None,
              exams2, snd ended)
        /\ deleteExam exams2 id
           = (Json 400 false (Some "Cannot delete exam that has started") None,
              exams2))
    /\ (status exam = scheduled ->
        NoDup (map _id exams) ->
        findById id (snd (deleteExam exams id)) = None
        /\ forall other, other <> id ->
                         findById other (snd (deleteExam exams id))
                         = findById other exams).
Proof.
  intros exams sessions id exam now now' Hf.
  destruct (findById_Some _ _ _ Hf) as [Hin Hid].
  split; [|split; [|split; [|split; [|split; [|split; [|split]]]]]].
  - unfold startExam. rewrite Hf.
    destruct (status exam); cbn; split; congruence.
  - unfold endExam. rewrite Hf.
    destruct (status exam); cbn; split; congruence.
  - unfold deleteExam. rewrite Hf.
    destruct (status exam); cbn; split; congruence.
  - unfold startExam. rewrite Hf. destruct (status exam); cbn; congruence.
  - unfold endExam. rewrite Hf. destruct (status exam); cbn; congruence.
  - unfold deleteExam. rewrite Hf. destruct (status exam); cbn; congruence.
  - intros Hs.
    set (exam1 := withStatus ongoing exam).
    set (exam2 := withStatus completed exam1).
    assert (H1 : startExam exams id
                 = (Json 200 true (Some "Exam started successfully") (Some exam1),
                    saveExam exam1 exams))
      by (unfold startExam; now rewrite Hf, Hs).
    assert (Hf1 : findById id (saveExam exam1 exams) = Some exam1)
      by (apply findById_saveExam with (e := exam); assumption).
    assert (Hf2 : findById id (saveExam exam2 (saveExam exam1 exams)) = Some exam2)
      by (apply findById_saveExam with (e := exam1); assumption).
    rewrite H1. cbn [snd]. cbv zeta.
    assert (H2 : endExam (saveExam exam1 exams) sessions id now
                 = (Json 200 true (Some "Exam ended successfully") (Some exam2),
                    saveExam exam2 (saveExam exam1 exams),
                    fst (updateMany (activeIn (_id exam1)) (completedAt now)
                                    sessions)))
      by (unfold endExam; now rewrite Hf1).
    rewrite H2. cbn [fst snd].
    split; [reflexivity|]. split; [exists exam2; now repeat split|].
    split; [unfold startExam; now rewrite Hf2|].
    split; [unfold endExam; now rewrite Hf2|].
    unfold deleteExam. now rewrite Hf2.
  - intros Hs Hnd. unfold deleteExam. rewrite Hf, Hs. cbn [snd]. split.
    + now apply findById_deleteById.
    + intros other Hne. now apply findById_deleteById_other.
Qed.

Lemma activeIn_iff id s :
  activeIn id s = true
  <-> Monitoring.exam s = id /\ Monitoring.status s = Monitoring.active.
Proof.
  unfold activeIn. rewrite andb_true_iff, Nat.eqb_eq.
  destruct (Monitoring.status s); intuition congruence.
Qed.

(** X4. What [endExam] does to the monitoring sessions when it
    succeeds.  Exactly the sessions of this exam with status "active"
    become "completed" with [endTime] set to the time of the call; every
    other session, the exam's paused sessions included, is left as it was,
    so afterwards no session of the exam is "active".  No session gets a
    final report written, and no ledger, [sessionId] or [_id] changes. *)
Theorem endExam_completes_active_sessions :
  forall (exams : list Exam_) (sessions : Monitoring.Store) (id : ObjectId)
         (exam : Exam_) (now : Date),
    findById id exams = Some exam ->
    status exam = ongoing ->
    let sessions' := snd (endExam exams sessions id now) in
    Forall2 (SessionSpec.EndedBy id now) sessions sessions'
    /\ (forall s', In s' sessions' -> Monitoring.exam s' = id ->
                   Monitoring.status s' <> Monitoring.active)
    /\ (forall s, In s sessions ->
                  Monitoring.exam s <> id
                  \/ Monitoring.status s <> Monitoring.active ->
                  In s sessions')
    /\ map Monitoring.finalReport sessions' = map Monitoring.finalReport sessions
    /\ map Monitoring.violations sessions' = map Monitoring.violations sessions
    /\ map Monitoring.faceVerifications sessions'
       = map Monitoring.faceVerifications sessions
    /\ map Monitoring.sessionId sessions' = map Monitoring.sessionId sessions
    /\ map Monitoring._id sessions' = map Monitoring._id sessions.
Proof.
  intros exams sessions id exam now Hf Hs.
  destruct (findById_Some _ _ _ Hf) as [_ Hid].
  unfold endExam. rewrite Hf, Hs. cbn [snd]. cbv zeta.
  rewrite updateMany_map, Hid.
  set (g := fun d => if activeIn id d then completedAt now d else d).
  assert (Hg : forall s, SessionSpec.EndedBy id now s (g s)).
  { intros s. unfold g, SessionSpec.EndedBy. destruct (activeIn id s) eqn:Ha.
    - apply activeIn_iff in Ha. right. now repeat split.
    - left. split; [reflexivity|].
      destruct (Nat.eq_dec (Monitoring.exam s) id) as [He|He]; [|now left].
      right. intros Hst. assert (activeIn id s = true) by now apply activeIn_iff.
      congruence. }
  split; [apply Forall2_map_self, Hg|].
  split; [|split].
  - intros s' Hin He Hst. apply in_map_iff in Hin as (s & <- & _).
    unfold g in *. destruct (activeIn id s) eqn:Ha.
    + cbn in Hst. discriminate.
    + assert (activeIn id s = true) by now apply activeIn_iff. congruence.
  - intros s Hin Hor. apply in_map_iff. exists s. split; [|assumption].
    unfold g. destruct (activeIn id s) eqn:Ha; [|reflexivity].
    apply activeIn_iff in Ha. tauto.
  - repeat split; rewrite map_map; apply map_ext; intros s; unfold g;
      now destruct (activeIn id s).
Qed.

End ExamAdminProperties.

(* ================================================================== *)
(** ** Pagination of the enrolled students *)
(* ================================================================== *)

Section PaginationProperties.
Import Exam ExamAdmin.

Lemma slice_window {A} (a n : Z) (l : list A) :
  (0 <= a)%Z -> (0 <= n)%Z ->
  slice a (a + n) l = firstn (Z.to_nat n) (skipn (Z.to_nat a) l).
Proof.
  intros Ha Hn. unfold slice, relativeIndex.
  set (len := Z.of_nat (List.length l)).
  assert (Hlen : (0 <= len)%Z) by (unfold len; lia).
  destruct (Z.ltb_spec a 0); [lia|].
  destruct (Z.ltb_spec (a + n) 0); [lia|].
  destruct (Z_le_gt_dec a len) as [Hle|Hgt].
  - rewrite (Z.min_l a len) by lia.
    destruct (Z_le_gt_dec (a + n) len) as [Hle'|Hgt'].
    + rewrite Z.min_l by lia. f_equal. lia.
    + rewrite Z.min_r by lia.
      assert (Hsk : List.length (skipn (Z.to_nat a) l) = Z.to_nat (len - a))
        by (rewrite length_skipn; unfold len; lia).
      rewrite !firstn_all2; [reflexivity | lia | lia].
  - rewrite (Z.min_r a len) by lia.
    rewrite (skipn_all2 (n := Z.to_nat a)) by (unfold len in *; lia).
    rewrite (skipn_all2 (n := Z.to_nat len)) by (unfold len; lia).
    now rewrite !firstn_nil.
Qed.

(** Consecutive windows of width [n] put together give the list back. *)
Lemma windows_concat {A} (n k : nat) (l : list A) :
  (1 <= n)%nat -> (List.length l <= k * n)%nat ->
  List.concat (map (fun i => firstn n (skipn (i * n) l)) (seq 0 k)) = l.
Proof.
  intros Hn. revert l. induction k as [|k IH]; intros l Hl.
  - destruct l; [reflexivity | simpl in Hl; lia].
  - cbn [seq map List.concat]. rewrite <- seq_shift, map_map.
    rewrite (map_ext _ (fun i => firstn n (skipn (i * n) (skipn n l)))).
    + rewrite IH by (rewrite length_skipn; simpl in Hl; lia).
      simpl. apply firstn_skipn.
    + intros i. rewrite skipn_skipn. do 2 f_equal. simpl. lia.
Qed.

Lemma ceilDiv_bounds (total limit : Z) :
  (0 <= total)%Z -> (1 <= limit)%Z ->
  (0 <= ceilDiv total limit)%Z
  /\ (total <= ceilDiv total limit * limit)%Z
  /\ ((ceilDiv total limit - 1) * limit < total \/ total = 0)%Z.
Proof.
  intros Ht Hl. unfold ceilDiv.
  pose proof (Z.div_mod (- total) limit ltac:(lia)) as Hdm.
  pose proof (Z.mod_pos_bound (- total) limit ltac:(lia)) as Hr.
  split; [nia|]. split; [nia|].
  destruct (Z.eq_dec total 0); [now right | left; nia].
Qed.

Lemma studentsOnPage_window exams id exam (page limit : Z) :
  findById id exams = Some exam ->
  (1 <= page)%Z -> (1 <= limit)%Z ->
  studentsOnPage exams id page limit
  = firstn (Z.to_nat limit)
           (skipn (Z.to_nat (page - 1) * Z.to_nat limit)
                  (enrolledStudents exam)).
Proof.
  intros Hf Hp Hl. unfold studentsOnPage, getEnrolledStudents.
  rewrite Hf. cbn [dataOf students].
  assert (Hpage : parseIntOr (Some page) 1 = page) by (destruct page; cbn; lia).
  assert (Hlimit : parseIntOr (Some limit) 10 = limit)
    by (destruct limit; cbn; lia).
  rewrite Hpage, Hlimit, slice_window by nia.
  do 2 f_equal. nia.
Qed.

(** X6. The pages of [getEnrolledStudents].  For a page size of at
    least 1 and page numbers counted from 1: a page never holds more
    entries than the page size; the pages 1 to [totalPages], put together
    in order, are exactly the enrolled students, each once and in their
    stored order; every later page is empty; and [totalPages] is the least
    number of pages that can hold [totalItems] entries. *)
Theorem enrolled_students_pages :
  forall (exams : list Exam_) (id : ObjectId) (exam : Exam_) (limit : Z),
    findById id exams = Some exam ->
    (1 <= limit)%Z ->
    let total := Z.of_nat (List.length (enrolledStudents exam)) in
    let pages := ceilDiv total limit in
    (forall page, (1 <= page)%Z ->
        exists d,
          getEnrolledStudents exams id (Some page) (Some limit)
          = Json 200 true None (Some d)
          /\ students d = studentsOnPage exams id page limit
          /\ currentPage (pagination d) = page
          /\ itemsPerPage (pagination d) = limit
          /\ totalPages (pagination d) = pages
          /\ totalItems (pagination d) = List.length (enrolledStudents exam))
    /\ (forall page, (1 <= page)%Z ->
           (Z.of_nat (List.length (studentsOnPage exams id page limit))
            <= limit)%Z)
    /\ List.concat (map (fun i => studentsOnPage exams id (Z.of_nat i) limit)
                   (seq 1 (Z.to_nat pages)))
       = enrolledStudents exam
    /\ (forall page, (pages < page)%Z -> studentsOnPage exams id page limit = [])
    /\ (0 <= pages)%Z
    /\ (total <= pages * limit)%Z
    /\ ((pages - 1) * limit < total \/ total = 0)%Z.
Proof.
  intros exams id exam limit Hf Hl total pages.
  destruct (ceilDiv_bounds total limit ltac:(unfold total; lia) Hl)
    as (Hp0 & Hup & Hlow).
  fold pages in Hp0, Hup, Hlow.
  split; [|split; [|split; [|split; [|split; [|split]]]]]; try assumption.
  - intros page Hp. eexists. split.
    + unfold getEnrolledStudents. rewrite Hf. reflexivity.
    + assert (Hpage : parseIntOr (Some page) 1 = page)
        by (destruct page; cbn; lia).
      assert (Hlimit : parseIntOr (Some limit) 10 = limit)
        by (destruct limit; cbn; lia).
      cbn [students pagination currentPage itemsPerPage totalPages totalItems].
      rewrite Hpage, Hlimit. repeat split.
      unfold studentsOnPage, getEnrolledStudents. rewrite Hf.
      cbn [dataOf students]. now rewrite Hpage, Hlimit.
  - intros page Hp. rewrite (studentsOnPage_window _ _ _ _ _ Hf Hp Hl).
    rewrite length_firstn. lia.
  - rewrite <- seq_shift, map_map.
    rewrite (map_ext _ (fun i => firstn (Z.to_nat limit)
                                        (skipn (i * Z.to_nat limit)
                                               (enrolledStudents exam)))).
    + apply windows_concat; [lia|]. unfold total in Hup. nia.
    + intros i.
      rewrite (studentsOnPage_window exams id exam (Z.of_nat (S i)) limit
                 Hf ltac:(lia) Hl).
      do 3 f_equal. lia.
  - intros page Hp.
    rewrite (studentsOnPage_window exams id exam page limit
               Hf ltac:(lia) Hl).
    rewrite skipn_all2; [apply firstn_nil|]. unfold total in Hup. nia.
Qed.

End PaginationProperties.

(* ================================================================== *)
(** ** Monitoring sessions: access, frame and the live-session invariant *)
(* ================================================================== *)

Section SessionInvariants.
Import Monitoring SessionSpec.

Variable E : Type.
Variable addViolation :
  MonitoringSession -> Violation -> Result E MonitoringSession.
Variable addFaceVerification :
  MonitoringSession -> VerificationRecord -> Result E MonitoringSession.
Variable calculateRiskScore : MonitoringSession -> Z.
Variable JSON_parse : string -> option bool.

Local Abbreviation endSession := (endMonitoringSession E calculateRiskScore).
Local Abbreviation setStatus := (updateSessionStatus E).
Local Abbreviation report := (reportViolation E addViolation).
Local Abbreviation verify :=
  (verifyFace E addViolation addFaceVerification JSON_parse).
Local Abbreviation start := (startMonitoringSession E).
Local Abbreviation join := (joinExam E).

(** X7. Who may act on a session.  An unknown [sessionId] is answered
    404 by all four session handlers.  On a known session,
    [updateSessionStatus] and [reportViolation] answer 403 to a requester
    who neither owns the session nor is admin or invigilator, while
    [endMonitoringSession] and [verifyFace] answer 403 to everyone but the
    owner, staff included.  In each of these cases the collection is
    unchanged and no document method of the session is called. *)
Theorem session_access_control :
  forall (st : Store) (sid : string) (reqUser : User) (now : Date),
    (findOne (bySessionId sid) st = None ->
     endSession reqUser sid now st
     = (Json 404 false (Some "Monitoring session not found") None, st)
     /\ (forall newStatus reason,
            setStatus reqUser sid newStatus reason now st
            = (Json 404 false (Some "Monitoring session not found") None, st))
     /\ (forall body,
            report reqUser sid body now st
            = (Json 404 false (Some "Monitoring session not found") None, st))
     /\ (forall users img rnd,
            verify users reqUser sid img rnd now st
            = (Json 404 false (Some "Monitoring session not found") None, st)))
    /\ (forall session,
           findOne (bySessionId sid) st = Some session ->
           (student session <> user_id reqUser ->
            endSession reqUser sid now st
            = (Json 403 false (Some "Unauthorized access to session") None, st))
           /\ (student session <> user_id reqUser ->
               isStaff (role reqUser) = false ->
               (forall newStatus reason,
                   setStatus reqUser sid newStatus reason now st
                   = (Json 403 false (Some "Unauthorized access to session")
                           None, st))
               /\ (forall body,
                      report reqUser sid body now st
                      = (Json 403 false (Some "Unauthorized access to session")
                              None, st)))
           /\ (forall users studentDoc img rnd,
                  populate users (student session) = Some studentDoc ->
                  user_id studentDoc <> user_id reqUser ->
                  verify users reqUser sid img rnd now st
                  = (Json 403 false (Some "Unauthorized access to session")
                          None, st))).
Proof.
  intros st sid reqUser now. split.
  - intros Hn. unfold endMonitoringSession, updateSessionStatus,
      reportViolation, verifyFace. rewrite Hn. repeat split.
  - intros session Hf. split; [|split].
    + intros Hne. unfold endMonitoringSession. rewrite Hf.
      destruct (Nat.eqb_spec (student session) (user_id reqUser));
        [contradiction | reflexivity].
    + intros Hne Hstaff.
      assert (Hm : mayAct session reqUser = false).
      { unfold mayAct. rewrite Hstaff.
        destruct (Nat.eqb_spec (student session) (user_id reqUser));
          [contradiction | reflexivity]. }
      split; intros; unfold updateSessionStatus, reportViolation;
        now rewrite Hf, Hm.
    + intros users studentDoc img rnd Hp Hne. unfold verifyFace.
      rewrite Hf, Hp.
      destruct (Nat.eqb_spec (user_id studentDoc) (user_id reqUser));
        [contradiction | reflexivity].
Qed.

Lemma unique_id_eq (st : Store) (a b : MonitoringSession) :
  UniqueIds st -> In a st -> In b st -> _id a = _id b -> a = b.
Proof.
  unfold UniqueIds. induction st as [|d rest IH]; simpl; [contradiction|].
  intros Hu Ha Hb Hid. inversion Hu as [|? ? Hnotin Hu']; subst.
  destruct Ha as [Ha | Ha], Hb as [Hb | Hb].
  - congruence.
  - exfalso. apply Hnotin. rewrite Ha, Hid. now apply in_map.
  - exfalso. apply Hnotin. rewrite Hb, <- Hid. now apply in_map.
  - auto.
Qed.

(** [save] of a document that agrees with the stored one on [f]. *)
Lemma save_map {B} (f : MonitoringSession -> B) (st : Store)
      (s doc : MonitoringSession) :
  UniqueIds st -> In s st -> _id doc = _id s -> f doc = f s ->
  map f (save doc st) = map f st.
Proof.
  intros Hu Hin Hid Hf.
  assert (Hall : forall d, In d st -> _id d = _id doc -> f doc = f d).
  { intros d Hd He. rewrite (unique_id_eq st d s Hu Hd Hin); congruence. }
  clear Hu Hin Hid Hf. induction st as [|d rest IH]; simpl; [reflexivity|].
  destruct (Nat.eqb_spec (_id d) (_id doc)) as [He|He]; simpl.
  - f_equal. apply Hall; [now left | exact He].
  - f_equal. apply IH. intros d' Hd'. apply Hall. now right.
Qed.

Lemma In_save_other (st : Store) (s0 doc : MonitoringSession) :
  In s0 st -> _id s0 <> _id doc -> In s0 (save doc st).
Proof.
  induction st as [|d rest IH]; simpl; [contradiction|].
  intros [-> | Hin] Hne.
  - destruct (Nat.eqb_spec (_id s0) (_id doc)); [contradiction | now left].
  - destruct (Nat.eqb (_id d) (_id doc)); right; auto.
Qed.

Lemma endSession_snd reqUser sid now st :
  snd (endSession reqUser sid now st) = st
  \/ exists session,
      findOne (bySessionId sid) st = Some session
      /\ snd (endSession reqUser sid now st)
         = save (finalized calculateRiskScore session now) st.
Proof.
  destruct (endSession_cases E calculateRiskScore reqUser sid now st)
    as [[_ ->] | (session & Hf & [[_ ->] | [(_ & _ & ->) | (_ & _ & ->)]])];
    try (now left).
  right. now exists session.
Qed.

Lemma setStatus_snd reqUser sid newStatus reason now st :
  snd (setStatus reqUser sid newStatus reason now st) = st
  \/ exists session,
      findOne (bySessionId sid) st = Some session
      /\ snd (setStatus reqUser sid newStatus reason now st)
         = save (transitioned session newStatus reason now) st.
Proof.
  unfold updateSessionStatus.
  destruct (findOne (bySessionId sid) st) as [session|]; [|now left].
  destruct (mayAct session reqUser); cbn [negb]; [|now left].
  right. now exists session.
Qed.

(** X8. What finalization and status changes never touch.  On a
    collection whose documents have distinct [_id]s, neither
    [endMonitoringSession] nor [updateSessionStatus] changes, in any stored
    session, the [_id], the exam and student references, the [sessionId],
    the [startTime] or either ledger, and [updateSessionStatus] never
    changes a [finalReport]; the [_id]s stay distinct; and every session
    with another [sessionId] than the one addressed is stored exactly as
    before. *)
Theorem finalize_and_status_frame :
  forall (st : Store) (reqUser : User) (sid : string) (now : Date)
         (newStatus : Status) (reason : option string),
    UniqueIds st ->
    let st1 := snd (endSession reqUser sid now st) in
    let st2 := snd (setStatus reqUser sid newStatus reason now st) in
    (map immutable st1 = map immutable st
     /\ map violations st1 = map violations st
     /\ map faceVerifications st1 = map faceVerifications st
     /\ UniqueIds st1
     /\ forall s0, In s0 st -> sessionId s0 <> sid -> In s0 st1)
    /\ (map immutable st2 = map immutable st
        /\ map violations st2 = map violations st
        /\ map faceVerifications st2 = map faceVerifications st
        /\ map finalReport st2 = map finalReport st
        /\ UniqueIds st2
        /\ forall s0, In s0 st -> sessionId s0 <> sid -> In s0 st2).
Proof.
  intros st reqUser sid now newStatus reason Hu st1 st2.
  assert (Hframe : forall doc session,
             findOne (bySessionId sid) st = Some session ->
             _id doc = _id session ->
             forall s0, In s0 st -> sessionId s0 <> sid -> In s0 (save doc st)).
  { intros doc session Hf Hid s0 Hin Hne.
    destruct (findOne_Some _ _ _ Hf) as [Hins Hsid].
    apply String.eqb_eq in Hsid.
    apply In_save_other; [assumption|]. intros He. apply Hne.
    rewrite (unique_id_eq st s0 session Hu Hin Hins); congruence. }
  split.
  - subst st1.
    destruct (endSession_snd reqUser sid now st) as [-> | (session & Hf & ->)];
      [now repeat split|].
    destruct (findOne_Some _ _ _ Hf) as [Hin _].
    assert (Hi : map immutable (save (finalized calculateRiskScore session now) st)
                 = map immutable st)
      by (apply save_map with (s := session); auto).
    split; [exact Hi|].
    split; [apply save_map with (s := session); auto|].
    split; [apply save_map with (s := session); auto|].
    split.
    + unfold UniqueIds in *.
      rewrite (save_map _id st session) by auto. exact Hu.
    + now apply Hframe with (session := session).
  - subst st2.
    destruct (setStatus_snd reqUser sid newStatus reason now st)
      as [-> | (session & Hf & ->)]; [now repeat split|].
    destruct (findOne_Some _ _ _ Hf) as [Hin _].
    split; [apply save_map with (s := session); auto|].
    split; [apply save_map with (s := session); auto|].
    split; [apply save_map with (s := session); auto|].
    split; [apply save_map with (s := session); auto|].
    split.
    + unfold UniqueIds in *.
      rewrite (save_map _id st session) by auto. exact Hu.
    + now apply Hframe with (session := session).
Qed.

Lemma filter_nil_of_findOne {A} (p : A -> bool) (l : list A) :
  findOne p l = None -> filter p l = [].
Proof.
  intros H. pose proof (proj1 (findOne_None p l) H) as Hn.
  induction l as [|a l IH]; simpl; [reflexivity|].
  rewrite (Hn a) by now left. apply IH.
  - simpl in H. rewrite (Hn a) in H by now left. exact H.
  - intros x Hx. apply Hn. now right.
Qed.

Lemma length_filter_save (p : MonitoringSession -> bool) (doc : MonitoringSession)
      (st : Store) :
  p doc = false ->
  (List.length (filter p (save doc st)) <= List.length (filter p st))%nat.
Proof.
  intros Hp. induction st as [|d rest IH]; simpl; [lia|].
  destruct (Nat.eqb (_id d) (_id doc)); simpl.
  - rewrite Hp. destruct (p d); simpl; lia.
  - destruct (p d); simpl; lia.
Qed.

Lemma length_filter_map_le {A} (p : A -> bool) (g : A -> A) (l : list A) :
  (forall a, p (g a) = true -> p a = true) ->
  (List.length (filter p (map g l)) <= List.length (filter p l))%nat.
Proof.
  intros H. induction l as [|a l IH]; simpl; [lia|].
  destruct (p (g a)) eqn:Hg.
  - rewrite (H a Hg). simpl. lia.
  - destruct (p a); simpl; lia.
Qed.

(** Appending a session that is live for a pair without live session. *)
Lemma AtMostOneLive_app (st : Store) (examId userId : ObjectId)
      (new : MonitoringSession) :
  AtMostOneLive st ->
  findOne (liveFor examId userId) st = None ->
  exam new = examId -> student new = userId ->
  AtMostOneLive (st ++ [new])%list.
Proof.
  intros Hst Hnone He Hs e u. rewrite filter_app, length_app. simpl.
  destruct (liveFor e u new) eqn:Hl; simpl; [|specialize (Hst e u); lia].
  unfold liveFor in Hl. rewrite !andb_true_iff, !Nat.eqb_eq in Hl.
  destruct Hl as [[He' Hs'] _].
  assert (Hee : e = examId) by congruence.
  assert (Huu : u = userId) by congruence.
  now rewrite Hee, Huu, (filter_nil_of_findOne _ _ Hnone).
Qed.

(** X9. At most one live session per student and exam.  If no student
    has two live ([active] or [paused]) sessions of one exam, this is
    still so after [startMonitoringSession], after [joinExam], after
    [endMonitoringSession] and after [endExam], whatever each of them
    answers. *)
Theorem one_live_session_preserved :
  forall (st : Store) (exams : list Exam.Exam_) (reqUser : User)
         (examId : ObjectId) (code sid uuid : string) (newId : ObjectId)
         (now : Date),
    AtMostOneLive st ->
    AtMostOneLive (snd (start exams reqUser examId newId uuid now st))
    /\ AtMostOneLive (snd (join exams reqUser code newId uuid now st))
    /\ AtMostOneLive (snd (endSession reqUser sid now st))
    /\ AtMostOneLive (snd (ExamAdmin.endExam exams st examId now)).
Proof.
  intros st exams reqUser examId code sid uuid newId now Hst.
  split; [|split; [|split]].
  - unfold startMonitoringSession.
    destruct (findOne _ exams) as [exam_|]; [|exact Hst].
    destruct (Exam.isOngoing (Exam.status exam_)); cbn [negb]; [|exact Hst].
    destruct (Exam.isEnrolled exam_ (user_id reqUser)); cbn [negb];
      [|exact Hst].
    destruct (findOne (liveFor examId (user_id reqUser)) st) eqn:Hl;
      [exact Hst|].
    cbn [snd]. now apply AtMostOneLive_app with (examId := examId)
                                                (userId := user_id reqUser).
  - unfold joinExam.
    destruct (findOne _ exams) as [exam_|]; [|exact Hst].
    destruct (Exam.isEnrolled exam_ (user_id reqUser)); cbn [negb];
      [|exact Hst].
    destruct (Exam.isOngoing (Exam.status exam_)); cbn [negb]; [|exact Hst].
    destruct (Exam.faceVerificationRequired (Exam.examSettings exam_)
              && negb (isVerified (verificationStatus reqUser)));
      [exact Hst|].
    destruct (findOne (liveFor (Exam._id exam_) (user_id reqUser)) st) eqn:Hl;
      [exact Hst|].
    cbn [snd]. now apply AtMostOneLive_app with (examId := Exam._id exam_)
                                                (userId := user_id reqUser).
  - destruct (endSession_snd reqUser sid now st) as [-> | (session & _ & ->)];
      [exact Hst|].
    intros e u. specialize (Hst e u).
    pose proof (length_filter_save (liveFor e u)
                  (finalized calculateRiskScore session now) st) as Hle.
    assert (Hdead : liveFor e u (finalized calculateRiskScore session now) = false)
      by (unfold liveFor; cbn; now rewrite andb_false_r).
    specialize (Hle Hdead). lia.
  - unfold ExamAdmin.endExam.
    destruct (ExamAdmin.findById examId exams) as [exam_|]; [|exact Hst].
    destruct (Exam.status exam_); try exact Hst.
    cbn [snd]. rewrite updateMany_map. intros e u. specialize (Hst e u).
    pose proof (length_filter_map_le (liveFor e u)
                  (fun d => if ExamAdmin.activeIn (Exam._id exam_) d
                            then ExamAdmin.completedAt now d else d) st) as Hle.
    assert (Hg : forall a,
               liveFor e u (if ExamAdmin.activeIn (Exam._id exam_) a
                            then ExamAdmin.completedAt now a else a) = true ->
               liveFor e u a = true).
    { intros a. destruct (ExamAdmin.activeIn (Exam._id exam_) a); [|auto].
      unfold liveFor. cbn. rewrite andb_false_r. discriminate. }
    specialize (Hle Hg). lia.
Qed.

(** X5. Once an exam is ended nobody joins it any more.  After a
    successful [endExam], [startMonitoringSession] for this exam answers
    400 "Exam is not currently active" to every student, [joinExam] with
    its code answers a client error, and neither creates a session nor
    changes one. *)
Theorem no_join_after_endExam :
  forall (exams : list Exam.Exam_) (sessions : Store) (id : ObjectId)
         (exam : Exam.Exam_) (code : string) (reqUser : User)
         (newId : ObjectId) (uuid : string) (now now' : Date),
    ExamAdmin.findById id exams = Some exam ->
    findOne (fun e => String.eqb (Exam.examCode e) (toUpperCase code)) exams
    = Some exam ->
    Exam.status exam = Exam.ongoing ->
    let exams' := snd (fst (ExamAdmin.endExam exams sessions id now)) in
    let sessions' := snd (ExamAdmin.endExam exams sessions id now) in
    start exams' reqUser id newId uuid now' sessions'
    = (Json 400 false (Some "Exam is not currently active") None, sessions')
    /\ isClientError (fst (join exams' reqUser code newId uuid now' sessions'))
       = true
    /\ snd (join exams' reqUser code newId uuid now' sessions') = sessions'.
Proof.
  intros exams sessions id exam code reqUser newId uuid now now' Hf Hc Hs.
  destruct (findOne_Some _ _ _ Hf) as [_ Hid]. apply Nat.eqb_eq in Hid.
  destruct (findOne_Some _ _ _ Hc) as [_ Hcode].
  unfold ExamAdmin.endExam. rewrite Hf, Hs. cbn [fst snd]. cbv zeta.
  set (exam' := ExamAdmin.withStatus Exam.completed exam).
  assert (Hf' : ExamAdmin.findById id (ExamAdmin.saveExam exam' exams)
                = Some exam')
    by (apply findById_saveExam with (e := exam); assumption).
  assert (Hc' : findOne (fun e => String.eqb (Exam.examCode e) (toUpperCase code))
                        (ExamAdmin.saveExam exam' exams) = Some exam')
    by (apply findOne_saveExam with (id := id) (e := exam); assumption).
  split.
  - unfold startMonitoringSession. unfold ExamAdmin.findById in Hf'.
    now rewrite Hf'.
  - unfold joinExam. rewrite Hc'. cbn [Exam.status exam' ExamAdmin.withStatus].
    destruct (Exam.isEnrolled exam' (user_id reqUser)); cbn; now split.
Qed.

End SessionInvariants.


(* ================================================================== *)
(** ** The mock face recognition and the paths of verifyFace *)
(* ================================================================== *)

Section FaceProperties.
Import Monitoring.

Variable E : Type.
Variable addViolation :
  MonitoringSession -> Violation -> Result E MonitoringSession.
Variable addFaceVerification :
  MonitoringSession -> VerificationRecord -> Result E MonitoringSession.
Variable JSON_parse : string -> option bool.

Local Abbreviation verify :=
  (verifyFace E addViolation addFaceVerification JSON_parse).

(** X10. The mock face recognition, for draws of [Math.random()] in
    [0, 1).  [detectFaces] reports a face count of 0, 1 or 2.
    [compareFaces] on two present descriptors always reports a match, with
    a confidence of at least 0.6 and at most 1; when a descriptor is
    missing it reports no match with confidence 0. *)
Theorem mock_recognition_bounds :
  forall rnd : Randomness,
    (0 <= r_faceCount rnd)%Q -> (r_faceCount rnd < 1)%Q ->
    (0 <= r_similarity rnd)%Q -> (r_similarity rnd < 1)%Q ->
    (0 <= faceCount (detectFaces rnd) <= 2)%Z
    /\ c_match (compareFaces true true rnd) = true
    /\ (6 # 10 <= c_confidence (compareFaces true true rnd))%Q
    /\ (c_confidence (compareFaces true true rnd) <= 1)%Q
    /\ (forall descriptor1 descriptor2,
           descriptor1 = false \/ descriptor2 = false ->
           compareFaces descriptor1 descriptor2 rnd
           = {| c_confidence := 0; c_match := false |}).
Proof.
  intros rnd Hc0 Hc1 Hs0 Hs1. split; [|split; [|split; [|split]]].
  - cbn [faceCount detectFaces]. split.
    + change 0%Z with (Qfloor 0). apply Qfloor_resp_le. lra.
    + assert (Qfloor (r_faceCount rnd * 3) < 3)%Z; [|lia].
      rewrite Zlt_Qlt.
      apply Qle_lt_trans with (r_faceCount rnd * 3)%Q; [apply Qfloor_le|].
      change (inject_Z 3) with 3%Q. lra.
  - cbn. apply Qle_bool_iff. lra.
  - cbn. lra.
  - cbn. lra.
  - intros d1 d2 [-> | ->]; [reflexivity | now destruct d1].
Qed.

(** X11. With the mock, a registered student is always verified.  When
    [verifyFace] sees a face, and not several, and the student's stored
    descriptor parses to a present value, the comparison cannot fail for
    any draw in [0, 1): the verification is recorded as [verified] with
    the drawn confidence, no violation is reported, and the answer is 200,
    whatever the image. *)
Theorem verifyFace_registered_is_verified :
  forall (users : list User) (reqUser studentDoc : User) (sid img : string)
         (rnd : Randomness) (now : Date) (st : Store)
         (session : MonitoringSession) (c : ascii) (text : string),
    findOne (bySessionId sid) st = Some session ->
    populate users (student session) = Some studentDoc ->
    user_id studentDoc = user_id reqUser ->
    hasFace (detectFaces rnd) = true ->
    multipleFaces (detectFaces rnd) = false ->
    faceData studentDoc = Some (String c text) ->
    JSON_parse (String c text) = Some true ->
    (0 <= r_similarity rnd)%Q ->
    let record :=
      {| timestamp := now; result := verified;
         confidence := (r_similarity rnd * (4 # 10) + (6 # 10))%Q;
         image := truncated img |} in
    addFaceVerification session record = Ok (pushVerification record session) ->
    verify users reqUser sid img rnd now st
    = (Json 200 true None
            (Some {| fd_result := verified;
                     fd_confidence := (r_similarity rnd * (4 # 10) + (6 # 10))%Q |}),
       save (pushVerification record session) st)
    /\ violations (pushVerification record session) = violations session.
Proof.
  intros users reqUser studentDoc sid img rnd now st session c text
         Hf Hp Ho Hface Hmulti Hdata Hparse Hr record Hadd.
  split; [|reflexivity].
  assert (Hm : Qle_bool (6 # 10) (r_similarity rnd * (4 # 10) + (6 # 10)) = true)
    by (apply Qle_bool_iff; lra).
  unfold verifyFace. rewrite Hf, Hp, Ho, Nat.eqb_refl. cbn [negb].
  unfold respond, tryCatch, bind, verifyFaceAttempt, bind.
  rewrite Hface, Hmulti, Hdata, Hparse. cbn [negb].
  unfold compareFaces. cbn [negb orb c_match c_confidence].
  rewrite Hm. cbn [negb]. unfold ret. cbn [fst snd]. unfold call.
  change (withResult verified (r_similarity rnd * (4 # 10) + (6 # 10))
            {| timestamp := now; result := failed; confidence := 0;
               image := truncated img |}) with record.
  rewrite Hadd. reflexivity.
Qed.

(** X12. Several faces in the frame.  [verifyFace] first reports a
    [multiple_faces] violation of severity [high] through the session's
    [addViolation] and then records the verification on the session so
    updated.  When both go through, the answer is 200 with result
    [multiple_faces] and confidence 0.  The two writes are not atomic:
    when the violation was stored and recording the verification then
    fails, the answer is 500 while the violation stays stored; and when
    reporting the violation fails, nothing is stored. *)
Theorem verifyFace_multiple_faces :
  forall (users : list User) (reqUser studentDoc : User) (sid img : string)
         (rnd : Randomness) (now : Date) (st : Store)
         (session : MonitoringSession),
    findOne (bySessionId sid) st = Some session ->
    populate users (student session) = Some studentDoc ->
    user_id studentDoc = user_id reqUser ->
    hasFace (detectFaces rnd) = true ->
    multipleFaces (detectFaces rnd) = true ->
    let violation :=
      {| type := "multiple_faces"; severity := high;
         description := "Multiple faces detected in frame";
         evidence := truncated img; v_timestamp := None |} in
    let record :=
      {| timestamp := now; result := multiple_faces; confidence := 0;
         image := truncated img |} in
    (forall session1 session2,
        addViolation session violation = Ok session1 ->
        addFaceVerification session1 record = Ok session2 ->
        verify users reqUser sid img rnd now st
        = (Json 200 true None
                (Some {| fd_result := multiple_faces; fd_confidence := 0 |}),
           save session2 (save session1 st)))
    /\ (forall session1 e,
           addViolation session violation = Ok session1 ->
           addFaceVerification session1 record = Err e ->
           verify users reqUser sid img rnd now st
           = (Json 500 false (Some "Face verification failed") None,
              save session1 st))
    /\ (forall e,
           addViolation session violation = Err e ->
           verify users reqUser sid img rnd now st
           = (Json 500 false (Some "Face verification failed") None, st)).
Proof.
  intros users reqUser studentDoc sid img rnd now st session
         Hf Hp Ho Hface Hmulti violation record.
  assert (Hrun : verify users reqUser sid img rnd now st
                 = respond
                     (tryCatch
                        (bind (verifyFaceAttempt E addViolation
                                 addFaceVerification JSON_parse
                                 session studentDoc img rnd now)
                              (fun v => reply E 200 true None
                                          (Some {| fd_result := result v;
                                                   fd_confidence := confidence v |})))
                        (reply E 500 false (Some "Face verification failed") None))
                     st)
    by (unfold verifyFace; now rewrite Hf, Hp, Ho, Nat.eqb_refl).
  rewrite Hrun. unfold respond, tryCatch, bind, verifyFaceAttempt, bind.
  rewrite Hface, Hmulti. cbn [negb]. unfold call. fold violation.
  split; [|split].
  - intros session1 session2 Hv Hr. rewrite Hv. unfold ret. cbn [fst snd].
    change (withResult multiple_faces 0
              {| timestamp := now; result := failed; confidence := 0;
                 image := truncated img |}) with record.
    now rewrite Hr.
  - intros session1 e Hv Hr. rewrite Hv. unfold ret. cbn [fst snd].
    change (withResult multiple_faces 0
              {| timestamp := now; result := failed; confidence := 0;
                 image := truncated img |}) with record.
    now rewrite Hr.
  - intros e Hv. now rewrite Hv.
Qed.

End FaceProperties.

(* ================================================================== *)
(** ** Accounts: face registration and the verification status *)
(* ================================================================== *)

Section AccountProperties.
Import Accounts.

Variable E : Type.
Variable JSON_stringify : list Q -> string.

Local Abbreviation register := (registerFace JSON_stringify).
Local Abbreviation update := (updateFaceData JSON_stringify).
Local Abbreviation join := (Monitoring.joinExam E).

Lemma findAccount_Some id accounts a :
  findAccount id accounts = Some a ->
  In a accounts /\ user_id (profile a) = id.
Proof.
  intros H. destruct (findOne_Some _ _ _ H) as [Hin Heq].
  split; [assumption | now apply Nat.eqb_eq].
Qed.

Lemma findAccount_save id accounts a doc :
  findAccount id accounts = Some a -> user_id (profile doc) = id ->
  findAccount id (saveAccount doc accounts) = Some doc.
Proof.
  unfold findAccount. intros Hf Hid.
  induction accounts as [|x rest IH]; simpl in *; [discriminate|].
  destruct (Nat.eqb_spec (user_id (profile x)) id) as [Hx|Hx].
  - rewrite Hid, Hx, Nat.eqb_refl. simpl. now rewrite Hid, Nat.eqb_refl.
  - rewrite Hid. destruct (Nat.eqb_spec (user_id (profile x)) id);
      [contradiction|].
    simpl. destruct (Nat.eqb_spec (user_id (profile x)) id);
      [contradiction | auto].
Qed.

Lemma findAccount_save_other id accounts doc :
  user_id (profile doc) <> id ->
  findAccount id (saveAccount doc accounts) = findAccount id accounts.
Proof.
  unfold findAccount. intros Hne.
  induction accounts as [|x rest IH]; simpl; [reflexivity|].
  destruct (Nat.eqb_spec (user_id (profile x)) (user_id (profile doc)))
    as [Hx|Hx]; simpl.
  - destruct (Nat.eqb_spec (user_id (profile doc)) id); [contradiction|].
    destruct (Nat.eqb_spec (user_id (profile x)) id);
      [congruence | reflexivity].
  - destruct (Nat.eqb (user_id (profile x)) id); [reflexivity | exact IH].
Qed.

Lemma storeFace_cases okText failText accounts reqUser file rnd draw a :
  findAccount (user_id reqUser) accounts = Some a ->
  (isClientError
     (fst (storeFace JSON_stringify okText failText accounts reqUser file rnd draw))
   = true
   /\ snd (storeFace JSON_stringify okText failText accounts reqUser file rnd draw)
      = accounts
   /\ (file = None
       \/ Monitoring.hasFace (Monitoring.detectFaces rnd) = false
       \/ Monitoring.multipleFaces (Monitoring.detectFaces rnd) = true))
  \/ (exists f,
         file = Some f
         /\ Monitoring.hasFace (Monitoring.detectFaces rnd) = true
         /\ Monitoring.multipleFaces (Monitoring.detectFaces rnd) = false
         /\ storeFace JSON_stringify okText failText accounts reqUser file rnd draw
            = (Json 200 true (Some okText) (Some vs_pending),
               saveAccount
                 (withFace JSON_stringify (extractFaceDescriptor draw) f a)
                 accounts)).
Proof.
  intros Hf. unfold storeFace.
  destruct file as [f|]; [|left; cbn; auto].
  destruct (Monitoring.hasFace (Monitoring.detectFaces rnd)); cbn [negb];
    [|left; cbn; auto].
  destruct (Monitoring.multipleFaces (Monitoring.detectFaces rnd));
    [left; cbn; auto|].
  rewrite Hf. right. exists f. repeat split.
Qed.

(** X13. Registering or updating face data.  For a stored account,
    [registerFace] and [updateFaceData] are refused with a client error,
    changing no account, exactly when no file is sent, no face is
    detected, or several faces are detected.  Otherwise they answer 200
    and store for the requester a descriptor of 128 numbers, the uploaded
    image as profile image, and verification status "pending" - also when
    the student was verified before - leaving every other account as it
    was.  With the profile so stored the student is turned away from every
    ongoing exam that requires face verification. *)
Theorem face_registration_resets_verification :
  forall (accounts : list Account) (reqUser : User) (file : option File)
         (rnd : Monitoring.Randomness) (draw : nat -> Q) (a : Account),
    findAccount (user_id reqUser) accounts = Some a ->
    let ok := isSuccess (fst (register accounts reqUser file rnd draw)) in
    let accounts' := snd (register accounts reqUser file rnd draw) in
    (ok = false <->
     file = None
     \/ Monitoring.hasFace (Monitoring.detectFaces rnd) = false
     \/ Monitoring.multipleFaces (Monitoring.detectFaces rnd) = true)
    /\ (ok = false ->
        isClientError (fst (register accounts reqUser file rnd draw)) = true
        /\ accounts' = accounts)
    /\ snd (update accounts reqUser file rnd draw) = accounts'
    /\ isSuccess (fst (update accounts reqUser file rnd draw)) = ok
    /\ (forall other, other <> user_id reqUser ->
                      findAccount other accounts' = findAccount other accounts)
    /\ (ok = true ->
        exists f a',
          file = Some f
          /\ findAccount (user_id reqUser) accounts' = Some a'
          /\ verificationStatus (profile a') = vs_pending
          /\ faceData (profile a')
             = Some (JSON_stringify (extractFaceDescriptor draw))
          /\ List.length (extractFaceDescriptor draw) = 128
          /\ profileImage a'
             = Some ("data:" ++ mimetype f ++ ";base64," ++ base64 f)
          /\ role (profile a') = role (profile a)
          /\ isVerified a' = isVerified a
          /\ isActive a' = isActive a
          /\ forall exams exam_ code newId uuid now st,
              findOne (fun e => String.eqb (Exam.examCode e) (toUpperCase code))
                      exams = Some exam_ ->
              Exam.isOngoing (Exam.status exam_) = true ->
              Exam.faceVerificationRequired (Exam.examSettings exam_) = true ->
              isClientError
                (fst (join exams (profile a') code newId uuid now st)) = true
              /\ snd (join exams (profile a') code newId uuid now st) = st).
Proof.
  intros accounts reqUser file rnd draw a Hf ok accounts'.
  destruct (findAccount_Some _ _ _ Hf) as [_ Hid].
  subst ok accounts'. unfold registerFace, updateFaceData.
  destruct (storeFace_cases
              "Face registered successfully. Awaiting admin verification."
              "Face registration failed" accounts reqUser file rnd draw a Hf)
    as [(Herr & Hsame & Hwhy) | (f & Hfile & Hface & Hmulti & Hrun)];
  destruct (storeFace_cases
              "Face data updated successfully. Awaiting admin verification."
              "Face update failed" accounts reqUser file rnd draw a Hf)
    as [(Herr' & Hsame' & Hwhy') | (f' & Hfile' & Hface' & Hmulti' & Hrun')].
  - assert (Hno : forall o : Outcome unit VerificationStatus,
               isClientError o = true -> isSuccess o = false)
      by (intros [c [|] m d|e]; cbn; congruence).
    rewrite Hsame, Hsame', (Hno _ Herr), (Hno _ Herr').
    repeat split; auto; discriminate.
  - exfalso. destruct Hwhy as [H | [H | H]]; congruence.
  - exfalso. destruct Hwhy' as [H | [H | H]]; congruence.
  - assert (f' = f) by congruence. subst f'.
    rewrite Hrun, Hrun'. cbn [fst snd isSuccess].
    set (a' := withFace JSON_stringify (extractFaceDescriptor draw) f a).
    split; [split; [discriminate | intros [H | [H | H]]; congruence]|].
    split; [discriminate|]. split; [reflexivity|]. split; [reflexivity|].
    split.
    + intros other Hne. apply findAccount_save_other. cbn. congruence.
    + intros _. exists f, a'.
      split; [exact Hfile|].
      split; [apply findAccount_save with (a := a); [exact Hf | exact Hid]|].
      do 7 (split; [reflexivity|]).
      intros exams exam_ code newId uuid now st Hexam Hon Hreq.
      unfold Monitoring.joinExam. rewrite Hexam, Hon, Hreq.
      destruct (Exam.isEnrolled exam_ (user_id (profile a'))); cbn; now split.
Qed.

Lemma parseVerificationStatus_Some text v :
  parseVerificationStatus text = Some v <->
  (text = "pending" /\ v = vs_pending)
  \/ (text = "verified" /\ v = vs_verified)
  \/ (text = "rejected" /\ v = vs_rejected).
Proof.
  unfold parseVerificationStatus.
  destruct (String.eqb_spec text "pending") as [->|H1].
  - split; [intros [= <-]; auto | intros [[_ ->] | [[H _] | [H _]]]];
      [reflexivity | discriminate | discriminate].
  - destruct (String.eqb_spec text "verified") as [->|H2].
    + split; [intros [= <-]; auto | intros [[H _] | [[_ ->] | [H _]]]];
        [discriminate | reflexivity | discriminate].
    + destruct (String.eqb_spec text "rejected") as [->|H3].
      * split; [intros [= <-]; auto | intros [[H _] | [[H _] | [_ ->]]]];
          [discriminate | discriminate | reflexivity].
      * split; [discriminate | intros [[H _] | [[H _] | [H _]]]; contradiction].
Qed.

(** X14. [updateVerificationStatus].  A status text other than
    "pending", "verified" or "rejected" is refused with 400, an unknown
    user with 404 and a user who is not a student with 400, and a refused
    request changes no account.  For a student the status is stored as
    given and every other account is left as it was.  The [isVerified]
    flag is set by "verified" and never cleared: an account that has it
    keeps it under every request, a later "rejected" included.  With the
    profile stored by "verified" the student passes the gate of [joinExam]
    for an ongoing exam the student is enrolled in. *)
Theorem verification_status_update :
  forall (accounts : list Account) (id : ObjectId) (text : string),
    let out := updateVerificationStatus accounts id text in
    (isSuccess (fst out) = true <->
     exists v a, parseVerificationStatus text = Some v
                 /\ findAccount id accounts = Some a
                 /\ role (profile a) = student_role)
    /\ (isSuccess (fst out) = false ->
        snd out = accounts /\ isClientError (fst out) = true)
    /\ (forall other, other <> id ->
                      findAccount other (snd out) = findAccount other accounts)
    /\ (forall a, findAccount id accounts = Some a ->
           exists a',
             findAccount id (snd out) = Some a'
             /\ (isVerified a = true -> isVerified a' = true)
             /\ faceData (profile a') = faceData (profile a)
             /\ role (profile a') = role (profile a)
             /\ (isSuccess (fst out) = true ->
                 parseVerificationStatus text
                 = Some (verificationStatus (profile a'))
                 /\ (isVerified a' = true <->
                     text = "verified" \/ isVerified a = true)
                 /\ (text = "verified" ->
                     forall exams exam_ code newId uuid now st,
                       findOne (fun e => String.eqb (Exam.examCode e)
                                                    (toUpperCase code))
                               exams = Some exam_ ->
                       Exam.isOngoing (Exam.status exam_) = true ->
                       Exam.isEnrolled exam_ id = true ->
                       isSuccess
                         (fst (join exams (profile a') code newId uuid now st))
                       = true))).
Proof.
  intros accounts id text out. subst out. unfold updateVerificationStatus.
  destruct (parseVerificationStatus text) as [v|] eqn:Hparse.
  2:{ cbn. split; [split; [discriminate | intros (v & a & H & _); discriminate]|].
      split; [auto|]. split; [auto|].
      intros a Hf. exists a. repeat split; auto; discriminate. }
  destruct (findAccount id accounts) as [a|] eqn:Hf.
  2:{ cbn. split; [split; [discriminate | intros (v' & a & _ & H & _); discriminate]|].
      split; [auto|]. split; [auto|]. intros a H. discriminate. }
  destruct (findAccount_Some _ _ _ Hf) as [_ Hid].
  destruct (role (profile a)) eqn:Hrole.
  1,2: cbn; (split; [split; [discriminate
                            | intros (v' & a0 & _ & H & Hr); congruence]|]);
       (split; [auto|]); (split; [auto|]);
       intros a0 [= <-]; exists a; (split; [exact Hf|]);
       repeat split; auto; discriminate.
  cbn [fst snd isSuccess Nat.leb Nat.ltb andb].
  set (a' := {| profile := withVerificationStatus v (profile a);
                profileImage := profileImage a;
                isActive := isActive a;
                isVerified := match v with
                              | vs_verified => true
                              | _ => isVerified a
                              end |}).
  assert (Hf' : findAccount id (saveAccount a' accounts) = Some a')
    by (apply findAccount_save with (a := a); [exact Hf | exact Hid]).
  split; [split; [intros _; now exists v, a | reflexivity]|].
  split; [discriminate|].
  split; [intros other Hne; apply findAccount_save_other; cbn; congruence|].
  intros a0 [= <-]. exists a'. split; [exact Hf'|].
  split; [cbn; now destruct v|]. split; [reflexivity|].
  split; [reflexivity|]. intros _. split; [reflexivity|].
  apply parseVerificationStatus_Some in Hparse. split.
  - cbn. destruct Hparse as [[-> ->] | [[-> ->] | [-> ->]]];
      split; auto; intros [H | H]; auto; discriminate.
  - intros Htext exams exam_ code newId uuid now st Hexam Hon Henr.
    assert (Hv : v = vs_verified)
      by (destruct Hparse as [[H _] | [[_ H] | [H _]]]; congruence).
    unfold Monitoring.joinExam. rewrite Hexam, Hon. cbn [profile a' user_id
      withVerificationStatus verificationStatus]. rewrite Hid, Henr, Hv.
    cbn [negb isVerified]. rewrite andb_false_r.
    now destruct (findOne (Monitoring.liveFor (Exam._id exam_) id) st).
Qed.

End AccountProperties.


(* ================================================================== *)
(** ** Attendance: reports, scope and the variants of the matcher *)
(* ================================================================== *)

Section AttendanceReports.
Import Attendance AttendanceSpec.

Lemma countMark_total (l : list Record_) :
  (countMark Present l + countMark Absent l)%nat = List.length l.
Proof.
  unfold countMark. induction l as [|r l IH]; simpl; [reflexivity|].
  destruct (attendanceMark r); simpl; lia.
Qed.

Lemma countMark_marked sid d ids now (l : list Record_) :
  countMark Present (map (marked sid d ids now) l)
  = (countMark Present l + List.length (filter (absentAmong sid d ids) l))%nat
  /\ (countMark Absent (map (marked sid d ids now) l)
      + List.length (filter (absentAmong sid d ids) l))%nat
     = countMark Absent l.
Proof.
  unfold countMark. induction l as [|r l [IH1 IH2]]; [split; reflexivity|].
  cbn [map filter]. destruct (absentAmong sid d ids r) eqn:Ha.
  - assert (Hm : marked sid d ids now r = setPresent now r)
      by (unfold marked; now rewrite Ha).
    rewrite Hm, (absentAmong_Absent _ _ _ _ Ha).
    cbn [attendanceMark setPresent markEqb List.length]. split; lia.
  - assert (Hm : marked sid d ids now r = r)
      by (unfold marked; now rewrite Ha).
    rewrite Hm. destruct (attendanceMark r); cbn [markEqb List.length];
      split; lia.
Qed.

Lemma filter_absentAmong_inSession sid d ids (l : list Record_) :
  filter (absentAmong sid d ids) (filter (inSession sid d) l)
  = filter (absentAmong sid d ids) l.
Proof.
  induction l as [|r l IH]; simpl; [reflexivity|].
  destruct (inSession sid d r) eqn:Hi; simpl.
  - now rewrite IH.
  - unfold absentAmong at 2. rewrite Hi. simpl. exact IH.
Qed.

Lemma reconcile_matched_count labels roster :
  List.length (fst (reconcile labels roster [] []))
  = List.length (filter isMatched (snd (reconcile labels roster [] []))).
Proof.
  induction labels as [|a rest IH]; [reflexivity|].
  cbn [reconcile].
  destruct (firstMatch nameMatches a roster) as [record|];
    rewrite reconcile_acc; cbn [fst snd];
    rewrite filter_app, !length_app, IH; reflexivity.
Qed.

Lemma verifyAttendanceWithAI_success coll req now msg d coll' :
  verifyAttendanceWithAI coll req now = (Json 200 true msg (Some d), coll') ->
  exists date a labels r rs,
    vr_attendanceDate req = Some date
    /\ vr_aiDetectedStudents req = Some (a :: labels)
    /\ truthy (vr_sessionId req) = true
    /\ filter (inSession (vr_sessionId req) date) coll = r :: rs.
Proof.
  destruct req as [sid [date|] labels]; [|discriminate].
  destruct (truthy sid) eqn:Hsid;
    [|unfold verifyAttendanceWithAI; cbn; rewrite Hsid; discriminate].
  destruct labels as [[|a labels]|];
    try (unfold verifyAttendanceWithAI; cbn; rewrite Hsid; discriminate).
  destruct (filter (inSession sid date) coll) as [|r rs] eqn:Hroster.
  - unfold verifyAttendanceWithAI. cbn. rewrite Hsid, Hroster. discriminate.
  - intros _. now exists date, a, labels, r, rs.
Qed.

(** X15. The report of a successful [verifyAttendanceWithAI].
    [detected] is the number of labels sent and the match log has one
    entry per label, in the order sent; [matched] is the number of
    [Matched] entries of the log.  In the summary, [total] is the number
    of records of the session and date and [present + absent = total];
    [present] is the number of records that were Present before plus
    [updated], and [absent] is the number that were Absent before minus
    [updated]. *)
Theorem verification_report_consistent :
  forall (coll coll' : list Record_) (req : VerifyRequest) (now : Date)
         (msg : option string) (d : VerifyData),
    verifyAttendanceWithAI coll req now = (Json 200 true msg (Some d), coll') ->
    exists date labels,
      vr_attendanceDate req = Some date
      /\ vr_aiDetectedStudents req = Some labels
      /\ vd_detected d = List.length labels
      /\ map detected (vd_matchLog d) = labels
      /\ vd_matched d = List.length (filter isMatched (vd_matchLog d))
      /\ (vd_matched d <= vd_detected d)%nat
      /\ let before := filter (inSession (vr_sessionId req) date) coll in
         total (vd_summary d) = List.length before
         /\ (present (vd_summary d) + absent (vd_summary d))%nat
            = total (vd_summary d)
         /\ present (vd_summary d)
            = (countMark Present before + vd_updated d)%nat
         /\ (absent (vd_summary d) + vd_updated d)%nat
            = countMark Absent before.
Proof.
  intros coll coll' req now msg d Hrun.
  destruct (verifyAttendanceWithAI_success _ _ _ _ _ _ Hrun)
    as (date & a & labels & r & rs & Hdate & Hlabels & Hsid & Hroster).
  destruct req as [sid od ol]. cbn in Hdate, Hlabels, Hsid, Hroster. subst od ol.
  rewrite (verifyAttendanceWithAI_run _ _ _ _ _ now _ _ Hsid Hroster) in Hrun.
  pose proof (reconcile_detected (a :: labels) (r :: rs)) as Hlog.
  pose proof (reconcile_matched_count (a :: labels) (r :: rs)) as Hcount.
  set (run := reconcile (a :: labels) (r :: rs) [] []) in Hrun, Hlog, Hcount.
  clearbody run. set (ids := fst run) in *.
  injection Hrun as _ <- _. cbn [vr_sessionId].
  exists date, (a :: labels).
  cbn [vd_detected vd_matchLog vd_matched vd_summary vd_updated
       present absent total].
  split; [reflexivity|]. split; [reflexivity|]. split; [reflexivity|].
  split; [exact Hlog|]. split; [exact Hcount|].
  split.
  - rewrite Hcount.
    apply Nat.le_trans with (List.length (snd run)); [apply filter_length_le|].
    rewrite <- (length_map detected), Hlog. reflexivity.
  - cbv zeta. rewrite Hroster.
    rewrite filter_map_comm by (intros; apply marked_inSession).
    rewrite Hroster.
    assert (Hupd : snd (markPresent sid date ids now coll)
                   = List.length (filter (absentAmong sid date ids) (r :: rs))).
    { unfold markPresent. rewrite updateMany_count.
      now rewrite <- Hroster, filter_absentAmong_inSession. }
    rewrite Hupd.
    destruct (countMark_marked sid date ids now (r :: rs)) as [Hp Ha].
    split; [now rewrite length_map|].
    split; [apply countMark_total|]. split; [exact Hp | exact Ha].
Qed.

(** X16. Reading the attendance back.  Right after a successful
    [verifyAttendanceWithAI], [getSessionAttendance] and
    [getAttendanceSummary] for the same session and date answer 200 with
    the numbers of the summary just reported; the log they return has at
    least one record, and its present and absent counts add up to its
    total. *)
Theorem attendance_read_back :
  forall (coll coll' : list Record_) (req : VerifyRequest) (now : Date)
         (msg : option string) (d : VerifyData),
    verifyAttendanceWithAI coll req now = (Json 200 true msg (Some d), coll') ->
    let lookup := {| lr_sessionId := vr_sessionId req;
                     lr_attendanceDate := vr_attendanceDate req |} in
    exists log summary,
      getSessionAttendance coll' lookup = Json 200 true None (Some log)
      /\ getAttendanceSummary coll' lookup = Json 200 true None (Some summary)
      /\ al_totalRecords log = total (vd_summary d)
      /\ al_presentCount log = present (vd_summary d)
      /\ al_absentCount log = absent (vd_summary d)
      /\ as_total summary = total (vd_summary d)
      /\ as_present summary = present (vd_summary d)
      /\ as_absent summary = absent (vd_summary d)
      /\ (1 <= al_totalRecords log)%nat
      /\ (al_presentCount log + al_absentCount log)%nat = al_totalRecords log
      /\ List.length (al_attendance log) = al_totalRecords log.
Proof.
  intros coll coll' req now msg d Hrun lookup. subst lookup.
  destruct (verifyAttendanceWithAI_success _ _ _ _ _ _ Hrun)
    as (date & a & labels & r & rs & Hdate & Hlabels & Hsid & Hroster).
  destruct req as [sid od ol]. cbn in Hdate, Hlabels, Hsid, Hroster. subst od ol.
  rewrite (verifyAttendanceWithAI_run _ _ _ _ _ now _ _ Hsid Hroster) in Hrun.
  set (run := reconcile (a :: labels) (r :: rs) [] []) in Hrun.
  clearbody run. set (ids := fst run) in *.
  injection Hrun as Hd <- Hcoll. cbn [vr_sessionId vr_attendanceDate].
  assert (Hroster' :
            filter (inSession sid date) coll'
            = marked sid date ids now r :: map (marked sid date ids now) rs).
  { rewrite <- Hcoll.
    rewrite filter_map_comm by (intros; apply marked_inSession).
    now rewrite Hroster. }
  unfold getSessionAttendance, getAttendanceSummary.
  cbn [lr_sessionId lr_attendanceDate]. rewrite Hsid. cbn [negb].
  rewrite Hcoll in *. rewrite Hroster'.
  do 2 eexists. split; [reflexivity|]. split; [reflexivity|].
  cbn [al_totalRecords al_presentCount al_absentCount al_attendance
       as_total as_present as_absent vd_summary present absent total].
  rewrite !length_map. unfold countMark.
  repeat split; try reflexivity.
  - simpl. lia.
  - apply (countMark_total (marked sid date ids now r
                            :: map (marked sid date ids now) rs)).
Qed.

Lemma inSession_false_iff sid d r :
  inSession sid d r = false
  <-> sessionId r <> sid \/ Some (attendanceDate r) <> Some d.
Proof.
  unfold inSession. rewrite andb_false_iff, String.eqb_neq, Z.eqb_neq.
  split; intros [H | H]; auto.
  - right. intros [= He]. contradiction.
  - right. intros He. apply H. now f_equal.
Qed.

Lemma marked_Scoped sid d ids now r :
  Scoped sid (Some d) r (marked sid d ids now r).
Proof.
  unfold Scoped.
  split; [apply marked_student|].
  repeat split; try (unfold marked; now destruct (absentAmong sid d ids r)).
  intros Hout. apply inSession_false_iff in Hout.
  unfold marked, absentAmong. now rewrite Hout.
Qed.

Lemma Scoped_refl sid date (coll : list Record_) :
  Forall2 (Scoped sid date) coll coll.
Proof. induction coll; constructor; auto. now repeat split. Qed.

Lemma marked_not_listed sid d ids now r :
  idIn (user_id (student r)) ids = false -> marked sid d ids now r = r.
Proof.
  intros H. unfold marked, absentAmong. rewrite H.
  now rewrite andb_false_r.
Qed.

(** X17. The scope of a marking pass.  Each of the four passes keeps
    the number and the order of the attendance records and, in every
    record, the student, the session, the date and the name; a record of
    another session or another date than the one addressed is left exactly
    as it was.  [updateAttendanceByAI] leaves the record of every student
    who is not in the submitted list as it was, ignores submitted
    identifiers that are on no record, and reports as [modifiedCount] the
    number by which the Present records have grown. *)
Theorem attendance_pass_scope :
  forall (coll : list Record_) (now : Date),
    (forall req,
        Forall2 (Scoped (mr_sessionId req) (mr_attendanceDate req)) coll
                (snd (updateAttendanceByAI coll req now)))
    /\ (forall req,
           Forall2 (Scoped (vr_sessionId req) (vr_attendanceDate req)) coll
                   (snd (verifyAttendanceWithAI coll req now)))
    /\ (forall req,
           Forall2 (Scoped (hr_sessionId req) (hr_attendanceDate req)) coll
                   (snd (hybridAttendanceVerification coll req now)))
    /\ (forall req fetched,
           Forall2 (Scoped (pr_sessionId req) (pr_attendanceDate req)) coll
                   (snd (verifyAttendanceWithPhotos coll req fetched now)))
    /\ (forall req ids,
           mr_presentStudentIds req = Some ids ->
           Forall2 (fun r r' => idIn (user_id (student r)) ids = false -> r' = r)
                   coll (snd (updateAttendanceByAI coll req now)))
    /\ (forall req d,
           dataOf (fst (updateAttendanceByAI coll req now)) = Some d ->
           countMark Present (snd (updateAttendanceByAI coll req now))
           = (countMark Present coll + modifiedCount d)%nat).
Proof.
  intros coll now. split; [|split; [|split; [|split; [|split]]]].
  - intros req. unfold updateAttendanceByAI.
    destruct (mr_attendanceDate req) as [d|]; [|apply Scoped_refl].
    destruct (mr_presentStudentIds req) as [[|i ids]|]; try apply Scoped_refl.
    destruct (truthy (mr_sessionId req)); cbn [negb]; [|apply Scoped_refl].
    rewrite markPresent_eta. cbv iota beta.
    destruct (snd (markPresent _ _ _ _ _) =? 0)%nat; cbn [snd];
      apply Forall2_map_self, marked_Scoped.
  - intros [sid [d|] labels]; [|apply Scoped_refl].
    destruct (truthy sid) eqn:Hsid;
      [|unfold verifyAttendanceWithAI; cbn; rewrite Hsid; apply Scoped_refl].
    destruct labels as [[|a labels]|];
      try (unfold verifyAttendanceWithAI; cbn; rewrite Hsid; apply Scoped_refl).
    destruct (filter (inSession sid d) coll) as [|r rs] eqn:Hroster.
    + unfold verifyAttendanceWithAI. cbn. rewrite Hsid, Hroster.
      apply Scoped_refl.
    + rewrite (verifyAttendanceWithAI_run _ _ _ _ _ now _ _ Hsid Hroster).
      cbn [snd vr_sessionId vr_attendanceDate].
      apply Forall2_map_self, marked_Scoped.
  - intros req. unfold hybridAttendanceVerification.
    destruct (hr_attendanceDate req) as [d|]; [|apply Scoped_refl].
    destruct (hr_aiReport req) as [aiReport|]; [|apply Scoped_refl].
    destruct (truthy (hr_sessionId req)); cbn [negb]; [|apply Scoped_refl].
    destruct (present_students aiReport) as [|a labels]; [apply Scoped_refl|].
    destruct (filter (inSession (hr_sessionId req) d) coll) as [|r rs];
      [apply Scoped_refl|].
    destruct (hybridReconcile _ _ _ _ _) as [ids log].
    rewrite markPresent_eta. cbn [snd].
    apply Forall2_map_self, marked_Scoped.
  - intros req fetched. unfold verifyAttendanceWithPhotos.
    destruct (pr_attendanceDate req) as [d|]; [|apply Scoped_refl].
    destruct (negb (truthy (pr_sessionId req))
              || negb (truthy (pr_aiReportUrl req))); [apply Scoped_refl|].
    destruct fetched as [text | [|a labels]]; try apply Scoped_refl.
    destruct (photoReconcile _ _ _ _) as [ids details].
    rewrite markPresent_eta. cbn [snd].
    apply Forall2_map_self, marked_Scoped.
  - intros req ids Hids.
    assert (Hrefl : Forall2 (fun r r' : Record_ =>
                               idIn (user_id (student r)) ids = false -> r' = r)
                            coll coll)
      by (clear; induction coll; constructor; auto).
    unfold updateAttendanceByAI. rewrite Hids.
    destruct (mr_attendanceDate req) as [d|]; [|exact Hrefl].
    destruct ids as [|i ids]; [exact Hrefl|].
    destruct (truthy (mr_sessionId req)); cbn [negb]; [|exact Hrefl].
    rewrite markPresent_eta. cbv iota beta.
    destruct (snd (markPresent _ _ _ _ _) =? 0)%nat; cbn [snd];
      apply Forall2_map_self; intros r; apply marked_not_listed.
  - intros req d. unfold updateAttendanceByAI.
    destruct (mr_attendanceDate req) as [date|]; [|discriminate].
    destruct (mr_presentStudentIds req) as [[|i ids]|]; try discriminate.
    destruct (truthy (mr_sessionId req)); cbn [negb]; [|discriminate].
    rewrite markPresent_eta. cbv iota beta.
    assert (Hn : snd (markPresent (mr_sessionId req) date (i :: ids) now coll)
                 = List.length (filter (absentAmong (mr_sessionId req) date
                                                    (i :: ids)) coll))
      by apply updateMany_count.
    destruct (countMark_marked (mr_sessionId req) date (i :: ids) now coll)
      as [Hp _].
    destruct (Nat.eqb_spec (snd (markPresent (mr_sessionId req) date (i :: ids)
                                             now coll)) 0) as [H0|H0];
      cbn [fst snd dataOf]; intros [= <-]; cbn [modifiedCount]; lia.
Qed.

Lemma hybridMatches_NameMatch fullName aiName :
  hybridMatches fullName aiName = true -> nameMatches fullName aiName = true.
Proof.
  unfold hybridMatches, nameMatches.
  rewrite !orb_true_iff, !andb_true_iff. tauto.
Qed.

Lemma hybridMatches_long fullName aiName :
  (2 < String.length fullName)%nat -> (2 < String.length aiName)%nat ->
  hybridMatches fullName aiName = nameMatches fullName aiName.
Proof.
  intros Hf Ha. unfold hybridMatches, nameMatches.
  apply Nat.ltb_lt in Hf, Ha. now rewrite Hf, Ha, !andb_true_r.
Qed.

Lemma photoReconcile_ids labels roster ids details log :
  fst (photoReconcile labels roster ids details)
  = fst (reconcile labels roster ids log).
Proof.
  revert ids details log.
  induction labels as [|a rest IH]; intros ids details log; [reflexivity|].
  cbn [photoReconcile reconcile].
  destruct (firstMatch nameMatches a roster) as [record|]; apply IH.
Qed.

(** X18. The three variants of the matcher.  The hybrid variant gives
    each label the first roster record, in roster order, that satisfies
    its length-gated condition, and "No match" when none does.  Whatever
    it matches the ungated matcher matches too, so a label verified by the
    hybrid variant is never "Not Found" for [verifyAttendanceWithAI]; and
    when the label and every full name on the roster have more than 2
    characters the two variants pick the same record.  The photo variant
    marks exactly the students [verifyAttendanceWithAI] marks. *)
Theorem matcher_variants :
  forall (roster : list Record_) (aiName : string) (conf : string -> Q),
    ((exists record,
         FirstIn HybridMatch roster aiName record
         /\ hybridReconcile conf [aiName] roster [] []
            = ([user_id (student record)],
               [ {| vl_aiName := aiName;
                    vl_dbName := Some (fullNameOf record);
                    vl_confidence := conf aiName;
                    vl_status := Verified |} ]))
     \/ (NoneIn HybridMatch roster aiName
         /\ hybridReconcile conf [aiName] roster [] []
            = ([], [ {| vl_aiName := aiName;
                        vl_dbName := None;
                        vl_confidence := conf aiName;
                        vl_status := NoMatch |} ])))
    /\ (forall record,
           firstMatch hybridMatches aiName roster = Some record ->
           exists record', firstMatch nameMatches aiName roster = Some record')
    /\ ((2 < String.length aiName)%nat ->
        (forall r, In r roster -> (2 < String.length (fullNameOf r))%nat) ->
        firstMatch hybridMatches aiName roster
        = firstMatch nameMatches aiName roster)
    /\ (forall labels,
           fst (photoReconcile labels roster [] [])
           = fst (reconcile labels roster [] [])).
Proof.
  intros roster aiName conf. split; [|split; [|split]].
  - cbn [hybridReconcile].
    destruct (firstMatch hybridMatches aiName roster) as [record|] eqn:Hf.
    + left. exists record. split; [|reflexivity].
      exact (firstMatch_Some _ _ hybridMatches_iff _ _ _ Hf).
    + right. split; [|reflexivity].
      exact (firstMatch_None _ _ hybridMatches_iff _ _ Hf).
  - induction roster as [|r rest IH]; simpl; [discriminate|].
    intros record.
    destruct (hybridMatches (fullNameOf r) aiName) eqn:Hh.
    + rewrite (hybridMatches_NameMatch _ _ Hh). intros _. now exists r.
    + intros H. destruct (nameMatches (fullNameOf r) aiName);
        [now exists r | exact (IH record H)].
  - intros Ha Hall. induction roster as [|r rest IH]; simpl; [reflexivity|].
    rewrite hybridMatches_long by (auto; apply Hall; now left).
    destruct (nameMatches (fullNameOf r) aiName); [reflexivity|].
    apply IH. intros r' Hr'. apply Hall. now right.
  - intros labels. apply photoReconcile_ids.
Qed.

End AttendanceReports.


(* ================================================================== *)
(** ** The further properties at the sample data *)
(* ================================================================== *)

Section FurtherInstances.
Import Monitoring Monitoring.SpecModel SessionSpec.

(** John Smith is enrolled in the final exam, after Jane Doe. *)
Lemma enrollStudent_enrolls_witness :
  ExamAdmin.findById 102 Sample.catalog = Some Sample.final
  /\ exists exam',
      ExamAdmin.findById 102
        (snd (ExamAdmin.enrollStudent Sample.catalog Sample.users 102 3))
      = Some exam'
      /\ Exam.enrolledStudents exam' = [1; 3]
      /\ Exam.isEnrolled exam' 3 = true.
Proof.
  split; [reflexivity|].
  destruct (enrollStudent_enrolls Sample.catalog Sample.users 102 3
              Sample.final eq_refl) as (_ & _ & _ & Hok & _).
  destruct (Hok eq_refl) as (_ & _ & exam' & Hf & He & Hl & _).
  exists exam'. repeat split; assumption.
Defined.

(** Jane Doe is taken off the final exam. *)
Lemma unenrollStudent_removes_witness :
  ExamAdmin.findById 102 Sample.catalog = Some Sample.final
  /\ exists exam',
      ExamAdmin.findById 102
        (snd (ExamAdmin.unenrollStudent Sample.catalog 102 1)) = Some exam'
      /\ Exam.isEnrolled exam' 1 = false.
Proof.
  split; [reflexivity|].
  destruct (unenrollStudent_removes Sample.catalog Sample.users 102 1
              Sample.final eq_refl) as ((exam' & Hrun & Hf & He & _) & _).
  exists exam'. rewrite Hrun. split; assumption.
Defined.

(** The final exam is started and ended; it cannot be started again. *)
Lemma exam_life_cycle_witness :
  Exam.status Sample.final = Exam.scheduled
  /\ isSuccess (fst (ExamAdmin.startExam Sample.catalog 102)) = true
  /\ isSuccess (fst (ExamAdmin.deleteExam Sample.catalog 100)) = false.
Proof.
  split; [reflexivity|].
  destruct (exam_life_cycle Sample.catalog Sample.sessions3 102 Sample.final
              3000%Z 4000%Z eq_refl) as (Hstart & _).
  split; [now apply Hstart | reflexivity].
Defined.

(** Ending the midterm leaves Jane Doe's paused quiz session alone. *)
Lemma endExam_completes_active_sessions_witness :
  Exam.status Sample.midterm = Exam.ongoing
  /\ In Sample.onHold
        (snd (ExamAdmin.endExam Sample.catalog Sample.sessions3 100 3000%Z))
  /\ map finalReport
         (snd (ExamAdmin.endExam Sample.catalog Sample.sessions3 100 3000%Z))
     = map finalReport Sample.sessions3.
Proof.
  split; [reflexivity|].
  destruct (endExam_completes_active_sessions Sample.catalog Sample.sessions3
              100 Sample.midterm 3000%Z eq_refl eq_refl)
    as (_ & _ & Hkeep & Hreports & _).
  split; [|exact Hreports].
  apply Hkeep; [right; right; now left | left; discriminate].
Defined.

Lemma no_join_after_endExam_witness :
  Exam.status Sample.midterm = Exam.ongoing
  /\ startMonitoringSession SessionError
       (snd (fst (ExamAdmin.endExam Sample.catalog Sample.sessions3 100 3000%Z)))
       Sample.johnSmith 100 503 "uuid-3" 4000%Z
       (snd (ExamAdmin.endExam Sample.catalog Sample.sessions3 100 3000%Z))
     = (Json 400 false (Some "Exam is not currently active") None,
        snd (ExamAdmin.endExam Sample.catalog Sample.sessions3 100 3000%Z)).
Proof.
  split; [reflexivity|].
  exact (proj1 (no_join_after_endExam SessionError Sample.catalog
                  Sample.sessions3 100 Sample.midterm "cs101" Sample.johnSmith
                  503 "uuid-3" 3000%Z 4000%Z eq_refl eq_refl eq_refl)).
Defined.

(** The three students of the midterm, two per page. *)
Lemma enrolled_students_pages_witness :
  ExamAdmin.findById 100 Sample.catalog = Some Sample.midterm
  /\ (1 <= 2)%Z
  /\ List.concat
       (map (fun i => ExamAdmin.studentsOnPage Sample.catalog 100 (Z.of_nat i) 2)
            (seq 1 (Z.to_nat (ExamAdmin.ceilDiv 3 2))))
     = [1; 2; 3].
Proof.
  split; [reflexivity|]. split; [lia|].
  exact (proj1 (proj2 (proj2 (enrolled_students_pages Sample.catalog 100
                                Sample.midterm 2 eq_refl ltac:(lia))))).
Defined.

Lemma finalize_and_status_frame_witness :
  UniqueIds Sample.store
  /\ map violations
         (snd (updateSessionStatus SessionError Sample.proctor "sess-jane"
                 paused None 3000%Z Sample.store))
     = map violations Sample.store.
Proof.
  split; [exact sample_store_unique|].
  destruct (finalize_and_status_frame SessionError (calculateRiskScore 10)
              Sample.store Sample.proctor "sess-jane" 3000%Z paused None
              sample_store_unique) as (_ & _ & Hv & _).
  exact Hv.
Defined.

Lemma sample_store_one_live : AtMostOneLive Sample.store.
Proof.
  intros e u. cbn [Sample.store filter].
  assert (Hclosed : liveFor e u Sample.closed = false)
    by (unfold liveFor; cbn; now rewrite andb_false_r).
  rewrite Hclosed. destruct (liveFor e u Sample.running); cbn; lia.
Defined.

Lemma one_live_session_preserved_witness :
  AtMostOneLive Sample.store
  /\ AtMostOneLive
       (snd (startMonitoringSession SessionError Sample.exams Sample.johnSmith
               100 502 "uuid-1" 3000%Z Sample.store)).
Proof.
  split; [exact sample_store_one_live|].
  exact (proj1 (one_live_session_preserved SessionError (calculateRiskScore 10)
                  Sample.store Sample.exams Sample.johnSmith 100 "cs101"
                  "sess-john" "uuid-1" 502 3000%Z sample_store_one_live)).
Defined.

Lemma mock_recognition_bounds_witness :
  (0 <= faceCount (detectFaces Sample.oneFace) <= 2)%Z
  /\ c_match (compareFaces true true Sample.oneFace) = true
  /\ (6 # 10 <= c_confidence (compareFaces true true Sample.oneFace))%Q
  /\ (c_confidence (compareFaces true true Sample.oneFace) <= 1)%Q.
Proof.
  destruct (mock_recognition_bounds Sample.oneFace
              ltac:(unfold Qle; cbn; lia) ltac:(unfold Qlt; cbn; lia)
              ltac:(unfold Qle; cbn; lia) ltac:(unfold Qlt; cbn; lia))
    as (Hcount & Hmatch & Hlow & Hhigh & _).
  repeat split; assumption.
Defined.

(** Jane Doe, with a descriptor on file, is verified whatever she shows. *)
Lemma verifyFace_registered_is_verified_witness :
  faceData Sample.registered = Some "[0.25,0.5]"
  /\ exists confidence stored,
      verifyFace SessionError addViolation addFaceVerification JSON_parse
        [Sample.registered] Sample.registered "sess-jane" "anything"
        Sample.oneFace 3000%Z Sample.store
      = (Json 200 true None
              (Some {| fd_result := verified; fd_confidence := confidence |}),
         stored).
Proof.
  split; [reflexivity|].
  destruct (verifyFace_registered_is_verified SessionError addViolation
              addFaceVerification JSON_parse
              [Sample.registered] Sample.registered Sample.registered
              "sess-jane" "anything" Sample.oneFace 3000%Z Sample.store
              Sample.running "[" "0.25,0.5]"
              eq_refl eq_refl eq_refl eq_refl eq_refl eq_refl eq_refl
              ltac:(unfold Qle; cbn; lia) eq_refl) as [Hrun _].
  do 2 eexists. exact Hrun.
Defined.

Lemma verifyFace_multiple_faces_witness :
  multipleFaces (detectFaces Sample.severalFaces) = true
  /\ exists stored,
      verifyFace SessionError addViolation addFaceVerification JSON_parse
        Sample.users Sample.janeDoe "sess-jane" "data:image/png;base64,AAAA"
        Sample.severalFaces 3000%Z Sample.store
      = (Json 200 true None
              (Some {| fd_result := multiple_faces; fd_confidence := 0 |}),
         stored).
Proof.
  split; [reflexivity|].
  destruct (verifyFace_multiple_faces SessionError addViolation
              addFaceVerification JSON_parse
              Sample.users Sample.janeDoe Sample.janeDoe
              "sess-jane" "data:image/png;base64,AAAA" Sample.severalFaces
              3000%Z Sample.store Sample.running
              eq_refl eq_refl eq_refl eq_refl eq_refl) as (Hok & _).
  eexists. exact (Hok _ _ eq_refl eq_refl).
Defined.

(** John Smith, verified, registers a new face: his status is pending. *)
Lemma face_registration_resets_verification_witness :
  verificationStatus Sample.johnSmith = vs_verified
  /\ exists a',
      Accounts.findAccount 3
        (snd (Accounts.registerFace Sample.stringify Sample.accounts
                Sample.johnSmith (Some Sample.portrait) Sample.oneFace
                (fun _ => (1 # 2)%Q)))
      = Some a'
      /\ verificationStatus (Accounts.profile a') = vs_pending.
Proof.
  split; [reflexivity|].
  destruct (face_registration_resets_verification SessionError
              Sample.stringify Sample.accounts Sample.johnSmith
              (Some Sample.portrait) Sample.oneFace (fun _ => (1 # 2)%Q)
              (Sample.accountOf Sample.johnSmith) eq_refl)
    as (_ & _ & _ & _ & _ & Hok).
  destruct (Hok eq_refl) as (f & a' & _ & Hf & Hv & _).
  exists a'. split; assumption.
Defined.

(** The labels "Jane Doe" and "nonexistent" against three absent
    students: one present, two absent. *)
Lemma verification_report_consistent_witness :
  exists d,
    dataOf (fst (Attendance.verifyAttendanceWithAI Sample.roster3
                   (Attendance.mkVerifyRequest "S1" (Some 20260101%Z)
                      (Some ["Jane Doe"; "nonexistent"])) 5%Z))
    = Some d
    /\ (Attendance.present (Attendance.vd_summary d)
        + Attendance.absent (Attendance.vd_summary d))%nat
       = Attendance.total (Attendance.vd_summary d)
    /\ Attendance.vd_detected d = 2.
Proof.
  eexists. split; [reflexivity|].
  destruct (verification_report_consistent Sample.roster3 _
              (Attendance.mkVerifyRequest "S1" (Some 20260101%Z)
                 (Some ["Jane Doe"; "nonexistent"])) 5%Z _ _ eq_refl)
    as (date & labels & _ & Hl & Hdet & _ & _ & _ & _ & Hsum & _).
  split; [exact Hsum|].
  rewrite Hdet. injection Hl as <-. reflexivity.
Defined.

Lemma attendance_read_back_witness :
  exists log,
    Attendance.getSessionAttendance
      (snd (Attendance.verifyAttendanceWithAI Sample.roster3
              (Attendance.mkVerifyRequest "S1" (Some 20260101%Z)
                 (Some ["Jane Doe"; "nonexistent"])) 5%Z))
      {| Attendance.lr_sessionId := "S1";
         Attendance.lr_attendanceDate := Some 20260101%Z |}
    = Json 200 true None (Some log)
    /\ (Attendance.al_presentCount log + Attendance.al_absentCount log)%nat
       = Attendance.al_totalRecords log.
Proof.
  destruct (attendance_read_back Sample.roster3 _
              (Attendance.mkVerifyRequest "S1" (Some 20260101%Z)
                 (Some ["Jane Doe"; "nonexistent"])) 5%Z _ _ eq_refl)
    as (log & summary & Hlog & _ & _ & _ & _ & _ & _ & _ & _ & Hsum & _).
  exists log. split; assumption.
Defined.

End FurtherInstances.
